(** * Knowledge_Distillation.py: the training entry point, embedded

    The script has two functions, [train] and [train_kd], and a
    [__main__] block.  They are glue over a file system, the process
    environment, a heap of model objects and a handful of collaborators
    (PyTorch, the trainer, the data loader, wandb).  The embedding below
    keeps that shape: Python strings and [os.path] as functions on
    [string], dictionaries as [gmap] or ordered association lists, and
    the statements of the script as actions of a small state-and-exception
    monad over an explicit [world]. *)

From stdpp Require Import gmap strings list fin_maps.
From Stdlib Require Import ZArith Lia Ascii String QArith.

Open Scope string_scope.

(** ** Python strings *)

Module PyStr.

(** [s.startswith(p)]. *)
Fixpoint startswith (p s : string) : bool :=
  match p, s with
  | EmptyString, _ => true
  | String a p', String b s' => if Ascii.eqb a b then startswith p' s' else false
  | String _ _, EmptyString => false
  end.

(** The path separator. *)
Definition slash : Ascii.ascii := "/"%char.

(** [s.endswith("/")]. *)
Fixpoint endswith_slash (s : string) : bool :=
  match s with
  | EmptyString => false
  | String c EmptyString => Ascii.eqb c slash
  | String _ s' => endswith_slash s'
  end.

(** ["/" in s]. *)
Fixpoint has_slash (s : string) : bool :=
  match s with
  | EmptyString => false
  | String c s' => if Ascii.eqb c slash then true else has_slash s'
  end.

(** [s == "/" * len(s)]. *)
Fixpoint all_slashes (s : string) : bool :=
  match s with
  | EmptyString => true
  | String c s' => if Ascii.eqb c slash then all_slashes s' else false
  end.

(** [s.rstrip("/")]. *)
Fixpoint rstrip_slash (s : string) : string :=
  match s with
  | EmptyString => EmptyString
  | String c s' =>
      match rstrip_slash s' with
      | EmptyString => if Ascii.eqb c slash then EmptyString else String c EmptyString
      | r => String c r
      end
  end.

(** [s[: s.rfind("/") + 1]]: everything up to and including the last
    slash, the empty string when there is none. *)
Fixpoint upto_last_slash (s : string) : string :=
  match s with
  | EmptyString => EmptyString
  | String c s' =>
      if has_slash s' then String c (upto_last_slash s')
      else if Ascii.eqb c slash then String c EmptyString
      else EmptyString
  end.

(** The scan of [str.replace(old, new)] for a non-empty [old]: left to
    right, an occurrence of [old] is replaced by [new] and the scan
    resumes after it.  [skip] counts the characters of the occurrence
    still to be passed over. *)
Fixpoint replace_scan (old new : string) (skip : nat) (s : string) : string :=
  match s with
  | EmptyString => EmptyString
  | String c s' =>
      match skip with
      | S k => replace_scan old new k s'
      | O =>
          if startswith old s
          then new +:+ replace_scan old new (String.length old - 1) s'
          else String c (replace_scan old new 0 s')
      end
  end.

(** With an empty [old], Python puts [new] before every character and
    at the end. *)
Fixpoint interleave (new s : string) : string :=
  match s with
  | EmptyString => new
  | String c s' => new +:+ String c (interleave new s')
  end.

(** [s.replace(old, new)]. *)
Definition replace (old new s : string) : string :=
  match old with
  | EmptyString => interleave new s
  | _ => replace_scan old new 0 s
  end.

(** [s[n:]]. *)
Fixpoint drop (n : nat) (s : string) : string :=
  match n, s with
  | O, _ => s
  | S _, EmptyString => EmptyString
  | S k, String _ s' => drop k s'
  end.

(** [old in s]. *)
Fixpoint contains (old s : string) : bool :=
  startswith old s ||
  match s with
  | EmptyString => false
  | String _ s' => contains old s'
  end.

End PyStr.

(** ** [os.path] (posixpath) *)

Module OsPath.

(** [os.path.join(a, b)]. *)
Definition join (a b : string) : string :=
  if PyStr.startswith "/" b then b
  else if bool_decide (a = "") || PyStr.endswith_slash a then a +:+ b
  else a +:+ "/" +:+ b.

(** [os.path.dirname(p)]. *)
Definition dirname (p : string) : string :=
  let head := PyStr.upto_last_slash p in
  if bool_decide (head = "") || PyStr.all_slashes head then head
  else PyStr.rstrip_slash head.

End OsPath.

(** ** Values

    Configuration documents are YAML mappings; the script only reads
    scalars from them. *)

Inductive yaml : Type :=
| YNull
| YBool (b : bool)
| YInt (z : Z)
| YFloat (q : Q)
| YStr (s : string).

#[global] Instance Q_eq_dec : EqDecision Q.
Proof. solve_decision. Defined.

#[global] Instance yaml_eq_dec : EqDecision yaml.
Proof. solve_decision. Defined.

(** Python truthiness, as used by [fp16 and ...]. *)
Definition truthy (v : yaml) : bool :=
  match v with
  | YNull => false
  | YBool b => b
  | YInt z => negb (Z.eqb z 0)
  | YFloat q => negb (Z.eqb (Qnum q) 0)
  | YStr s => negb (bool_decide (s = ""))
  end.

Abbreviation config := (gmap string yaml).

(** A tensor: its shape and its elements (their bit patterns, in storage
    order).  The script never looks inside. *)
Record tensor : Type := Tensor { t_shape : list nat; t_bits : list Z }.

#[global] Instance tensor_eq_dec : EqDecision tensor.
Proof. solve_decision. Defined.

(** [torch.device]: a type and an optional index.  Equality is
    componentwise, so [torch.device("cpu")] and [torch.device("cpu:0")]
    differ. *)
Inductive device_type : Type := CPU | CUDA.

Record device : Type := Device { dev_type : device_type; dev_index : option nat }.

#[global] Instance device_type_eq_dec : EqDecision device_type.
Proof. solve_decision. Defined.

#[global] Instance device_eq_dec : EqDecision device.
Proof. solve_decision. Defined.

(** [torch.device("cpu")] and [torch.device("cuda:0")]. *)
Definition device_cpu : device := Device CPU None.
Definition device_cuda0 : device := Device CUDA (Some 0%nat).

(** ** Ordered dictionaries

    A state dict is an [OrderedDict] from parameter names to tensors:
    an association list with distinct keys, assignment updating in place
    or appending. *)

Module ODict.

Section defs.
Context {V : Type}.

(** [d.get(k)]. *)
Fixpoint get (k : string) (d : list (string * V)) : option V :=
  match d with
  | [] => None
  | (k', v) :: d' => if bool_decide (k' = k) then Some v else get k d'
  end.

(** [d[k] = v]. *)
Fixpoint set (k : string) (v : V) (d : list (string * V)) : list (string * V) :=
  match d with
  | [] => [(k, v)]
  | (k', v') :: d' =>
      if bool_decide (k' = k) then (k, v) :: d' else (k', v') :: set k v d'
  end.

(** [list(d.keys())]. *)
Definition keys (d : list (string * V)) : list string := d.*1.

(** [k in d]. *)
Definition mem (k : string) (d : list (string * V)) : bool :=
  bool_decide (k ∈ keys d).
End defs.

End ODict.

Abbreviation state_dict := (list (string * tensor)).

(** ** Exceptions and outcomes *)

Inductive exn_kind : Type :=
| AssertionError
| FileNotFoundError
| FileExistsError
| NotADirectoryError
| IsADirectoryError
| OSError
| KeyError
| ValueError
| TypeError
| RuntimeError
| YAMLError
| UnpicklingError.

(** A raised exception: its class and its message (or offending path or
    key). *)
Record exn : Type := Exn { exn_kind_of : exn_kind; exn_msg : string }.

Inductive outcome (A : Type) : Type :=
| Ret (a : A)
| Raise (e : exn).

Arguments Ret {A} a.
Arguments Raise {A} e.

(** ** The file system

    A finite map from paths to nodes.  Paths are keys as written: the
    model covers runs whose paths are in normal form (no trailing or
    doubled slash, no [.] or [..] component), as the script's defaults
    are.  A relative path with no directory part lives in the working
    directory, which always exists, as does the root. *)

Inductive content : Type :=
| Yaml (cfg : config)
| Checkpoint (sd : state_dict)
| Blob (bytes : string).

Inductive node : Type :=
| File (mtime : Z) (c : content)
| Dir (mtime : Z).

Abbreviation filesystem := (gmap string node).

Module Fs.

(** [os.path.exists(p)]. *)
Definition exists_ (fs : filesystem) (p : string) : bool :=
  bool_decide (is_Some (fs !! p)).

(** [os.path.isfile(p)]. *)
Definition isfile (fs : filesystem) (p : string) : bool :=
  match fs !! p with
  | Some (File _ _) => true
  | _ => false
  end.

(** [os.path.isdir(p)]. *)
Definition isdir (fs : filesystem) (p : string) : bool :=
  match fs !! p with
  | Some (Dir _) => true
  | _ => false
  end.

(** [k] is [root] or lies below it. *)
Definition under (root k : string) : bool :=
  bool_decide (k = root) || PyStr.startswith (root +:+ "/") k.

(** The path of [k] after the tree at [src] has moved to [dst]. *)
Definition rekey (src dst k : string) : string :=
  if under src k then dst +:+ PyStr.drop (String.length src) k else k.

(** Some entry lies strictly below [root]. *)
Definition has_children (fs : filesystem) (root : string) : bool :=
  bool_decide (Exists (λ k, PyStr.startswith (root +:+ "/") k = true)
                      (map_to_list fs).*1).

(** The directory that must hold [p]: [None] for the working directory
    and the root, which always exist. *)
Definition parent (p : string) : option string :=
  let d := OsPath.dirname p in
  if bool_decide (d = "") || PyStr.all_slashes d then None else Some d.

(** The parent of [p] is there and is a directory. *)
Definition check_parent (fs : filesystem) (p : string) : outcome unit :=
  match parent p with
  | None => Ret tt
  | Some d =>
      match fs !! d with
      | Some (Dir _) => Ret tt
      | Some (File _ _) => Raise (Exn NotADirectoryError p)
      | None => Raise (Exn FileNotFoundError p)
      end
  end.

(** [os.path.getmtime(p)]: the [stat] of a path that is not there fails
    with [NotADirectoryError] when the entry that should hold it is a
    regular file, with [FileNotFoundError] otherwise. *)
Definition getmtime (fs : filesystem) (p : string) : outcome Z :=
  match fs !! p with
  | Some (File m _) => Ret m
  | Some (Dir m) => Ret m
  | None =>
      match check_parent fs p with
      | Raise e => Raise e
      | Ret _ => Raise (Exn FileNotFoundError p)
      end
  end.

(** Every entry of the tree at [src] re-keyed below [dst]. *)
Definition move (src dst : string) (fs : filesystem) : filesystem :=
  list_to_map ((λ kv, (rekey src dst kv.1, kv.2)) <$> map_to_list fs).

(** [os.rename(src, dst)] (POSIX [rename(2)]): the whole tree at [src]
    moves.  A directory cannot be moved into itself: a [dst] below [src],
    [src] taken without its trailing slashes, is refused.  An existing
    [dst] is replaced only when [src] is a directory and [dst] an empty
    one, or both are files. *)
Definition rename (fs : filesystem) (src dst : string) : outcome filesystem :=
  match fs !! src with
  | None => Raise (Exn FileNotFoundError src)
  | Some n =>
      if bool_decide (src = dst) then Ret fs
      else if PyStr.startswith (PyStr.rstrip_slash src +:+ "/") dst
      then Raise (Exn OSError dst)
      else
        match check_parent fs dst with
        | Raise e => Raise e
        | Ret _ =>
            match fs !! dst, n with
            | None, _ => Ret (move src dst fs)
            | Some (Dir _), Dir _ =>
                if has_children fs dst then Raise (Exn OSError dst)
                else Ret (move src dst (delete dst fs))
            | Some (File _ _), File _ _ => Ret (move src dst (delete dst fs))
            | Some (File _ _), Dir _ => Raise (Exn NotADirectoryError dst)
            | Some (Dir _), File _ _ => Raise (Exn IsADirectoryError dst)
            end
        end
  end.

(** [os.mkdir(p)] at time [now]. *)
Definition mkdir (now : Z) (fs : filesystem) (p : string) : outcome filesystem :=
  match fs !! p with
  | Some _ => Raise (Exn FileExistsError p)
  | None =>
      if bool_decide (p = "") then Raise (Exn FileNotFoundError p)
      else
        match check_parent fs p with
        | Raise e => Raise e
        | Ret _ => Ret (<[p := Dir now]> fs)
        end
  end.

(** [os.path.split(p)]. *)
Definition split (p : string) : string * string :=
  (OsPath.dirname p, PyStr.drop (String.length (PyStr.upto_last_slash p)) p).

(** The head and tail [makedirs] works with: those of [split], taken
    once more when the path ends in a slash. *)
Definition split_last (name : string) : string * string :=
  let ht := split name in
  if bool_decide (ht.2 = "") then split ht.1 else ht.

(** [os.makedirs(name, exist_ok=True)]: create the missing ancestors,
    then the leaf; an existing directory is accepted.  The recursion of
    the library function is on the head of the path, which is shorter
    than the path: [fuel] the length of the path is enough. *)
Fixpoint makedirs_rec (fuel : nat) (now : Z) (fs : filesystem) (name : string)
  : outcome filesystem :=
  let leaf (fs1 : filesystem) :=
    match mkdir now fs1 name with
    | Ret fs2 => Ret fs2
    | Raise e => if isdir fs1 name then Ret fs1 else Raise e
    end in
  match fuel with
  | O => leaf fs
  | S fuel' =>
      let head := (split_last name).1 in
      let tail := (split_last name).2 in
      if negb (bool_decide (head = "")) && negb (bool_decide (tail = ""))
         && negb (exists_ fs head)
      then
        match makedirs_rec fuel' now fs head with
        | Ret fs1 => if bool_decide (tail = ".") then Ret fs1 else leaf fs1
        | Raise (Exn FileExistsError _) =>
            if bool_decide (tail = ".") then Ret fs else leaf fs
        | Raise e => Raise e
        end
      else leaf fs
  end.

Definition makedirs (now : Z) (fs : filesystem) (name : string) : outcome filesystem :=
  makedirs_rec (String.length name) now fs name.

(** Opening [p] for writing and storing [c]: the parent directory must
    exist and [p] must not be a directory. *)
Definition write (now : Z) (fs : filesystem) (p : string) (c : content)
  : outcome filesystem :=
  match fs !! p with
  | Some (Dir _) => Raise (Exn IsADirectoryError p)
  | _ =>
      if bool_decide (p = "") then Raise (Exn FileNotFoundError p)
      else
        match check_parent fs p with
        | Raise e => Raise e
        | Ret _ => Ret (<[p := File now c]> fs)
        end
  end.

(** Opening [p] for reading. *)
Definition read (fs : filesystem) (p : string) : outcome content :=
  match fs !! p with
  | Some (File _ c) => Ret c
  | Some (Dir _) => Raise (Exn IsADirectoryError p)
  | None => Raise (Exn FileNotFoundError p)
  end.

End Fs.

(** ** The world and the monad of the script

    What the script can touch: the file system, the heap of model
    objects (each with its parameters and its device), the clock that
    stamps the files it writes, and a trace of the calls it makes to its
    collaborators.  An action runs in a world and either returns or
    raises; the world at the raise is kept, since what an aborted run
    leaves behind matters. *)

Record nn_module : Type := NnModule { m_params : state_dict; m_device : device }.

(** The calls that are recorded: [setSeed], [wandb.init] and
    [wandb.config.update]; the entry into [train] and into [train_kd];
    [optimizer.step()] with the parameter references the optimizer holds;
    [torch.save]; [load_state_dict] on a model object; one evaluation
    pass of a model object. *)
Inductive event : Type :=
| EvSetSeed (seed : Z)
| EvWandbInit (run_name : string)
| EvWandbConfig (cfg : config)
| EvTrain
| EvTrainKd
| EvOptimizerStep (params : list (nat * string))
| EvSave (path : string)
| EvLoadStateDict (model : nat) (strict : bool)
| EvTest (model : nat).

#[global] Instance event_eq_dec : EqDecision event.
Proof. solve_decision. Defined.

Record world : Type := World {
  w_fs : filesystem;
  w_heap : gmap nat nn_module;
  w_trace : list event;
  w_clock : Z
}.

Definition M (A : Type) : Type := world → outcome A * world.

Definition ret {A} (a : A) : M A := λ w, (Ret a, w).

Definition bind {A B} (m : M A) (k : A → M B) : M B :=
  λ w, match m w with
       | (Ret a, w') => k a w'
       | (Raise e, w') => (Raise e, w')
       end.

Definition raise {A} (k : exn_kind) (msg : string) : M A :=
  λ w, (Raise (Exn k msg), w).

Declare Scope script_scope.
Delimit Scope script_scope with script.

Notation "'let*' x := m 'in' k" := (bind m (λ x, k))
  (at level 10, x pattern, m at level 100, k at level 200) : script_scope.
Notation "m ;; k" := (bind m (λ _, k))
  (at level 100, k at level 200, right associativity) : script_scope.

Open Scope script_scope.

(** Lifting the file-system operations. *)
Definition fs_query {A} (f : filesystem → A) : M A := λ w, (Ret (f (w_fs w)), w).

Definition fs_try {A} (f : filesystem → outcome A) : M A := λ w, (f (w_fs w), w).

Definition fs_update (f : Z → filesystem → outcome filesystem) : M unit :=
  λ w, match f (w_clock w) (w_fs w) with
       | Ret fs' => (Ret tt, World fs' (w_heap w) (w_trace w) (w_clock w))
       | Raise e => (Raise e, w)
       end.

Definition emit (ev : event) : M unit :=
  λ w, (Ret tt, World (w_fs w) (w_heap w) (w_trace w ++ [ev]) (w_clock w)).

(** A new model object. *)
Definition alloc (m : nn_module) : M nat :=
  λ w, let l := fresh (dom (w_heap w)) in
       (Ret l, World (w_fs w) (<[l := m]> (w_heap w)) (w_trace w) (w_clock w)).

Definition get_module (l : nat) : M nn_module :=
  λ w, match w_heap w !! l with
       | Some m => (Ret m, w)
       | None => (Raise (Exn RuntimeError "dangling model"), w)
       end.

Definition set_module (l : nat) (m : nn_module) : M unit :=
  λ w, (Ret tt, World (w_fs w) (<[l := m]> (w_heap w)) (w_trace w) (w_clock w)).

(** [d[k]] on a configuration. *)
Definition getitem (d : config) (k : string) : M yaml :=
  match d !! k with
  | Some v => ret v
  | None => raise KeyError k
  end.

(** ** PyTorch, as far as the script uses it *)

Module Torch.

(** [torch.save(sd, path)]. *)
Definition save (sd : state_dict) (path : string) : M unit :=
  fs_update (λ now fs, Fs.write now fs path (Checkpoint sd)) ;;
  emit (EvSave path).

(** [torch.load(path)]: the saved mapping, for a file that holds one. *)
Definition load (path : string) : M state_dict :=
  let* c := fs_try (λ fs, Fs.read fs path) in
  match c with
  | Checkpoint sd => ret sd
  | _ => raise UnpicklingError path
  end.

(** One parameter of [Module.load_state_dict]: a tensor saved under
    the parameter's name is copied in when the shapes agree. *)
Definition load_param (sd : state_dict) (kp : string * tensor) : string * tensor :=
  match ODict.get kp.1 sd with
  | Some v => if bool_decide (t_shape v = t_shape kp.2) then (kp.1, v) else kp
  | None => kp
  end.

(** Names of the model with no entry in [sd]. *)
Definition missing_keys (own sd : state_dict) : list string :=
  filter (λ k, ODict.mem k sd = false) (ODict.keys own).

(** Names of [sd] the model does not have. *)
Definition unexpected_keys (own sd : state_dict) : list string :=
  filter (λ k, ODict.mem k own = false) (ODict.keys sd).

(** The tensor saved under the parameter's name has another shape. *)
Definition size_mismatch (sd : state_dict) (kp : string * tensor) : bool :=
  match ODict.get kp.1 sd with
  | Some v => negb (bool_decide (t_shape v = t_shape kp.2))
  | None => false
  end.

(** Names present on both sides with different shapes. *)
Definition size_mismatches (own sd : state_dict) : list string :=
  (filter (λ kp, size_mismatch sd kp = true) own).*1.

(** [model.load_state_dict(sd, strict=...)].  The copies are made
    first; a shape mismatch is an error whatever [strict] says, a
    missing or unexpected key only when [strict]. *)
Definition load_state_dict (l : nat) (sd : state_dict) (strict : bool) : M unit :=
  let* m := get_module l in
  let own := m_params m in
  set_module l (NnModule (load_param sd <$> own) (m_device m)) ;;
  emit (EvLoadStateDict l strict) ;;
  if bool_decide (size_mismatches own sd ≠ [])
  then raise RuntimeError "size mismatch"
  else if strict && negb (bool_decide (missing_keys own sd = [] ∧ unexpected_keys own sd = []))
  then raise RuntimeError "missing or unexpected keys"
  else ret tt.

(** [model.to(device)]. *)
Definition to (l : nat) (d : device) : M unit :=
  let* m := get_module l in
  set_module l (NnModule (m_params m) d).

(** [model.parameters()]: references to the parameters of the object,
    not copies. *)
Definition parameters (l : nat) : M (list (nat * string)) :=
  let* m := get_module l in
  ret ((λ k, (l, k)) <$> ODict.keys (m_params m)).

End Torch.

(** ** Collaborators

    The numerical work is done outside the script.  What the script
    needs from it is gathered in one record: the functions are pure, all
    effects go through the world. *)

Record batch : Type := Batch { b_images : tensor; b_labels : list Z }.

Record criterion : Type := Criterion {
  crit_distill : bool;
  crit_samples_per_cls : option (list Z);
  crit_device : device
}.

Inductive grad_scaler : Type := GradScaler.

Record optimizer : Type := Optimizer {
  opt_params : list (nat * string);
  opt_lr : yaml;
  opt_bufs : gmap (nat * string) tensor;
  opt_steps : nat
}.

Record collaborators : Type := Collaborators {
  (** [datetime.fromtimestamp(t).strftime("%Y-%m-%d_%H-%M-%S")], in the
      time zone of the process *)
  strftime : Z → string;
  (** the parameters of a freshly built [Model(cfg).model] *)
  Model_parameters : config → state_dict;
  (** the parameters of a freshly built [build_model(cfg)] *)
  build_model_parameters : config → state_dict;
  (** [create_dataloader(cfg)]: train, validation (may be [None]), test *)
  create_dataloader : config → list batch * option (list batch) * list batch;
  (** [get_label_counts(path)] *)
  get_label_counts : yaml → list Z;
  (** forward and backward pass on one batch: the gradients left on
      parameters, or [None] when the scaler found an overflow *)
  gradients : criterion → bool → gmap nat nn_module → nat → option nat → batch →
              option (gmap (nat * string) tensor);
  (** SGD with momentum on one parameter: learning rate, step number,
      momentum buffer, parameter, gradient *)
  sgd_update : yaml → nat → option tensor → tensor → tensor → tensor * tensor;
  (** one evaluation pass: loss, F1, accuracy *)
  evaluate : criterion → state_dict → list batch → Q * Q * Q
}.

(** ** The trainer *)

Module TorchTrainer.

Record trainer : Type := Trainer {
  tr_model : nat;
  tr_teacher : option nat;
  tr_criterion : criterion;
  tr_scaler : option grad_scaler;
  tr_device : device;
  tr_model_path : string
}.

Section loops.
Context (C : collaborators).

(** [optimizer.step()] on one parameter reference: a parameter with
    a gradient is updated in place, in the object that owns it. *)
Definition step_param (lr : yaml) (n : nat) (grads : gmap (nat * string) tensor)
    (acc : gmap nat nn_module * gmap (nat * string) tensor) (ref : nat * string)
  : gmap nat nn_module * gmap (nat * string) tensor :=
  match grads !! ref, acc.1 !! ref.1 with
  | Some g, Some m =>
      match ODict.get ref.2 (m_params m) with
      | Some p =>
          let pb := sgd_update C lr n (acc.2 !! ref) p g in
          (<[ref.1 := NnModule (ODict.set ref.2 pb.1 (m_params m)) (m_device m)]> acc.1,
           <[ref := pb.2]> acc.2)
      | None => acc
      end
  | _, _ => acc
  end.

(** [optimizer.step()]: every parameter the optimizer was built
    over, and no other. *)
Definition optimizer_step (opt : optimizer) (grads : gmap (nat * string) tensor)
  : M optimizer :=
  λ w,
    let hb := foldl (step_param (opt_lr opt) (opt_steps opt) grads)
                    (w_heap w, opt_bufs opt) (opt_params opt) in
    (Ret (Optimizer (opt_params opt) (opt_lr opt) hb.2 (S (opt_steps opt))),
     World (w_fs w) hb.1 (w_trace w ++ [EvOptimizerStep (opt_params opt)]) (w_clock w)).

(** Modelled from the spec: [TorchTrainer] (src/trainer.py) is not
    among the sources.  One batch of either loop: predictions (and,
    with a teacher, its logits), the criterion's scalar loss,
    backpropagation, then the optimizer and scheduler step; with an
    active scaler a step whose scaled gradients overflowed is
    skipped. *)
Definition train_batch (tr : trainer) (opt : optimizer) (b : batch) : M optimizer :=
  λ w,
    match gradients C (tr_criterion tr) (bool_decide (is_Some (tr_scaler tr)))
                    (w_heap w) (tr_model tr) (tr_teacher tr) b with
    | Some grads => optimizer_step opt grads w
    | None =>
        (Ret (Optimizer (opt_params opt) (opt_lr opt) (opt_bufs opt) (S (opt_steps opt))), w)
    end.

Fixpoint train_batches (tr : trainer) (opt : optimizer) (bs : list batch) : M optimizer :=
  match bs with
  | [] => ret opt
  | b :: bs' =>
      let* opt' := train_batch tr opt b in
      train_batches tr opt' bs'
  end.

(** Modelled from the spec: [TorchTrainer.test], one evaluation pass
    of a model over a data loader, giving loss, F1 and accuracy. *)
Definition test (tr : trainer) (model : nat) (dl : list batch) : M (Q * Q * Q) :=
  emit (EvTest model) ;;
  let* m := get_module model in
  ret (evaluate C (tr_criterion tr) (m_params m) dl).

(** [f1] improves over all prior epochs. *)
Definition improves (f1 : Q) (best : option (Q * Q)) : bool :=
  match best with
  | None => true
  | Some b => negb (Qle_bool f1 b.2)
  end.

(** Modelled from the spec: the epoch loop shared by
    [TorchTrainer.train] and [TorchTrainer.train_kd] (the latter is
    the trainer with a teacher).  Every epoch runs all training
    batches, evaluates on the held-out split and writes the
    checkpoint when F1 improves over all prior epochs.  The result is
    the best (accuracy, F1) seen, [None] when no epoch ran. *)
Fixpoint epochs (tr : trainer) (n : nat) (opt : optimizer) (best : option (Q * Q))
    (train_dl val_dl : list batch) : M (option (Q * Q)) :=
  match n with
  | O => ret best
  | S n' =>
      let* opt' := train_batches tr opt train_dl in
      let* r := test tr (tr_model tr) val_dl in
      let f1 := r.1.2 in
      let acc := r.2 in
      if improves f1 best then
        let* m := get_module (tr_model tr) in
        Torch.save (m_params m) (tr_model_path tr) ;;
        epochs tr n' opt' (Some (acc, f1)) train_dl val_dl
      else epochs tr n' opt' best train_dl val_dl
  end.

(** Modelled from the spec: [trainer.train(train_dataloader, n_epoch,
    val_dataloader)] and [trainer.train_kd(...)] of the absent
    src/trainer.py, the epoch loop started with no best score yet. *)
Definition fit (tr : trainer) (opt : optimizer) (train_dl : list batch) (n_epoch : Z)
    (val_dl : list batch) : M (option (Q * Q)) :=
  epochs tr (Z.to_nat n_epoch) opt None train_dl val_dl.

End loops.

End TorchTrainer.

(** ** The optimizer, the schedule, the scaler *)

(** [torch.optim.SGD(params, lr=lr, momentum=0.9)]: a negative learning
    rate and an empty parameter list are refused. *)
Definition SGD (params : list (nat * string)) (lr : yaml) : M optimizer :=
  let built := Optimizer params lr ∅ 0 in
  let nonempty : M optimizer :=
    if bool_decide (params = []) then raise ValueError "optimizer got an empty parameter list"
    else ret built in
  match lr with
  | YInt z => if Z.ltb z 0 then raise ValueError "Invalid learning rate" else nonempty
  | YFloat q => if Z.ltb (Qnum q) 0 then raise ValueError "Invalid learning rate" else nonempty
  | YBool _ => nonempty
  | YNull | YStr _ => raise TypeError "lr"
  end.

(** A Python [int] read from a configuration ([bool] is a subclass). *)
Definition as_int (v : yaml) : option Z :=
  match v with
  | YInt z => Some z
  | YBool b => Some (if b then 1%Z else 0%Z)
  | _ => None
  end.

(** [torch.optim.lr_scheduler.OneCycleLR(optimizer, max_lr,
    steps_per_epoch, epochs, pct_start=0.05)]: both counts must be
    positive integers.  The result is the total number of steps. *)
Definition OneCycleLR (max_lr : yaml) (steps_per_epoch : nat) (epochs : yaml) : M Z :=
  match as_int epochs with
  | Some n =>
      if Z.leb n 0 then raise ValueError "Expected positive integer epochs"
      else if bool_decide (steps_per_epoch = 0%nat)
      then raise ValueError "Expected positive integer steps_per_epoch"
      else ret (n * Z.of_nat steps_per_epoch)%Z
  | None => raise ValueError "Expected positive integer epochs"
  end.

(** [torch.cuda.amp.GradScaler() if fp16 and device != torch.device("cpu")
    else None]. *)
Definition make_scaler (fp16 : yaml) (d : device) : option grad_scaler :=
  if truthy fp16 && bool_decide (d ≠ device_cpu) then Some GradScaler else None.

(** [val_dl if val_dl else test_dl]: a data loader is false when it is
    [None] or has no batch. *)
Definition pick_eval (val_dl : option (list batch)) (test_dl : list batch) : list batch :=
  match val_dl with
  | Some (b :: bs) => b :: bs
  | _ => test_dl
  end.

(** The loop of [train_kd] over the raw teacher mapping:
    [temp[n.replace("head.", "")] = v] for every item, in order. *)
Definition normalize_key (n : string) : string := PyStr.replace "head." "" n.

Definition normalize_step (temp : state_dict) (nv : string * tensor) : state_dict :=
  ODict.set (normalize_key nv.1) nv.2 temp.

Definition normalize_keys (sd : state_dict) : state_dict :=
  foldl normalize_step [] sd.

(** The claimed normalisation, in the spec's words: the known prefix is
    stripped from the key, and only as a leading prefix. *)
Definition strip_leading_prefix (n : string) : string :=
  if PyStr.startswith "head." n then PyStr.drop 5 n else n.

(** ** [train] and [train_kd] *)

Section script.
Context (C : collaborators).

(** The criterion of either path: class counts only for the TACO
    dataset. *)
Definition make_criterion (distill : bool) (data_config : config) (d : device)
  : M criterion :=
  let* dataset := getitem data_config "DATASET" in
  if bool_decide (dataset = YStr "TACO") then
    let* path := getitem data_config "DATA_PATH" in
    ret (Criterion distill (Some (get_label_counts C path)) d)
  else ret (Criterion distill None d).

(** [n_epoch=data_config["EPOCHS"]], as the loop bound. *)
Definition epoch_count (data_config : config) : M Z :=
  let* v := getitem data_config "EPOCHS" in
  match as_int v with
  | Some n => ret n
  | None => raise TypeError "EPOCHS"
  end.

(** Lines 68-83 of [train]: the scaler and the trainer. *)
Definition plain_trainer (model : nat) (criterion : criterion) (fp16 : yaml)
    (dev : device) (model_path : string) : TorchTrainer.trainer :=
  let scaler := make_scaler fp16 dev in
  TorchTrainer.Trainer model None criterion scaler dev model_path.

(** Lines 167-183 of [train_kd]: the scaler and the trainer, which
    also holds the teacher. *)
Definition kd_trainer (student_model teacher_model : nat) (criterion : criterion)
    (fp16 : yaml) (dev : device) (model_path : string) : TorchTrainer.trainer :=
  let scaler := make_scaler fp16 dev in
  TorchTrainer.Trainer student_model (Some teacher_model) criterion scaler dev model_path.

(** Lines 90-95 of [train] and 191-195 of [train_kd], which are the
    same: reload the best checkpoint into the model, evaluate once,
    return the three numbers. *)
Definition test_best (trainer : TorchTrainer.trainer) (model : nat)
    (model_path : string) (dl : list batch) : M (Q * Q * Q) :=
  let* saved := Torch.load model_path in
  Torch.load_state_dict model saved true ;;
  let* r := TorchTrainer.test C trainer model dl in
  let '(test_loss, test_f1, test_acc) := r in
  ret (test_loss, test_f1, test_acc).

Definition train (model_config data_config : config) (log_dir : string)
    (fp16 : yaml) (dev : device) : M (Q * Q * Q) :=
  emit EvTrain ;;
  fs_update (λ now fs, Fs.write now fs (OsPath.join log_dir "data.yml") (Yaml data_config)) ;;
  fs_update (λ now fs, Fs.write now fs (OsPath.join log_dir "model.yml") (Yaml model_config)) ;;
  let* model := alloc (NnModule (Model_parameters C model_config) device_cpu) in
  let model_path := OsPath.join log_dir "best.pt" in
  Torch.to model dev ;;
  let '(train_dl, val_dl, test_dl) := create_dataloader C data_config in
  let* params := Torch.parameters model in
  let* lr := getitem data_config "INIT_LR" in
  let* optimizer := SGD params lr in
  let* max_lr := getitem data_config "INIT_LR" in
  let* epochs := getitem data_config "EPOCHS" in
  let* scheduler := OneCycleLR max_lr (List.length train_dl) epochs in
  let* criterion := make_criterion false data_config dev in
  let trainer := plain_trainer model criterion fp16 dev model_path in
  let* n_epoch := epoch_count data_config in
  let* best := TorchTrainer.fit C trainer optimizer train_dl n_epoch (pick_eval val_dl test_dl) in
  test_best trainer model model_path (pick_eval val_dl test_dl).

(** [train_kd], lines 113-127, the block headed "Load student model". *)
Definition load_student (student_model_config data_config : config)
    (log_dir : string) (dev : device) : M nat :=
  fs_update (λ now fs, Fs.write now fs (OsPath.join log_dir "data.yml") (Yaml data_config)) ;;
  fs_update (λ now fs, Fs.write now fs (OsPath.join log_dir "model.yml")
                                (Yaml student_model_config)) ;;
  let* student_model := alloc (NnModule (Model_parameters C student_model_config) device_cpu) in
  Torch.to student_model dev ;;
  ret student_model.

(** [train_kd], lines 129-145, the block headed "Load teacher model". *)
Definition load_teacher (teacher_model_config : config) (teacher_ckpt : string)
    (dev : device) : M nat :=
  let* teacher_model :=
    alloc (NnModule (build_model_parameters C teacher_model_config) device_cpu) in
  let checkpoint := teacher_ckpt in
  let* state_dict := Torch.load checkpoint in
  let temp := normalize_keys state_dict in
  Torch.load_state_dict teacher_model temp false ;;
  Torch.to teacher_model dev ;;
  ret teacher_model.

(** [train_kd], lines 147-195: the run with both models in place. *)
Definition distill (student_model teacher_model : nat) (data_config : config)
    (log_dir : string) (fp16 : yaml) (dev : device) : M (Q * Q * Q) :=
  let model_path := OsPath.join log_dir "best.pt" in
  let '(train_dl, val_dl, test_dl) := create_dataloader C data_config in
  let* params := Torch.parameters student_model in
  let* lr := getitem data_config "INIT_LR" in
  let* optimizer := SGD params lr in
  let* max_lr := getitem data_config "INIT_LR" in
  let* epochs := getitem data_config "EPOCHS" in
  let* scheduler := OneCycleLR max_lr (List.length train_dl) epochs in
  let* criterion := make_criterion true data_config dev in
  let trainer := kd_trainer student_model teacher_model criterion fp16 dev model_path in
  let* n_epoch := epoch_count data_config in
  let* best := TorchTrainer.fit C trainer optimizer train_dl n_epoch (pick_eval val_dl test_dl) in
  test_best trainer student_model model_path (pick_eval val_dl test_dl).

Definition train_kd (student_model_config teacher_model_config : config)
    (teacher_ckpt : string) (data_config : config) (log_dir : string)
    (fp16 : yaml) (dev : device) : M (Q * Q * Q) :=
  emit EvTrainKd ;;
  let* student_model := load_student student_model_config data_config log_dir dev in
  let* teacher_model := load_teacher teacher_model_config teacher_ckpt dev in
  distill student_model teacher_model data_config log_dir fp16 dev.

End script.

(** ** The command line and the environment *)

(** What the user typed: for each flag the string supplied, [None] when
    the flag is absent.  The seed is given after [int] has accepted it: a
    literal [int] refuses makes [argparse] exit before the script body
    runs. *)
Record cmdline : Type := Cmdline {
  cl_model : option string;
  cl_teacher_model : option string;
  cl_teacher_checkpoints : option string;
  cl_distill_mode : option string;
  cl_data : option string;
  cl_seed : option Z;
  cl_run_name : option string
}.

(** The parsed [args]. *)
Record namespace : Type := Namespace {
  args_model : string;
  args_teacher_model : string;
  args_teacher_checkpoints : string;
  args_distill_mode : bool;
  args_data : string;
  args_seed : Z;
  args_run_name : string
}.

(** [bool(s)] on a string: [type=bool] hands the supplied text to
    [bool]. *)
Definition py_bool (s : string) : bool := negb (bool_decide (s = "")).

(** [parser.parse_args()]: the declared [type] is applied to a supplied
    string, the declared default is taken as it is. *)
Definition parse_args (cl : cmdline) : namespace :=
  Namespace
    (default "configs/model/mobilenetv3.yaml" (cl_model cl))
    (default "swin/configs/swin_base_patch4_window7_224.yaml" (cl_teacher_model cl))
    (default "exp/swin_teacher/best.pt" (cl_teacher_checkpoints cl))
    (match cl_distill_mode cl with Some s => py_bool s | None => false end)
    (default "configs/data/taco.yaml" (cl_data cl))
    (default 42%Z (cl_seed cl))
    (default "exp" (cl_run_name cl)).

(** [os.environ.get(k, d)]. *)
Definition environ_get (environ : gmap string string) (k d : string) : string :=
  default d (environ !! k).

(** Modelled from the spec: [read_yaml] (src/utils/common.py) and
    [get_config] (swin/config.py) are not among the sources.  A
    configuration is a structured key-value document loaded from the file
    at the given path. *)
Definition read_yaml (cfg : string) : M config :=
  let* c := fs_try (λ fs, Fs.read fs cfg) in
  match c with
  | Yaml d => ret d
  | _ => raise YAMLError cfg
  end.

Definition get_config (cfg : string) : M config := read_yaml cfg.

(** What the first half of [__main__] hands to the second. *)
Record setup : Type := Setup {
  su_model_config : config;
  su_tc_model_config : config;
  su_tc_ckpt : string;
  su_data_config : config;
  su_device : device;
  su_log_dir : string
}.

Section entry.
Context (C : collaborators).

(** The output directory of the run. *)
Definition log_dir_of (environ : gmap string string) : string :=
  environ_get environ "SM_MODEL_DIR" (OsPath.join "exp" "latest").

(** [torch.device("cuda:0" if torch.cuda.is_available() else "cpu")]. *)
Definition device_of (cuda_is_available : bool) : device :=
  if cuda_is_available then device_cuda0 else device_cpu.

(** The name the previous output directory is moved to. *)
Definition rotated_name (log_dir : string) (modified : Z) : string :=
  OsPath.dirname log_dir +:+ "/" +:+ strftime C modified.

(** Lines 256-259: an output directory that is already there is moved
    away, under a name taken from the time its checkpoint was written. *)
Definition rotate_existing (log_dir : string) : M unit :=
  let* present := fs_query (λ fs, Fs.exists_ fs log_dir) in
  if present then
    let* modified := fs_try (λ fs, Fs.getmtime fs (log_dir +:+ "/best.pt")) in
    let new_log_dir := rotated_name log_dir modified in
    fs_update (λ _ fs, Fs.rename fs log_dir new_log_dir)
  else ret tt.

(** Lines 256-261: rotate, then make sure the output directory is
    there. *)
Definition rotate_log_dir (log_dir : string) : M unit :=
  rotate_existing log_dir ;;
  fs_update (λ now fs, Fs.makedirs now fs log_dir).

(** Lines 242-268 of [__main__]. *)
Definition main_setup (args : namespace) (environ : gmap string string)
    (cuda_is_available : bool) : M setup :=
  let* model_config := read_yaml (args_model args) in
  let* tc_model_config := get_config (args_teacher_model args) in
  let tc_ckpt := args_teacher_checkpoints args in
  let* data_config := read_yaml (args_data args) in
  emit (EvSetSeed (args_seed args)) ;;
  let* configured := getitem data_config "DATA_PATH" in
  let data_path :=
    match environ !! "SM_CHANNEL_TRAIN" with
    | Some v => YStr v
    | None => configured
    end in
  let data_config := <["DATA_PATH" := data_path]> data_config in
  let dev := device_of cuda_is_available in
  let log_dir := log_dir_of environ in
  rotate_log_dir log_dir ;;
  emit (EvWandbInit (args_run_name args)) ;;
  emit (EvWandbConfig model_config) ;;
  emit (EvWandbConfig data_config) ;;
  ret (Setup model_config tc_model_config tc_ckpt data_config dev log_dir).

(** Lines 270-292 of [__main__]. *)
Definition main_dispatch (args : namespace) (s : setup) : M (Q * Q * Q) :=
  if bool_decide (args_distill_mode args = true) then
    let* found := fs_query (λ fs, Fs.isfile fs (su_tc_ckpt s)) in
    (if found then ret tt
     else raise AssertionError ("No ckpt file found at " +:+ su_tc_ckpt s)) ;;
    let* fp16 := getitem (su_data_config s) "FP16" in
    train_kd C (su_model_config s) (su_tc_model_config s) (su_tc_ckpt s)
             (su_data_config s) (su_log_dir s) fp16 (su_device s)
  else
    let* fp16 := getitem (su_data_config s) "FP16" in
    train C (su_model_config s) (su_data_config s) (su_log_dir s) fp16 (su_device s).

(** The [__main__] block. *)
Definition main (cl : cmdline) (environ : gmap string string)
    (cuda_is_available : bool) : M (Q * Q * Q) :=
  let args := parse_args cl in
  let* s := main_setup args environ cuda_is_available in
  main_dispatch args s.

End entry.

(** ** A concrete set of collaborators

    Used to run the script on small worlds.  The clock is read in UTC. *)

Module Sample.

Definition digit (n : Z) : ascii := ascii_of_nat (48 + Z.to_nat (n mod 10)).

Definition two_digits (n : Z) : string :=
  String (digit (n / 10)) (String (digit n) EmptyString).

Definition four_digits (n : Z) : string :=
  String (digit (n / 1000)) (String (digit (n / 100)) (two_digits n)).

(** The civil date of a day count since 1970-01-01: year, month, day. *)
Definition civil_from_days (days : Z) : Z * Z * Z :=
  let z := (days + 719468)%Z in
  let era := (z / 146097)%Z in
  let doe := (z - era * 146097)%Z in
  let yoe := ((doe - doe / 1460 + doe / 36524 - doe / 146096) / 365)%Z in
  let doy := (doe - (365 * yoe + yoe / 4 - yoe / 100))%Z in
  let mp := ((5 * doy + 2) / 153)%Z in
  let d := (doy - (153 * mp + 2) / 5 + 1)%Z in
  let m := (if Z.ltb mp 10 then mp + 3 else mp - 9)%Z in
  let y := (yoe + era * 400 + (if Z.leb m 2 then 1 else 0))%Z in
  (y, m, d).

(** [%Y-%m-%d_%H-%M-%S] of a time in seconds since the epoch, UTC. *)
Definition strftime_utc (t : Z) : string :=
  let '(y, m, d) := civil_from_days (t / 86400) in
  let secs := (t mod 86400)%Z in
  four_digits y +:+ "-" +:+ two_digits m +:+ "-" +:+ two_digits d +:+ "_" +:+
  two_digits (secs / 3600) +:+ "-" +:+ two_digits (secs / 60 mod 60) +:+ "-" +:+
  two_digits (secs mod 60).

Definition unit_tensor (z : Z) : tensor := Tensor [1%nat] [z].

(** Gradients on every parameter of the student and, to exercise the
    optimizer, on every parameter of the teacher as well. *)
Definition all_gradients (h : gmap nat nn_module) (student : nat) (teacher : option nat)
  : gmap (nat * string) tensor :=
  let refs (l : nat) : list ((nat * string) * tensor) :=
    match h !! l with
    | Some m => (λ kp : string * tensor, ((l, kp.1), unit_tensor 1)) <$> m_params m
    | None => []
    end in
  list_to_map (refs student ++ from_option refs [] teacher).

Definition descend (p g : tensor) : tensor :=
  Tensor (t_shape p) (zip_with Z.sub (t_bits p) (t_bits g)).

Definition collab : collaborators :=
  {| strftime := strftime_utc;
     Model_parameters := λ _, [("w", unit_tensor 10)];
     build_model_parameters := λ _, [("weight", unit_tensor 0); ("bias", unit_tensor 0)];
     create_dataloader := λ _,
       ([Batch (unit_tensor 1) [0%Z]], None, [Batch (unit_tensor 2) [1%Z]]);
     get_label_counts := λ _, [];
     gradients := λ _ _ h student teacher _, Some (all_gradients h student teacher);
     sgd_update := λ _ _ _ p g, (descend p g, g);
     evaluate := λ _ sd _, (1 # 2, 3 # 4, 7 # 8)%Q |}.

Definition model_yaml : config := {[ "depth_multiple" := YFloat 1 ]}.

Definition data_yaml : config :=
  <["DATA_PATH" := YStr "/data"]> (
  <["DATASET" := YStr "CIFAR"]> (
  <["EPOCHS" := YInt 2]> (
  <["INIT_LR" := YFloat (1 # 10)]> (
  <["FP16" := YBool true]> ∅)))).

(** The configuration files of the defaults, and nothing else. *)
Definition base_fs : filesystem :=
  <["configs" := Dir 0]> (
  <["configs/model" := Dir 0]> (
  <["configs/data" := Dir 0]> (
  <["configs/model/mobilenetv3.yaml" := File 0 (Yaml model_yaml)]> (
  <["configs/data/taco.yaml" := File 0 (Yaml data_yaml)]> (
  <["swin" := Dir 0]> (
  <["swin/configs" := Dir 0]> (
  <["swin/configs/swin_base_patch4_window7_224.yaml" := File 0 (Yaml ∅)]> ∅))))))).

(** A teacher checkpoint at the default place. *)
Definition teacher_sd : state_dict :=
  [("head.weight", unit_tensor 5); ("head.extra", unit_tensor 6)].

Definition fs_with_teacher : filesystem :=
  <["exp" := Dir 0]> (
  <["exp/swin_teacher" := Dir 0]> (
  <["exp/swin_teacher/best.pt" := File 0 (Checkpoint teacher_sd)]> base_fs)).

(** An output directory left by an earlier run, with its checkpoint. *)
Definition fs_after_run : filesystem :=
  <["exp" := Dir 0]> (
  <["exp/latest" := Dir 1630000000]> (
  <["exp/latest/best.pt" := File 1630000000 (Checkpoint [("w", unit_tensor 3)])]> base_fs)).

(** An output directory left by an earlier run that wrote no
    checkpoint. *)
Definition fs_after_abort : filesystem :=
  <["exp" := Dir 0]> (<["exp/latest" := Dir 1630000000]> base_fs).

(** The teacher checkpoint in place and the output directory made. *)
Definition fs_ready : filesystem := <["exp/latest" := Dir 0]> fs_with_teacher.

Definition world_of (fs : filesystem) : world := World fs ∅ [] 1700000000.

Definition no_flags : cmdline := Cmdline None None None None None None None.

Definition distill_flag (s : string) : cmdline :=
  Cmdline None None None (Some s) None None None.

End Sample.

(** ** Vocabulary of the statements *)

(** [R] relates the world before any run of [m] to the world after it,
    whether the run returns or raises. *)
Definition preserves {A} (R : relation world) (m : M A) : Prop :=
  ∀ w, R w (m w).2.

(** The trace has grown by events that satisfy [P]. *)
Definition appended (P : event → Prop) : relation world :=
  λ w w', ∃ evs : list event, w_trace w' = (w_trace w ++ evs)%list ∧ Forall P evs.

(** The parameters of the model object [l], if it is there, are the
    same. *)
Definition params_of (w : world) (l : nat) : option state_dict :=
  m_params <$> w_heap w !! l.

Definition keeps_params (l : nat) : relation world :=
  λ w w', ∀ sd, params_of w l = Some sd → params_of w' l = Some sd.

(** No model object was built, moved or updated. *)
Definition same_heap : relation world := λ w w', w_heap w' = w_heap w.

(** The events that mark the entry into a training path. *)
Definition entry_event (e : event) : Prop := e = EvTrain ∨ e = EvTrainKd.

(** Every other event. *)
Definition inner_event (e : event) : Prop := ¬ entry_event e.

(** The trace has grown, and by no entry event. *)
Abbreviation inner := (appended inner_event).

(** The optimizer holds parameters of the model object [l] only. *)
Definition over (l : nat) (opt : optimizer) : Prop :=
  Forall (λ r : nat * string, r.1 = l) (opt_params opt).

(** An optimizer step, if [e] is one, went over parameters of the model
    object [l] only. *)
Definition steps_on (l : nat) (e : event) : Prop :=
  ∀ ps, e = EvOptimizerStep ps → Forall (λ r : nat * string, r.1 = l) ps.

(** The events recorded since the trace was [before]. *)
Definition events_since (before : list event) (w' : world) : list event :=
  drop (List.length before) (w_trace w').

(** How often a training path was entered. *)
Definition entries (e : event) (evs : list event) : nat :=
  List.length (filter (λ x, x = e) evs).

(** The names and shapes of a state dict, in order. *)
Definition layout (sd : state_dict) : list (string * list nat) :=
  (λ kp, (kp.1, t_shape kp.2)) <$> sd.

(** The model object [l] is there with parameters of layout [L]. *)
Definition has_layout (L : list (string * list nat)) (w : world) (l : nat) : Prop :=
  ∃ mo, w_heap w !! l = Some mo ∧ layout (m_params mo) = L.

(** Running batches leaves the files and the clock alone and keeps the
    layout of the model. *)
Definition batches_keep (L : list (string * list nat)) (model : nat) : relation world :=
  λ w w', w_fs w' = w_fs w ∧ w_clock w' = w_clock w ∧
          (has_layout L w model → has_layout L w' model).

(** The checkpoint is there and has the layout [L]. *)
Definition checkpoint_fits (L : list (string * list nat)) (path : string) (w : world) : Prop :=
  ∃ t sd, w_fs w !! path = Some (File t (Checkpoint sd)) ∧ layout sd = L.

(** An optimizer update gives a tensor of the parameter's shape. *)
Definition keeps_shape (C : collaborators) : Prop :=
  ∀ lr n buf p g, t_shape (sgd_update C lr n buf p g).1 = t_shape p.

(** A learning rate [SGD] accepts. *)
Definition valid_lr (v : yaml) : Prop :=
  match v with
  | YInt z => (0 ≤ z)%Z
  | YFloat q => (0 ≤ Qnum q)%Z
  | YBool _ => True
  | YNull | YStr _ => False
  end.

(** A data configuration with the entries the training code reads: a
    learning rate, a positive number of epochs, the dataset (and its path
    when the dataset is TACO). *)
Definition trainable_config (dc : config) : Prop :=
  (∃ lr, dc !! "INIT_LR" = Some lr ∧ valid_lr lr) ∧
  (∃ v n, dc !! "EPOCHS" = Some v ∧ as_int v = Some n ∧ (0 < n)%Z) ∧
  (∃ ds, dc !! "DATASET" = Some ds ∧ (ds = YStr "TACO" → is_Some (dc !! "DATA_PATH"))).

(** A file can be written at [p]: [p] is not a directory and the
    directory that holds it is there. *)
Definition writable (fs : filesystem) (p : string) : Prop :=
  p ≠ "" ∧ Fs.isdir fs p = false ∧ Fs.check_parent fs p = Ret tt.

(** The output directory is there and its three files can be written:
    each has the directory as its parent and is not itself a directory. *)
Definition output_ready (fs : filesystem) (log_dir : string) : Prop :=
  (∃ t, fs !! log_dir = Some (Dir t)) ∧
  ∀ f, f ∈ ["data.yml"; "model.yml"; "best.pt"] →
       OsPath.join log_dir f ≠ "" ∧
       Fs.parent (OsPath.join log_dir f) = Some log_dir ∧
       Fs.isdir fs (OsPath.join log_dir f) = false.

(** Lines 48-95 of [train] and 147-195 of [train_kd] as one function of
    what distinguishes them: the criterion's kind and the teacher handed
    to the trainer. *)
Definition training_tail (C : collaborators) (distilling : bool) (model : nat)
    (teacher : option nat) (data_config : config) (log_dir : string) (fp16 : yaml)
    (dev : device) : M (Q * Q * Q) :=
  let model_path := OsPath.join log_dir "best.pt" in
  let '(train_dl, val_dl, test_dl) := create_dataloader C data_config in
  let* params := Torch.parameters model in
  let* lr := getitem data_config "INIT_LR" in
  let* optimizer := SGD params lr in
  let* max_lr := getitem data_config "INIT_LR" in
  let* epochs := getitem data_config "EPOCHS" in
  let* scheduler := OneCycleLR max_lr (List.length train_dl) epochs in
  let* criterion := make_criterion C distilling data_config dev in
  let trainer :=
    TorchTrainer.Trainer model teacher criterion (make_scaler fp16 dev) dev model_path in
  let* n_epoch := epoch_count data_config in
  let* best := TorchTrainer.fit C trainer optimizer train_dl n_epoch (pick_eval val_dl test_dl) in
  test_best C trainer model model_path (pick_eval val_dl test_dl).


(** A directory part of a path: not empty, no trailing slash. *)
Definition plain_dir (d : string) : Prop :=
  d ≠ "" ∧ PyStr.endswith_slash d = false.

(** A name in a directory: not empty, no slash, neither of the two
    special entries. *)
Definition plain_name (b : string) : Prop :=
  b ≠ "" ∧ PyStr.has_slash b = false ∧ b ≠ "." ∧ b ≠ "..".

(** What holds of any file system: every entry lies in a directory. *)
Definition well_formed (fs : filesystem) : Prop :=
  ∀ p n d, fs !! p = Some n → Fs.parent p = Some d → Fs.isdir fs d = true.

(** From [fs] to [fs'] nothing that was there has changed, and what is
    new is a directory made at [now] whose path begins the path
    [name]. *)
Definition only_adds_dirs (now : Z) (name : string) (fs fs' : filesystem) : Prop :=
  ∀ q, fs' !! q = fs !! q ∨
       (fs !! q = None ∧ fs' !! q = Some (Dir now) ∧ ∃ r, name = q +:+ r).

(** * Properties *)

(** ** Strings and paths *)

Example join_exp_latest : OsPath.join "exp" "latest" = "exp/latest".
Proof. reflexivity. Qed.

Example dirname_examples :
  OsPath.dirname "exp/latest" = "exp" ∧
  OsPath.dirname "/opt/ml/model" = "/opt/ml" ∧
  OsPath.dirname "model" = "" ∧
  OsPath.dirname "/model" = "/".
Proof. repeat split. Qed.

Example replace_examples :
  PyStr.replace "head." "" "head.weight" = "weight" ∧
  PyStr.replace "head." "" "layers.0.head.bias" = "layers.0.bias" ∧
  PyStr.replace "head." "" "head.head.weight" = "weight" ∧
  PyStr.replace "head." "" "hehead.ad.x" = "head.x" ∧
  PyStr.replace "head." "" "norm.weight" = "norm.weight" ∧
  PyStr.replace "" "-" "ab" = "-a-b-".
Proof. repeat split. Qed.

Section strings.
Import PyStr.

Lemma startswith_app (p s : string) : startswith p (p +:+ s) = true.
Proof.
  induction p as [|a p IH]; simpl; [done|].
  by rewrite Ascii.eqb_refl.
Qed.

Lemma startswith_inv (p s : string) :
  startswith p s = true → ∃ r, s = p +:+ r.
Proof.
  revert s. induction p as [|a p IH]; intros s H; simpl in *.
  - by exists s.
  - destruct s as [|b s]; [done|].
    destruct (Ascii.eqb_spec a b) as [->|]; [|done].
    destruct (IH _ H) as [r ->]. by exists r.
Qed.

Lemma replace_scan_skip (old new t s : string) :
  replace_scan old new (String.length t) (t +:+ s) = replace_scan old new 0 s.
Proof.
  induction t as [|c t IH]; simpl; [|done].
  by destruct s.
Qed.

(** At an occurrence, the occurrence is replaced and the scan goes on
    behind it. *)
Lemma replace_at_occurrence (old new s : string) :
  old ≠ "" → replace old new (old +:+ s) = new +:+ replace old new s.
Proof.
  destruct old as [|a old]; [done|]. intros _.
  pose proof (startswith_app (String a old) s) as Hocc.
  unfold replace. change (String a old +:+ s) with (String a (old +:+ s)) in *.
  cbn [replace_scan]. rewrite Hocc. f_equal.
  cbn [String.length]. replace (S (String.length old) - 1)%nat with (String.length old) by lia.
  apply replace_scan_skip.
Qed.

(** Elsewhere, the character is kept. *)
Lemma replace_elsewhere (old new : string) (c : ascii) (s : string) :
  old ≠ "" → startswith old (String c s) = false →
  replace old new (String c s) = String c (replace old new s).
Proof.
  destruct old as [|a old]; [done|]. intros _ H.
  unfold replace. cbn [replace_scan]. by rewrite H.
Qed.

Lemma replace_empty (old new : string) : old ≠ "" → replace old new "" = "".
Proof. by destruct old. Qed.

(** A string without occurrence is left as it is. *)
Lemma replace_absent (old new s : string) :
  old ≠ "" → contains old s = false → replace old new s = s.
Proof.
  intros Hold. induction s as [|c s IH]; intros H.
  - by apply replace_empty.
  - cbn [contains] in H. apply orb_false_iff in H as [H1 H2].
    rewrite replace_elsewhere by done. by rewrite IH.
Qed.

End strings.

(** ** Ordered dictionaries *)

Section odict.
Context {V : Type}.
Implicit Types d : list (string * V).

Lemma odict_get_set_eq k v d : ODict.get k (ODict.set k v d) = Some v.
Proof.
  induction d as [|[k' v'] d IH]; simpl.
  - by rewrite bool_decide_eq_true_2.
  - case_bool_decide as E; simpl.
    + by rewrite bool_decide_eq_true_2.
    + by rewrite bool_decide_eq_false_2.
Qed.

Lemma odict_get_set_ne k k' v d :
  k ≠ k' → ODict.get k' (ODict.set k v d) = ODict.get k' d.
Proof.
  intros Hne. induction d as [|[k0 v0] d IH]; simpl.
  - by rewrite bool_decide_eq_false_2.
  - case_bool_decide as E; simpl.
    + subst k0. by rewrite !bool_decide_eq_false_2.
    + case_bool_decide; [done|]. apply IH.
Qed.

Lemma odict_keys_set k v d k' :
  k' ∈ ODict.keys (ODict.set k v d) ↔ k' = k ∨ k' ∈ ODict.keys d.
Proof.
  unfold ODict.keys. induction d as [|[k0 v0] d IH]; simpl.
  - rewrite list_elem_of_singleton. set_solver.
  - case_bool_decide as E; simpl.
    + subst k0. set_solver.
    + rewrite !elem_of_cons, IH. naive_solver.
Qed.

(** Assigning to a key that is there keeps the keys, in order. *)
Lemma odict_keys_set_present k v d :
  is_Some (ODict.get k d) → ODict.keys (ODict.set k v d) = ODict.keys d.
Proof.
  unfold ODict.keys. induction d as [|[k0 v0] d IH]; simpl.
  - by intros [? ?].
  - case_bool_decide as E; simpl; [by subst|].
    intros H. f_equal. by apply IH.
Qed.

Lemma odict_get_Some_keys k v d : ODict.get k d = Some v → k ∈ ODict.keys d.
Proof.
  unfold ODict.keys. induction d as [|[k0 v0] d IH]; simpl; [done|].
  case_bool_decide as E; [subst; set_solver|]. set_solver.
Qed.

Lemma odict_get_None_keys k d : ODict.get k d = None ↔ k ∉ ODict.keys d.
Proof.
  unfold ODict.keys. induction d as [|[k0 v0] d IH]; simpl; [set_solver|].
  case_bool_decide as E; [subst; set_solver|].
  rewrite IH. set_solver.
Qed.

End odict.

(** ** The teacher's keys (lines 138-142) *)

Section teacher_keys.

(** A name that no remaining raw key normalises to keeps its value. *)
Lemma normalize_foldl_untouched (sd temp : state_dict) (k : string) :
  (∀ nv, nv ∈ sd → normalize_key nv.1 ≠ k) →
  ODict.get k (foldl normalize_step temp sd) = ODict.get k temp.
Proof.
  revert temp. induction sd as [|nv sd IH]; intros temp H; simpl; [done|].
  rewrite IH by (intros; apply H; set_solver).
  apply odict_get_set_ne, H. set_solver.
Qed.

Lemma normalize_foldl_keys (sd temp : state_dict) (k : string) :
  k ∈ ODict.keys (foldl normalize_step temp sd) ↔
  k ∈ ODict.keys temp ∨ ∃ n, n ∈ sd.*1 ∧ k = normalize_key n.
Proof.
  revert temp. induction sd as [|[n v] sd IH]; intros temp; simpl.
  - set_solver.
  - rewrite IH. unfold normalize_step. rewrite odict_keys_set. simpl.
    split.
    + intros [[->|?]|(n' & ? & ->)]; [right; exists n|by left|right; exists n'];
        set_solver.
    + intros [?|(n' & [->|?]%elem_of_cons & ->)];
        [by left; right|by left; left|right; by exists n'].
Qed.

(** The value stored under a name is that of the last raw key which
    normalises to it. *)
Lemma normalize_keys_last (l1 l2 : state_dict) (n : string) (v : tensor) :
  (∀ nv, nv ∈ l2 → normalize_key nv.1 ≠ normalize_key n) →
  ODict.get (normalize_key n) (normalize_keys (l1 ++ (n, v) :: l2)) = Some v.
Proof.
  intros H. unfold normalize_keys.
  rewrite foldl_app. simpl.
  rewrite normalize_foldl_untouched by done.
  apply odict_get_set_eq.
Qed.

End teacher_keys.

(** C2, as the code has it: [n.replace("head.", "")] removes every
    occurrence of "head." met in a left-to-right scan of the key, leading
    or not.  A key "head." ++ r with no further occurrence becomes r, a
    key without occurrence stays, and each raw key's normalised name is a
    key of the mapping handed to the teacher, holding the value of the
    last raw key that normalises to it. *)
Theorem C2_every_occurrence_of_head_removed :
  (∀ r, normalize_key ("head." +:+ r) = normalize_key r) ∧
  (∀ c n, PyStr.startswith "head." (String c n) = false →
          normalize_key (String c n) = String c (normalize_key n)) ∧
  normalize_key "" = "" ∧
  (∀ n, PyStr.contains "head." n = false → normalize_key n = n) ∧
  (∀ r, PyStr.contains "head." r = false → normalize_key ("head." +:+ r) = r) ∧
  (∀ (sd : state_dict) k,
     k ∈ ODict.keys (normalize_keys sd) ↔ ∃ n, n ∈ sd.*1 ∧ k = normalize_key n) ∧
  (∀ (l1 l2 : state_dict) n v,
     (∀ nv, nv ∈ l2 → normalize_key nv.1 ≠ normalize_key n) →
     ODict.get (normalize_key n) (normalize_keys (l1 ++ (n, v) :: l2)) = Some v).
Proof.
  assert (Hne : "head." ≠ "") by done.
  unfold normalize_key. split_and!.
  - intros r. by rewrite (replace_at_occurrence _ _ _ Hne).
  - intros c n H. by apply replace_elsewhere.
  - done.
  - intros n H. by apply replace_absent.
  - intros r H. rewrite (replace_at_occurrence _ _ _ Hne).
    by rewrite replace_absent.
  - intros sd k. split.
    + intros H. apply normalize_foldl_keys in H. set_solver.
    + intros H. apply normalize_foldl_keys. by right.
  - intros l1 l2 n v H. by apply normalize_keys_last.
Qed.

Lemma C2_every_occurrence_of_head_removed_witness :
  normalize_key "head.weight" = "weight" ∧
  normalize_key "norm.weight" = "norm.weight" ∧
  ODict.get (normalize_key "head.weight")
    (normalize_keys [("head.weight", Sample.unit_tensor 5); ("head.extra", Sample.unit_tensor 6)])
  = Some (Sample.unit_tensor 5).
Proof.
  destruct C2_every_occurrence_of_head_removed as (_ & _ & _ & Hid & Hstrip & _ & Hlast).
  split; [|split].
  - apply (Hstrip "weight"). reflexivity.
  - apply (Hid "norm.weight"). reflexivity.
  - apply (Hlast [] [("head.extra", Sample.unit_tensor 6)] "head.weight").
    intros nv Hnv. apply list_elem_of_singleton in Hnv. subst nv. simpl.
    vm_compute. discriminate.
Defined.

(** C2 as stated fails: a key with "head." in the middle has no leading
    prefix to strip, yet the code rewrites it; and of a doubled prefix
    the code removes both. *)
Lemma C2_only_leading_prefix_counterexample :
  strip_leading_prefix "layers.0.head.bias" = "layers.0.head.bias" ∧
  normalize_key "layers.0.head.bias" = "layers.0.bias" ∧
  strip_leading_prefix "head.head.weight" = "head.weight" ∧
  normalize_key "head.head.weight" = "weight" ∧
  ¬ (∀ n, normalize_key n = strip_leading_prefix n).
Proof.
  repeat split. intros H. specialize (H "layers.0.head.bias"). discriminate H.
Qed.

(** ** Reasoning about actions

    A relation between the world before and the world after that is a
    preorder is preserved by sequencing; what remains is to check the
    primitive actions. *)

Section actions.
Context (R : relation world) `{!PreOrder R}.

Lemma preserves_ret {A} (a : A) : preserves R (ret a).
Proof. intros w. simpl. reflexivity. Qed.

Lemma preserves_raise {A} k msg : preserves R (@raise A k msg).
Proof. intros w. simpl. reflexivity. Qed.

Lemma preserves_bind {A B} (m : M A) (k : A → M B) :
  preserves R m → (∀ a, preserves R (k a)) → preserves R (bind m k).
Proof.
  intros Hm Hk w. unfold bind. specialize (Hm w).
  destruct (m w) as [[a|e] w1]; simpl in *; [|done].
  etrans; [exact Hm|]. apply Hk.
Qed.

(** An action that leaves the world alone. *)
Lemma preserves_pure {A} (m : M A) : (∀ w, (m w).2 = w) → preserves R m.
Proof. intros H w. rewrite H. reflexivity. Qed.

Lemma preserves_fs_query {A} (f : filesystem → A) : preserves R (fs_query f).
Proof. by apply preserves_pure. Qed.

Lemma preserves_fs_try {A} (f : filesystem → outcome A) : preserves R (fs_try f).
Proof. by apply preserves_pure. Qed.

Lemma preserves_get_module l : preserves R (get_module l).
Proof. apply preserves_pure. intros w. unfold get_module. by destruct (_ !! _). Qed.

Lemma preserves_getitem d k : preserves R (getitem d k).
Proof. unfold getitem. destruct (d !! k); [apply preserves_ret|apply preserves_raise]. Qed.

End actions.

#[global] Instance appended_preorder P : PreOrder (appended P).
Proof.
  split.
  - intros w. exists []. by rewrite app_nil_r.
  - intros w1 w2 w3 (e1 & H1 & F1) (e2 & H2 & F2).
    exists (e1 ++ e2)%list. rewrite H2, H1, app_assoc. split; [done|].
    by apply Forall_app.
Qed.

#[global] Instance keeps_params_preorder l : PreOrder (keeps_params l).
Proof.
  split.
  - by intros w sd.
  - intros w1 w2 w3 H1 H2 sd Hsd. by apply H2, H1.
Qed.

(** The trace is not touched. *)
Lemma appended_silent {A} P (m : M A) :
  (∀ w, w_trace (m w).2 = w_trace w) → preserves (appended P) m.
Proof. intros H w. exists []. by rewrite H, app_nil_r. Qed.

(** The heap is not touched. *)
Lemma keeps_params_frame {A} l (m : M A) :
  (∀ w, w_heap (m w).2 = w_heap w) → preserves (keeps_params l) m.
Proof. intros H w sd. unfold params_of. by rewrite H. Qed.

Lemma appended_emit P ev : P ev → preserves (appended P) (emit ev).
Proof. intros H w. exists [ev]. split; [done|]. by constructor. Qed.

Lemma appended_fs_update P f : preserves (appended P) (fs_update f).
Proof.
  apply appended_silent. intros w. unfold fs_update. by destruct (f _ _).
Qed.

Lemma appended_alloc P m : preserves (appended P) (alloc m).
Proof. by apply appended_silent. Qed.

Lemma appended_set_module P l m : preserves (appended P) (set_module l m).
Proof. by apply appended_silent. Qed.

Lemma keeps_params_emit l ev : preserves (keeps_params l) (emit ev).
Proof. by apply keeps_params_frame. Qed.

Lemma keeps_params_fs_update l f : preserves (keeps_params l) (fs_update f).
Proof.
  apply keeps_params_frame. intros w. unfold fs_update. by destruct (f _ _).
Qed.

(** A new object is not an old one. *)
Lemma keeps_params_alloc l m : preserves (keeps_params l) (alloc m).
Proof.
  intros w sd. unfold params_of, alloc. simpl. intros H.
  rewrite lookup_insert_ne; [done|].
  intros <-. pose proof (is_fresh (dom (w_heap w))) as Hf.
  rewrite not_elem_of_dom in Hf. by rewrite Hf in H.
Qed.

Lemma keeps_params_set_other l l' m :
  l' ≠ l → preserves (keeps_params l) (set_module l' m).
Proof.
  intros Hne w sd. unfold params_of, set_module. simpl.
  by rewrite lookup_insert_ne.
Qed.

Create HintDb pres.

#[global] Hint Resolve preserves_ret preserves_raise preserves_fs_query
  preserves_fs_try preserves_get_module preserves_getitem
  appended_fs_update appended_alloc appended_set_module
  keeps_params_emit keeps_params_fs_update keeps_params_alloc : pres.

(** Walk through an action: sequencing, branches, then the primitives. *)
Ltac pres_step :=
  first
    [ apply preserves_bind; [apply _| |intros ?]
    | match goal with
      | |- preserves _ (match ?x with _ => _ end) => destruct x
      end
    | solve [eauto with pres typeclass_instances] ].

Ltac pres := repeat pres_step.

(** Actions that only read the world. *)
Section readers.
Context (R : relation world) `{!PreOrder R}.

Lemma preserves_torch_load path : preserves R (Torch.load path).
Proof. unfold Torch.load. pres. Qed.

Lemma preserves_parameters l : preserves R (Torch.parameters l).
Proof. unfold Torch.parameters. pres. Qed.

Lemma preserves_SGD params lr : preserves R (SGD params lr).
Proof. unfold SGD. pres. Qed.

Lemma preserves_OneCycleLR max_lr n epochs : preserves R (OneCycleLR max_lr n epochs).
Proof. unfold OneCycleLR. pres. Qed.

Lemma preserves_make_criterion C distill cfg d :
  preserves R (make_criterion C distill cfg d).
Proof. unfold make_criterion. pres. Qed.

Lemma preserves_epoch_count cfg : preserves R (epoch_count cfg).
Proof. unfold epoch_count. pres. Qed.

Lemma preserves_read_yaml cfg : preserves R (read_yaml cfg).
Proof. unfold read_yaml. pres. Qed.

Lemma preserves_get_config cfg : preserves R (get_config cfg).
Proof. apply preserves_read_yaml. Qed.

End readers.

#[global] Hint Resolve preserves_torch_load preserves_parameters preserves_SGD
  preserves_OneCycleLR preserves_make_criterion preserves_epoch_count
  preserves_read_yaml preserves_get_config : pres.

(** ** What the functions add to the trace

    Only [train] and [train_kd] record an entry event, once, as their
    first step. *)

Lemma inner_event_intro (e : event) : e ≠ EvTrain → e ≠ EvTrainKd → inner_event e.
Proof. intros H1 H2 [?|?]; contradiction. Qed.

#[global] Hint Extern 1 (inner_event _) =>
  (apply inner_event_intro; discriminate) : pres.

#[global] Hint Resolve appended_emit : pres.

Section traces.
Context (C : collaborators).

Lemma inner_torch_save sd path : preserves inner (Torch.save sd path).
Proof. unfold Torch.save. pres. Qed.

Lemma inner_load_state_dict l sd strict :
  preserves inner (Torch.load_state_dict l sd strict).
Proof. unfold Torch.load_state_dict. pres. Qed.

Lemma inner_to l d : preserves inner (Torch.to l d).
Proof. unfold Torch.to. pres. Qed.

Lemma inner_optimizer_step opt grads :
  preserves inner (TorchTrainer.optimizer_step C opt grads).
Proof.
  intros w. exists [EvOptimizerStep (opt_params opt)]. split; [done|].
  constructor; [|done]. apply inner_event_intro; discriminate.
Qed.

Lemma inner_train_batch tr opt b : preserves inner (TorchTrainer.train_batch C tr opt b).
Proof.
  intros w. unfold TorchTrainer.train_batch.
  destruct (gradients _ _ _ _ _ _ _); [apply inner_optimizer_step|].
  simpl. reflexivity.
Qed.

Local Hint Resolve inner_torch_save inner_load_state_dict inner_to
  inner_train_batch : pres.

Lemma inner_train_batches tr opt bs :
  preserves inner (TorchTrainer.train_batches C tr opt bs).
Proof. revert opt. induction bs as [|b bs IH]; intros opt; simpl; pres. Qed.

Lemma inner_test tr model dl : preserves inner (TorchTrainer.test C tr model dl).
Proof. unfold TorchTrainer.test. pres. Qed.

Local Hint Resolve inner_train_batches inner_test : pres.

Lemma inner_epochs tr n opt best train_dl val_dl :
  preserves inner (TorchTrainer.epochs C tr n opt best train_dl val_dl).
Proof.
  revert opt best. induction n as [|n IH]; intros opt best; simpl; pres.
Qed.

Lemma inner_fit tr opt train_dl n_epoch val_dl :
  preserves inner (TorchTrainer.fit C tr opt train_dl n_epoch val_dl).
Proof. apply inner_epochs. Qed.

Local Hint Resolve inner_fit : pres.

Lemma inner_test_best tr model path dl :
  preserves inner (test_best C tr model path dl).
Proof. unfold test_best. pres. Qed.

Lemma inner_load_student mc dc log_dir dev :
  preserves inner (load_student C mc dc log_dir dev).
Proof. unfold load_student. pres. Qed.

Lemma inner_load_teacher tc ckpt dev : preserves inner (load_teacher C tc ckpt dev).
Proof. unfold load_teacher. pres. Qed.

Local Hint Resolve inner_test_best inner_load_student inner_load_teacher : pres.

Lemma inner_distill s t dc log_dir fp16 dev :
  preserves inner (distill C s t dc log_dir fp16 dev).
Proof. unfold distill. pres. Qed.

Lemma inner_rotate_log_dir log_dir : preserves inner (rotate_log_dir C log_dir).
Proof. unfold rotate_log_dir, rotate_existing. pres. Qed.

Local Hint Resolve inner_distill inner_rotate_log_dir : pres.

Lemma inner_main_setup args environ cuda :
  preserves inner (main_setup C args environ cuda).
Proof. unfold main_setup. pres. Qed.

(** An action that starts by recording [ev] and goes on quietly. *)
Lemma appended_after_emit {A} ev (k : M A) (w : world) :
  preserves inner k →
  ∃ evs, w_trace ((emit ev ;; k) w).2 = (w_trace w ++ ev :: evs)%list ∧
         Forall inner_event evs.
Proof.
  intros Hk. unfold bind, emit. simpl.
  destruct (Hk (World (w_fs w) (w_heap w) (w_trace w ++ [ev]) (w_clock w)))
    as (evs & E & F).
  exists evs. split; [|done]. rewrite E. simpl. by rewrite <- app_assoc.
Qed.

Lemma train_trace mc dc log_dir fp16 dev w :
  ∃ evs, w_trace (train C mc dc log_dir fp16 dev w).2
         = (w_trace w ++ EvTrain :: evs)%list ∧ Forall inner_event evs.
Proof. unfold train. apply appended_after_emit. pres. Qed.

Lemma train_kd_trace mc tc ckpt dc log_dir fp16 dev w :
  ∃ evs, w_trace (train_kd C mc tc ckpt dc log_dir fp16 dev w).2
         = (w_trace w ++ EvTrainKd :: evs)%list ∧ Forall inner_event evs.
Proof. unfold train_kd. apply appended_after_emit. pres. Qed.

End traces.

(** ** Inversion of runs that return *)

Lemma bind_Ret_inv {A B} (m : M A) (k : A → M B) w b w' :
  bind m k w = (Ret b, w') → ∃ a w1, m w = (Ret a, w1) ∧ k a w1 = (Ret b, w').
Proof.
  unfold bind. destruct (m w) as [[a|e] w1]; [|done].
  intros H. by exists a, w1.
Qed.

Lemma bind_Ret {A B} (m : M A) (k : A → M B) w a w1 :
  m w = (Ret a, w1) → bind m k w = k a w1.
Proof. unfold bind. by intros ->. Qed.

Lemma bind_Raise {A B} (m : M A) (k : A → M B) w e w1 :
  m w = (Raise e, w1) → bind m k w = (Raise e, w1).
Proof. unfold bind. by intros ->. Qed.

Lemma getitem_Ret_inv d k w v w' :
  getitem d k w = (Ret v, w') → d !! k = Some v ∧ w' = w.
Proof.
  unfold getitem. destruct (d !! k); [|done].
  unfold ret. by intros [= -> ->].
Qed.

Lemma getitem_Some d k v w : d !! k = Some v → getitem d k w = (Ret v, w).
Proof. unfold getitem. by intros ->. Qed.

Lemma read_yaml_Ret_inv p w cfg w' :
  read_yaml p w = (Ret cfg, w') → Fs.read (w_fs w) p = Ret (Yaml cfg) ∧ w' = w.
Proof.
  unfold read_yaml, bind, fs_try. destruct (Fs.read _ _) as [[c|sd|b]|e]; try done.
  unfold ret. by intros [= -> ->].
Qed.

Lemma fs_update_Ret_inv f w w' :
  fs_update f w = (Ret tt, w') →
  ∃ fs', f (w_clock w) (w_fs w) = Ret fs' ∧
         w' = World fs' (w_heap w) (w_trace w) (w_clock w).
Proof.
  unfold fs_update. destruct (f _ _) as [fs'|e]; [|done].
  intros [= <-]. by exists fs'.
Qed.

(** ** The file system *)

Section fs_facts.
Implicit Types fs : filesystem.

Lemma isdir_insert_dir fs p t : Fs.isdir (<[p := Dir t]> fs) p = true.
Proof. unfold Fs.isdir. by rewrite lookup_insert_eq. Qed.

Lemma mkdir_isdir now fs p fs' :
  Fs.mkdir now fs p = Ret fs' → Fs.isdir fs' p = true.
Proof.
  unfold Fs.mkdir. destruct (fs !! p); [done|].
  case_bool_decide; [done|]. destruct (Fs.check_parent fs p); [|done].
  intros [= <-]. apply isdir_insert_dir.
Qed.

(** The last step of [makedirs]: make the leaf, or find it there. *)
Lemma makedirs_leaf_isdir now fs p fs' :
  match Fs.mkdir now fs p with
  | Ret fs2 => Ret fs2
  | Raise e => if Fs.isdir fs p then Ret fs else Raise e
  end = Ret fs' →
  Fs.isdir fs' p = true.
Proof.
  destruct (Fs.mkdir now fs p) as [fs2|e] eqn:E.
  - intros [= <-]. by eapply mkdir_isdir.
  - destruct (Fs.isdir fs p) eqn:D; [|done]. by intros [= <-].
Qed.

(** When [makedirs] returns, the directory is there. *)
Lemma makedirs_isdir now fs name fs' :
  (Fs.split_last name).2 ≠ "." →
  Fs.makedirs now fs name = Ret fs' → Fs.isdir fs' name = true.
Proof.
  intros Hdot. unfold Fs.makedirs.
  destruct (String.length name) as [|fuel]; simpl.
  - apply makedirs_leaf_isdir.
  - destruct (_ && _); [|apply makedirs_leaf_isdir].
    rewrite (bool_decide_eq_false_2 _ Hdot).
    destruct (Fs.makedirs_rec _ _ _ _) as [fs1|[[] msg]];
      try done; apply makedirs_leaf_isdir.
Qed.

Lemma mkdir_isfile now fs p fs' q :
  Fs.mkdir now fs p = Ret fs' → Fs.isfile fs' q = Fs.isfile fs q.
Proof.
  unfold Fs.mkdir. destruct (fs !! p) eqn:Hp; [done|].
  case_bool_decide; [done|]. destruct (Fs.check_parent fs p); [|done].
  intros [= <-]. unfold Fs.isfile.
  destruct (decide (p = q)) as [<-|Hne].
  - by rewrite lookup_insert_eq, Hp.
  - by rewrite lookup_insert_ne.
Qed.

Lemma makedirs_leaf_isfile now fs p fs' q :
  match Fs.mkdir now fs p with
  | Ret fs2 => Ret fs2
  | Raise e => if Fs.isdir fs p then Ret fs else Raise e
  end = Ret fs' →
  Fs.isfile fs' q = Fs.isfile fs q.
Proof.
  destruct (Fs.mkdir now fs p) as [fs2|e] eqn:E.
  - intros [= <-]. by eapply mkdir_isfile.
  - destruct (Fs.isdir fs p); [|done]. by intros [= <-].
Qed.

(** [makedirs] only adds directories: what is a file stays one, and
    nothing becomes one. *)
Lemma makedirs_rec_isfile fuel now fs name fs' q :
  Fs.makedirs_rec fuel now fs name = Ret fs' → Fs.isfile fs' q = Fs.isfile fs q.
Proof.
  revert fs name fs'. induction fuel as [|fuel IH]; intros fs name fs'; simpl.
  - apply makedirs_leaf_isfile.
  - destruct (_ && _); [|apply makedirs_leaf_isfile].
    destruct (Fs.makedirs_rec fuel now fs (Fs.split_last name).1) as [fs1|[[] msg]] eqn:E;
      try done.
    + apply IH in E. case_bool_decide.
      * by intros [= <-].
      * intros Hleaf. apply (makedirs_leaf_isfile _ _ _ _ q) in Hleaf. congruence.
    + case_bool_decide; [by intros [= <-]|apply makedirs_leaf_isfile].
Qed.

Lemma makedirs_isfile now fs name fs' q :
  Fs.makedirs now fs name = Ret fs' → Fs.isfile fs' q = Fs.isfile fs q.
Proof. apply makedirs_rec_isfile. Qed.

End fs_facts.

(** ** The first half of [__main__] *)

#[global] Instance same_heap_preorder : PreOrder same_heap.
Proof.
  split; [done|]. intros w1 w2 w3 H1 H2. unfold same_heap in *. congruence.
Qed.

Lemma same_heap_emit ev : preserves same_heap (emit ev).
Proof. done. Qed.

Lemma same_heap_fs_update f : preserves same_heap (fs_update f).
Proof. intros w. unfold fs_update, same_heap. by destruct (f _ _). Qed.

#[global] Hint Resolve same_heap_emit same_heap_fs_update : pres.

Section setup_facts.
Context (C : collaborators).

(** Nothing is built before the dispatch. *)
Lemma main_setup_same_heap args environ cuda :
  preserves same_heap (main_setup C args environ cuda).
Proof. unfold main_setup, rotate_log_dir, rotate_existing. pres. Qed.

(** When the rotation step returns, the output directory is there. *)
Lemma rotate_log_dir_isdir log_dir w w' :
  (Fs.split_last log_dir).2 ≠ "." →
  rotate_log_dir C log_dir w = (Ret tt, w') →
  Fs.isdir (w_fs w') log_dir = true.
Proof.
  intros Hdot H. unfold rotate_log_dir in H.
  apply bind_Ret_inv in H as ([] & w2 & _ & H).
  apply fs_update_Ret_inv in H as (fs' & H & ->). simpl.
  by eapply makedirs_isdir.
Qed.

(** Where no output directory exists, lines 256-261 only make
    directories. *)
Lemma rotate_log_dir_fresh log_dir w w' q :
  Fs.exists_ (w_fs w) log_dir = false →
  rotate_log_dir C log_dir w = (Ret tt, w') →
  Fs.isfile (w_fs w') q = Fs.isfile (w_fs w) q.
Proof.
  intros Hno H. unfold rotate_log_dir, rotate_existing in H.
  apply bind_Ret_inv in H as ([] & w2 & Hrot & H).
  unfold bind, fs_query in Hrot. simpl in Hrot. rewrite Hno in Hrot.
  injection Hrot as <-.
  apply fs_update_Ret_inv in H as (fs' & H & ->). simpl.
  by eapply makedirs_isfile.
Qed.

(** What the first half hands over, when it returns. *)
Lemma main_setup_Ret_inv args environ cuda w s w1 :
  main_setup C args environ cuda w = (Ret s, w1) →
  su_tc_ckpt s = args_teacher_checkpoints args ∧
  su_log_dir s = log_dir_of environ ∧
  su_device s = device_of cuda ∧
  (∃ cfg configured,
     Fs.read (w_fs w) (args_data args) = Ret (Yaml cfg) ∧
     cfg !! "DATA_PATH" = Some configured ∧
     su_data_config s =
       <["DATA_PATH" := match environ !! "SM_CHANNEL_TRAIN" with
                        | Some v => YStr v
                        | None => configured
                        end]> cfg) ∧
  ((Fs.split_last (log_dir_of environ)).2 ≠ "." →
   Fs.isdir (w_fs w1) (log_dir_of environ) = true) ∧
  (Fs.exists_ (w_fs w) (log_dir_of environ) = false →
   ∀ q, Fs.isfile (w_fs w1) q = Fs.isfile (w_fs w) q).
Proof.
  intros H. unfold main_setup in H.
  apply bind_Ret_inv in H as (mc & wa & Hmc & H).
  apply read_yaml_Ret_inv in Hmc as [_ ->].
  apply bind_Ret_inv in H as (tc & wa & Htc & H).
  apply read_yaml_Ret_inv in Htc as [_ ->].
  apply bind_Ret_inv in H as (dc & wa & Hdc & H).
  apply read_yaml_Ret_inv in Hdc as [Hdc ->].
  apply bind_Ret_inv in H as ([] & wa & [= <-] & H).
  apply bind_Ret_inv in H as (dp & wa & Hdp & H).
  apply getitem_Ret_inv in Hdp as [Hdp ->].
  apply bind_Ret_inv in H as ([] & wb & Hrot & H).
  apply bind_Ret_inv in H as ([] & wa & [= <-] & H).
  apply bind_Ret_inv in H as ([] & wa & [= <-] & H).
  apply bind_Ret_inv in H as ([] & wa & [= <-] & H).
  injection H as <- <-. simpl. split_and!; try done.
  - by exists dc, dp.
  - intros Hdot. by eapply rotate_log_dir_isdir.
  - intros Hno q. by apply (rotate_log_dir_fresh _ _ _ q) in Hrot.
Qed.

End setup_facts.

(** ** Counting entries *)

Lemma entries_app e (l1 l2 : list event) :
  entries e (l1 ++ l2) = (entries e l1 + entries e l2)%nat.
Proof. unfold entries. by rewrite filter_app, length_app. Qed.

Lemma entries_inner e (l : list event) :
  entry_event e → Forall inner_event l → entries e l = 0%nat.
Proof.
  intros He. unfold entries. induction 1 as [|x l Hx _ IH]; [done|].
  rewrite filter_cons. case_decide as E; [|done].
  subst x. by destruct Hx.
Qed.

Lemma entries_cons_eq e (l : list event) : entries e (e :: l) = S (entries e l).
Proof. unfold entries. rewrite filter_cons. by case_decide. Qed.

Lemma entries_cons_ne e x (l : list event) : x ≠ e → entries e (x :: l) = entries e l.
Proof. intros H. unfold entries. rewrite filter_cons. by case_decide. Qed.

Lemma events_since_app (w w' : world) evs :
  w_trace w' = (w_trace w ++ evs)%list → events_since (w_trace w) w' = evs.
Proof. intros H. unfold events_since. rewrite H. by rewrite drop_app_length. Qed.

(** ** The second half of [__main__] *)

Section dispatch_facts.
Context (C : collaborators).

Lemma main_unfold cl environ cuda w :
  main C cl environ cuda w =
  match main_setup C (parse_args cl) environ cuda w with
  | (Ret s, w1) => main_dispatch C (parse_args cl) s w1
  | (Raise e, w1) => (Raise e, w1)
  end.
Proof. reflexivity. Qed.

(** The assertion of line 273. *)
Lemma dispatch_assertion args s w :
  args_distill_mode args = true →
  Fs.isfile (w_fs w) (su_tc_ckpt s) = false →
  main_dispatch C args s w
  = (Raise (Exn AssertionError ("No ckpt file found at " +:+ su_tc_ckpt s)), w).
Proof.
  intros Hflag Hfile. unfold main_dispatch. rewrite Hflag. simpl.
  unfold bind, fs_query. simpl. by rewrite Hfile.
Qed.

Lemma dispatch_distill_unfold args s w :
  args_distill_mode args = true →
  Fs.isfile (w_fs w) (su_tc_ckpt s) = true →
  main_dispatch C args s w
  = bind (getitem (su_data_config s) "FP16")
      (λ fp16, train_kd C (su_model_config s) (su_tc_model_config s) (su_tc_ckpt s)
                 (su_data_config s) (su_log_dir s) fp16 (su_device s)) w.
Proof.
  intros Hflag Hfile. unfold main_dispatch. rewrite Hflag.
  rewrite bool_decide_eq_true_2 by done.
  erewrite bind_Ret; [|reflexivity].
  simpl. rewrite Hfile.
  by erewrite bind_Ret; [|reflexivity].
Qed.

Lemma dispatch_plain_unfold args s w :
  args_distill_mode args = false →
  main_dispatch C args s w
  = bind (getitem (su_data_config s) "FP16")
      (λ fp16, train C (su_model_config s) (su_data_config s) (su_log_dir s)
                 fp16 (su_device s)) w.
Proof.
  intros Hflag. unfold main_dispatch. rewrite Hflag.
  by rewrite bool_decide_eq_false_2.
Qed.

Lemma getitem_None d k w : d !! k = None → getitem d k w = (Raise (Exn KeyError k), w).
Proof. unfold getitem. by intros ->. Qed.

Lemma dispatch_plain args s w :
  args_distill_mode args = false →
  is_Some (su_data_config s !! "FP16") →
  ∃ rest, w_trace (main_dispatch C args s w).2 = (w_trace w ++ EvTrain :: rest)%list ∧
          Forall inner_event rest.
Proof.
  intros Hflag [fp16 Hfp]. rewrite dispatch_plain_unfold by done.
  rewrite (bind_Ret _ _ _ _ _ (getitem_Some _ _ _ w Hfp)).
  apply train_trace.
Qed.

Lemma dispatch_distill args s w :
  args_distill_mode args = true →
  Fs.isfile (w_fs w) (su_tc_ckpt s) = true →
  is_Some (su_data_config s !! "FP16") →
  ∃ rest, w_trace (main_dispatch C args s w).2 = (w_trace w ++ EvTrainKd :: rest)%list ∧
          Forall inner_event rest.
Proof.
  intros Hflag Hfile [fp16 Hfp]. rewrite dispatch_distill_unfold by done.
  rewrite (bind_Ret _ _ _ _ _ (getitem_Some _ _ _ w Hfp)).
  apply train_kd_trace.
Qed.

(** Whatever happens, the dispatch enters the path of the flag, once,
    or no path at all. *)
Lemma dispatch_events args s w :
  ∃ evs, w_trace (main_dispatch C args s w).2 = (w_trace w ++ evs)%list ∧
    (Forall inner_event evs ∨
     ∃ rest, evs = (if args_distill_mode args then EvTrainKd else EvTrain) :: rest ∧
             Forall inner_event rest).
Proof.
  destruct (args_distill_mode args) eqn:Hflag.
  - destruct (Fs.isfile (w_fs w) (su_tc_ckpt s)) eqn:Hfile.
    + destruct (su_data_config s !! "FP16") as [fp16|] eqn:Hfp.
      * destruct (dispatch_distill args s w) as (rest & E & F); [done|done|by eexists|].
        exists (EvTrainKd :: rest). split; [done|]. right. by exists rest.
      * exists []. rewrite app_nil_r. split; [|by left].
        rewrite dispatch_distill_unfold by done.
        by rewrite (bind_Raise _ _ _ _ _ (getitem_None _ _ w Hfp)).
    + rewrite dispatch_assertion by done. exists []. simpl.
      rewrite app_nil_r. eauto.
  - destruct (su_data_config s !! "FP16") as [fp16|] eqn:Hfp.
    + destruct (dispatch_plain args s w) as (rest & E & F); [done|by eexists|].
      exists (EvTrain :: rest). split; [done|]. right. by exists rest.
    + exists []. rewrite app_nil_r. split; [|by left].
      rewrite dispatch_plain_unfold by done.
      by rewrite (bind_Raise _ _ _ _ _ (getitem_None _ _ w Hfp)).
Qed.

(** The events of a whole run: those of the first half, which enter no
    path, then those of the dispatch. *)
Lemma main_events cl environ cuda w :
  ∃ evs, events_since (w_trace w) (main C cl environ cuda w).2 = evs ∧
    (Forall inner_event evs ∨
     ∃ pre rest,
       evs = (pre ++ (if args_distill_mode (parse_args cl) then EvTrainKd else EvTrain)
                      :: rest)%list ∧
       Forall inner_event pre ∧ Forall inner_event rest).
Proof.
  rewrite main_unfold.
  destruct (inner_main_setup C (parse_args cl) environ cuda w) as (pre & Epre & Fpre).
  destruct (main_setup C (parse_args cl) environ cuda w) as [[s|e] w1]; simpl in *.
  - destruct (dispatch_events (parse_args cl) s w1) as (evs & E & H).
    rewrite Epre, <- app_assoc in E.
    rewrite (events_since_app _ _ _ E). eexists; split; [done|].
    destruct H as [F|(rest & -> & F)].
    + left. by apply Forall_app.
    + right. by exists pre, rest.
  - rewrite (events_since_app _ _ _ Epre). eauto.
Qed.

(** The entry counts of a whole run. *)
Lemma main_entries cl environ cuda w :
  let evs := events_since (w_trace w) (main C cl environ cuda w).2 in
  (entries EvTrain evs = 0 ∧ entries EvTrainKd evs = 0)%nat ∨
  (args_distill_mode (parse_args cl) = false ∧
   entries EvTrain evs = 1 ∧ entries EvTrainKd evs = 0)%nat ∨
  (args_distill_mode (parse_args cl) = true ∧
   entries EvTrain evs = 0 ∧ entries EvTrainKd evs = 1)%nat.
Proof.
  intros evs. destruct (main_events cl environ cuda w) as (evs' & E & H).
  fold evs in E. subst evs'.
  assert (HT : entry_event EvTrain) by by left.
  assert (HK : entry_event EvTrainKd) by by right.
  destruct H as [F|(pre & rest & E & Fp & Fr)].
  - left. by rewrite !entries_inner.
  - right. rewrite E, !entries_app.
    destruct (args_distill_mode (parse_args cl)); [right|left];
      rewrite ?entries_cons_eq, ?entries_cons_ne, !entries_inner by done; done.
Qed.

End dispatch_facts.

(** ** The entry point *)

(** C1, as the code has it: with the distillation flag set and no
    teacher checkpoint file at the given path when line 273 is reached,
    the run ends in an [AssertionError] before any training work: no
    model object has been built and no training path entered.  The output
    directory, however, has been made by then (lines 256-261 come
    first). *)
Theorem C1_assertion_before_training_after_makedirs
    (C : collaborators) (cl : cmdline) (environ : gmap string string) (cuda : bool)
    (w : world) (s : setup) (w1 : world) :
  args_distill_mode (parse_args cl) = true →
  main_setup C (parse_args cl) environ cuda w = (Ret s, w1) →
  Fs.isfile (w_fs w1) (args_teacher_checkpoints (parse_args cl)) = false →
  main C cl environ cuda w
  = (Raise (Exn AssertionError
              ("No ckpt file found at " +:+ args_teacher_checkpoints (parse_args cl))), w1) ∧
  Forall inner_event (events_since (w_trace w) w1) ∧
  w_heap w1 = w_heap w ∧
  ((Fs.split_last (log_dir_of environ)).2 ≠ "." →
   Fs.isdir (w_fs w1) (log_dir_of environ) = true) ∧
  (Fs.exists_ (w_fs w) (log_dir_of environ) = false →
   Fs.isfile (w_fs w1) (args_teacher_checkpoints (parse_args cl))
   = Fs.isfile (w_fs w) (args_teacher_checkpoints (parse_args cl))).
Proof.
  intros Hflag Hsetup Hfile.
  destruct (main_setup_Ret_inv C _ _ _ _ _ _ Hsetup) as (Hck & _ & _ & _ & Hdir & Hfresh).
  split_and!.
  - rewrite main_unfold, Hsetup. rewrite <- Hck in *. by apply dispatch_assertion.
  - destruct (inner_main_setup C (parse_args cl) environ cuda w) as (evs & E & F).
    rewrite Hsetup in E. simpl in E. by rewrite (events_since_app _ _ _ E).
  - pose proof (main_setup_same_heap C (parse_args cl) environ cuda w) as H.
    by rewrite Hsetup in H.
  - done.
  - intros Hno. apply (Hfresh Hno).
Qed.

Lemma C1_assertion_before_training_after_makedirs_witness :
  main Sample.collab (Sample.distill_flag "True") ∅ false (Sample.world_of Sample.base_fs)
  = (Raise (Exn AssertionError "No ckpt file found at exp/swin_teacher/best.pt"),
     (main_setup Sample.collab (parse_args (Sample.distill_flag "True")) ∅ false
        (Sample.world_of Sample.base_fs)).2).
Proof.
  destruct (main_setup Sample.collab (parse_args (Sample.distill_flag "True")) ∅ false
              (Sample.world_of Sample.base_fs)) as [[s|e] w1] eqn:E.
  - apply (C1_assertion_before_training_after_makedirs Sample.collab
             (Sample.distill_flag "True") ∅ false (Sample.world_of Sample.base_fs) s w1);
      [reflexivity|exact E|].
    apply (f_equal snd) in E. simpl in E. subst w1. vm_compute. reflexivity.
  - exfalso. apply (f_equal fst) in E. vm_compute in E. discriminate E.
Defined.

(** C1 as stated fails: started where no output directory exists, the
    aborted run leaves a new one behind. *)
Lemma C1_new_output_directory_counterexample :
  Fs.exists_ Sample.base_fs "exp/latest" = false ∧
  Fs.isfile Sample.base_fs "exp/swin_teacher/best.pt" = false ∧
  (main Sample.collab (Sample.distill_flag "True") ∅ false
     (Sample.world_of Sample.base_fs)).1
  = Raise (Exn AssertionError "No ckpt file found at exp/swin_teacher/best.pt") ∧
  Fs.isdir (w_fs (main Sample.collab (Sample.distill_flag "True") ∅ false
                    (Sample.world_of Sample.base_fs)).2) "exp/latest" = true.
Proof. vm_compute. repeat split. Qed.

(** The paths a run enters when the first half of [__main__] has
    completed. *)
Lemma main_run_counts
    (C : collaborators) (cl : cmdline) (environ : gmap string string) (cuda : bool)
    (w : world) (s : setup) (w1 : world) :
  let evs := events_since (w_trace w) (main C cl environ cuda w).2 in
  main_setup C (parse_args cl) environ cuda w = (Ret s, w1) →
  is_Some (su_data_config s !! "FP16") →
  if args_distill_mode (parse_args cl) then
    if Fs.isfile (w_fs w1) (su_tc_ckpt s)
    then entries EvTrainKd evs = 1%nat ∧ entries EvTrain evs = 0%nat
    else entries EvTrainKd evs = 0%nat ∧ entries EvTrain evs = 0%nat
  else entries EvTrain evs = 1%nat ∧ entries EvTrainKd evs = 0%nat.
Proof.
  intros evs Hsetup Hfp.
  assert (HT : entry_event EvTrain) by by left.
  assert (HK : entry_event EvTrainKd) by by right.
  destruct (inner_main_setup C (parse_args cl) environ cuda w) as (pre & Epre & Fpre).
  rewrite Hsetup in Epre. simpl in Epre.
  assert (Hrun : (main C cl environ cuda w).2
                 = (main_dispatch C (parse_args cl) s w1).2)
    by by rewrite main_unfold, Hsetup.
  unfold evs. rewrite Hrun. clear evs Hrun.
  destruct (args_distill_mode (parse_args cl)) eqn:Hflag.
  - destruct (Fs.isfile (w_fs w1) (su_tc_ckpt s)) eqn:Hfile.
    + destruct (dispatch_distill C _ s w1 Hflag Hfile Hfp) as (rest & E & F).
      rewrite Epre, <- app_assoc in E. rewrite (events_since_app _ _ _ E).
      rewrite !entries_app, entries_cons_eq, entries_cons_ne, !entries_inner by done.
      done.
    + rewrite dispatch_assertion by done. simpl.
      rewrite (events_since_app _ _ _ Epre). by rewrite !entries_inner.
  - destruct (dispatch_plain C _ s w1 Hflag Hfp) as (rest & E & F).
    rewrite Epre, <- app_assoc in E. rewrite (events_since_app _ _ _ E).
    rewrite !entries_app, entries_cons_eq, entries_cons_ne, !entries_inner by done.
    done.
Qed.

(** C4, as the code has it: a run enters at most one training path,
    never both, and only the one the flag selects.  It enters exactly one
    when the first half of [__main__] completes, the data configuration
    has its [FP16] entry and, with the flag set, the teacher checkpoint is
    a file; with the flag set and the checkpoint missing it enters
    none. *)
Theorem C4_at_most_one_training_path
    (C : collaborators) (cl : cmdline) (environ : gmap string string) (cuda : bool)
    (w : world) :
  let evs := events_since (w_trace w) (main C cl environ cuda w).2 in
  (entries EvTrain evs + entries EvTrainKd evs ≤ 1)%nat ∧
  (entries EvTrain evs = 1%nat → args_distill_mode (parse_args cl) = false) ∧
  (entries EvTrainKd evs = 1%nat → args_distill_mode (parse_args cl) = true) ∧
  (∀ s w1,
     main_setup C (parse_args cl) environ cuda w = (Ret s, w1) →
     is_Some (su_data_config s !! "FP16") →
     if args_distill_mode (parse_args cl) then
       if Fs.isfile (w_fs w1) (su_tc_ckpt s)
       then entries EvTrainKd evs = 1%nat ∧ entries EvTrain evs = 0%nat
       else entries EvTrainKd evs = 0%nat ∧ entries EvTrain evs = 0%nat
     else entries EvTrain evs = 1%nat ∧ entries EvTrainKd evs = 0%nat).
Proof.
  intros evs.
  pose proof (main_entries C cl environ cuda w) as Hcount. fold evs in Hcount.
  split_and!.
  - destruct Hcount as [[-> ->]|[(_ & -> & ->)|(_ & -> & ->)]]; lia.
  - destruct Hcount as [[-> _]|[(? & _ & _)|(_ & -> & _)]]; done.
  - destruct Hcount as [[_ ->]|[(_ & _ & ->)|(? & _ & _)]]; done.
  - intros s w1. apply main_run_counts.
Qed.

Lemma C4_at_most_one_training_path_witness :
  entries EvTrain
    (events_since [] (main Sample.collab Sample.no_flags ∅ false
                        (Sample.world_of Sample.base_fs)).2) = 1%nat ∧
  entries EvTrainKd
    (events_since [] (main Sample.collab Sample.no_flags ∅ false
                        (Sample.world_of Sample.base_fs)).2) = 0%nat.
Proof.
  destruct (main_setup Sample.collab (parse_args Sample.no_flags) ∅ false
              (Sample.world_of Sample.base_fs)) as [[s|e] w1] eqn:E.
  - destruct (C4_at_most_one_training_path Sample.collab Sample.no_flags ∅ false
                (Sample.world_of Sample.base_fs)) as (_ & _ & _ & H).
    apply (H s w1 E).
    apply (f_equal fst) in E. vm_compute in E. injection E as <-.
    vm_compute. eexists. reflexivity.
  - exfalso. apply (f_equal fst) in E. vm_compute in E. discriminate E.
Defined.

(** C4 as stated fails: with the flag set and no teacher checkpoint, the
    run enters neither path. *)
Lemma C4_exactly_one_path_counterexample :
  args_distill_mode (parse_args (Sample.distill_flag "True")) = true ∧
  (entries EvTrain
     (events_since [] (main Sample.collab (Sample.distill_flag "True") ∅ false
                         (Sample.world_of Sample.base_fs)).2)
   + entries EvTrainKd
       (events_since [] (main Sample.collab (Sample.distill_flag "True") ∅ false
                           (Sample.world_of Sample.base_fs)).2))%nat = 0%nat.
Proof. vm_compute. split; reflexivity. Qed.

(** C9: the data configuration handed on has [SM_CHANNEL_TRAIN] as its
    [DATA_PATH] when that variable is set and the configured value
    otherwise, all other entries being those of the file; the output
    directory is [SM_MODEL_DIR] when set and [exp/latest] otherwise. *)
Theorem C9_environment_overrides_paths
    (C : collaborators) (args : namespace) (environ : gmap string string) (cuda : bool)
    (w : world) (s : setup) (w1 : world) :
  main_setup C args environ cuda w = (Ret s, w1) →
  ∃ cfg configured,
    Fs.read (w_fs w) (args_data args) = Ret (Yaml cfg) ∧
    cfg !! "DATA_PATH" = Some configured ∧
    su_data_config s !! "DATA_PATH"
    = Some (match environ !! "SM_CHANNEL_TRAIN" with
            | Some v => YStr v
            | None => configured
            end) ∧
    (∀ k, k ≠ "DATA_PATH" → su_data_config s !! k = cfg !! k) ∧
    su_log_dir s = match environ !! "SM_MODEL_DIR" with
                   | Some v => v
                   | None => "exp/latest"
                   end.
Proof.
  intros H.
  destruct (main_setup_Ret_inv C _ _ _ _ _ _ H)
    as (_ & Hlog & _ & (cfg & dp & Hr & Hdp & Hcfg) & _).
  exists cfg, dp. split; [exact Hr|]. split; [exact Hdp|]. split; [|split].
  - rewrite Hcfg. apply lookup_insert_eq.
  - intros k Hk. rewrite Hcfg. by apply lookup_insert_ne.
  - rewrite Hlog. unfold log_dir_of, environ_get. by destruct (environ !! "SM_MODEL_DIR").
Qed.

Lemma C9_environment_overrides_paths_witness :
  ∃ s w1,
    main_setup Sample.collab (parse_args Sample.no_flags)
      (<["SM_CHANNEL_TRAIN" := "/opt/ml/input/data/train"]> ∅) false
      (Sample.world_of Sample.base_fs) = (Ret s, w1) ∧
    su_data_config s !! "DATA_PATH" = Some (YStr "/opt/ml/input/data/train") ∧
    su_log_dir s = "exp/latest".
Proof.
  destruct (main_setup Sample.collab (parse_args Sample.no_flags)
              (<["SM_CHANNEL_TRAIN" := "/opt/ml/input/data/train"]> ∅) false
              (Sample.world_of Sample.base_fs)) as [[s|e] w1] eqn:E.
  - exists s, w1. split; [reflexivity|].
    destruct (C9_environment_overrides_paths _ _ _ _ _ _ _ E)
      as (cfg & dp & _ & _ & Hdp & _ & Hlog).
    split; [exact Hdp|exact Hlog].
  - exfalso. apply (f_equal fst) in E. vm_compute in E. discriminate E.
Defined.

(** C10: [type=bool] turns any non-empty text after [--distill_mode]
    into [True], the text "False" included; such a run never enters plain
    training, and enters distillation training once its preconditions
    hold.  Plain training is entered only when the flag is left out or
    given the empty text. *)
Theorem C10_any_text_selects_distillation
    (C : collaborators) (cl : cmdline) (environ : gmap string string) (cuda : bool)
    (w : world) :
  let evs := events_since (w_trace w) (main C cl environ cuda w).2 in
  py_bool "False" = true ∧
  (∀ text, cl_distill_mode cl = Some text → text ≠ "" →
     args_distill_mode (parse_args cl) = true ∧
     entries EvTrain evs = 0%nat ∧
     (∀ s w1,
        main_setup C (parse_args cl) environ cuda w = (Ret s, w1) →
        is_Some (su_data_config s !! "FP16") →
        Fs.isfile (w_fs w1) (su_tc_ckpt s) = true →
        entries EvTrainKd evs = 1%nat)) ∧
  (entries EvTrain evs = 1%nat →
   cl_distill_mode cl = None ∨ cl_distill_mode cl = Some "") ∧
  (cl_distill_mode cl = None ∨ cl_distill_mode cl = Some "" →
   args_distill_mode (parse_args cl) = false ∧ entries EvTrainKd evs = 0%nat).
Proof.
  intros evs.
  pose proof (main_entries C cl environ cuda w) as Hcount. fold evs in Hcount.
  assert (HT : entries EvTrain evs = 1%nat → args_distill_mode (parse_args cl) = false)
    by (destruct Hcount as [[-> _]|[(? & _ & _)|(_ & -> & _)]]; done).
  assert (HK : entries EvTrainKd evs = 1%nat → args_distill_mode (parse_args cl) = true)
    by (destruct Hcount as [[_ ->]|[(_ & _ & ->)|(? & _ & _)]]; done).
  assert (Hle : (entries EvTrain evs + entries EvTrainKd evs ≤ 1)%nat)
    by (destruct Hcount as [[-> ->]|[(_ & -> & ->)|(_ & -> & ->)]]; lia).
  pose proof (λ s w1, main_run_counts C cl environ cuda w s w1) as Hrun.
  cbv zeta in Hrun. fold evs in Hrun.
  assert (Hparse : args_distill_mode (parse_args cl) = true ↔
                   ∃ text, cl_distill_mode cl = Some text ∧ text ≠ "").
  { unfold parse_args, py_bool. simpl. destruct (cl_distill_mode cl) as [text|].
    - case_bool_decide as E; simpl; split; try done.
      + intros (t & [= <-] & Ht). done.
      + intros _. by exists text.
    - split; [done|]. by intros (t & ? & _). }
  split_and!.
  - done.
  - intros text Htext Hne.
    assert (Hflag : args_distill_mode (parse_args cl) = true)
      by (apply Hparse; by exists text).
    split_and!; [done| |].
    + destruct (entries EvTrain evs) as [|[|n]] eqn:E; [done| |lia].
      specialize (HT eq_refl). congruence.
    + intros s w1 Hsetup Hfp Hfile. specialize (Hrun s w1 Hsetup Hfp).
      rewrite Hflag, Hfile in Hrun. by destruct Hrun.
  - intros E. specialize (HT E).
    destruct (cl_distill_mode cl) as [text|] eqn:Hcl; [|by left].
    right. destruct (decide (text = "")) as [->|Hne]; [done|].
    assert (args_distill_mode (parse_args cl) = true)
      by (apply Hparse; by exists text).
    congruence.
  - intros Hcl.
    assert (Hflag : args_distill_mode (parse_args cl) = false).
    { apply not_true_is_false. intros E.
      apply Hparse in E as (text & E & Hne). destruct Hcl; congruence. }
    split; [done|].
    destruct (entries EvTrainKd evs) as [|[|n]] eqn:E; [done| |lia].
    specialize (HK eq_refl). congruence.
Qed.

Lemma C10_any_text_selects_distillation_witness :
  args_distill_mode (parse_args (Sample.distill_flag "False")) = true ∧
  entries EvTrain
    (events_since [] (main Sample.collab (Sample.distill_flag "False") ∅ false
                        (Sample.world_of Sample.fs_with_teacher)).2) = 0%nat.
Proof.
  destruct (C10_any_text_selects_distillation Sample.collab (Sample.distill_flag "False")
              ∅ false (Sample.world_of Sample.fs_with_teacher)) as (_ & H & _).
  destruct (H "False" eq_refl) as (H1 & H2 & _); [discriminate|].
  split; [exact H1|exact H2].
Defined.

(** ** The scaler (lines 68-71 and 167-170) *)

Lemma make_scaler_is_Some fp16 d :
  is_Some (make_scaler fp16 d) ↔ truthy fp16 = true ∧ d ≠ device_cpu.
Proof.
  unfold make_scaler. destruct (truthy fp16); simpl.
  - case_bool_decide as E; split.
    + done.
    + intros _. by eexists.
    + by intros [? ?].
    + intros [_ H]. by destruct E.
  - split; [by intros [? ?]|by intros [? _]].
Qed.

(** C5: in the trainer of either path the scaler is there exactly when
    the precision flag is true and the device is not
    [torch.device("cpu")]; on that device it is [None].  For the device
    the entry point picks, not being [torch.device("cpu")] is the same as
    not being of type CPU. *)
Theorem C5_scaler_iff_fp16_and_not_cpu
    (model student teacher : nat) (crit : criterion) (fp16 : yaml) (dev : device)
    (path : string) :
  let plain := plain_trainer model crit fp16 dev path in
  let kd := kd_trainer student teacher crit fp16 dev path in
  (is_Some (TorchTrainer.tr_scaler plain) ↔ truthy fp16 = true ∧ dev ≠ device_cpu) ∧
  (is_Some (TorchTrainer.tr_scaler kd) ↔ truthy fp16 = true ∧ dev ≠ device_cpu) ∧
  TorchTrainer.tr_scaler (plain_trainer model crit fp16 device_cpu path) = None ∧
  TorchTrainer.tr_scaler (kd_trainer student teacher crit fp16 device_cpu path) = None ∧
  (∀ cuda, dev = device_of cuda → (dev ≠ device_cpu ↔ dev_type dev ≠ CPU)).
Proof.
  simpl. split_and!.
  - apply make_scaler_is_Some.
  - apply make_scaler_is_Some.
  - unfold make_scaler. by rewrite andb_false_r.
  - unfold make_scaler. by rewrite andb_false_r.
  - intros [] ->; unfold device_cuda0, device_cpu; simpl; split; intros H E;
      try discriminate E; by apply H.
Qed.

Lemma C5_scaler_iff_fp16_and_not_cpu_witness :
  is_Some (TorchTrainer.tr_scaler
             (plain_trainer 0 (Criterion false None device_cuda0) (YBool true)
                            device_cuda0 "exp/latest/best.pt")) ∧
  (device_cuda0 ≠ device_cpu ↔ dev_type device_cuda0 ≠ CPU).
Proof.
  destruct (C5_scaler_iff_fp16_and_not_cpu 0 0 1 (Criterion false None device_cuda0)
              (YBool true) device_cuda0 "exp/latest/best.pt") as (H & _ & _ & _ & Hdev).
  split.
  - apply H. split; [reflexivity|discriminate].
  - apply (Hdev true). reflexivity.
Defined.

(** ** Loading the teacher (lines 129-145) *)

Section teacher_load.
Context (C : collaborators).

(** Without a shape mismatch, a parameter takes the tensor saved under
    its name and keeps its own when there is none. *)
Lemma load_param_matching (sd : state_dict) (kp : string * tensor) :
  Torch.size_mismatch sd kp = false →
  Torch.load_param sd kp = (kp.1, default kp.2 (ODict.get kp.1 sd)).
Proof.
  unfold Torch.size_mismatch, Torch.load_param.
  destruct (ODict.get kp.1 sd) as [v|]; simpl; [|by destruct kp].
  case_bool_decide; [done|]. done.
Qed.

Lemma size_mismatches_nil (own sd : state_dict) :
  Torch.size_mismatches own sd = [] →
  ∀ kp, kp ∈ own → Torch.size_mismatch sd kp = false.
Proof.
  unfold Torch.size_mismatches. intros H kp Hkp.
  destruct (Torch.size_mismatch sd kp) eqn:E; [|done].
  apply fmap_nil_inv in H.
  assert (kp ∈ filter (λ kp, Torch.size_mismatch sd kp = true) own)
    by by apply list_elem_of_filter.
  rewrite H in *. set_solver.
Qed.

Lemma load_params_matching (own sd : state_dict) :
  Torch.size_mismatches own sd = [] →
  Torch.load_param sd <$> own
  = (λ kp, (kp.1, default kp.2 (ODict.get kp.1 sd))) <$> own.
Proof.
  intros H. apply Forall_fmap_ext_1, Forall_forall. intros kp Hkp.
  apply load_param_matching. by eapply size_mismatches_nil.
Qed.

Lemma load_params_keys (own sd : state_dict) :
  ODict.keys (Torch.load_param sd <$> own) = ODict.keys own.
Proof.
  unfold ODict.keys. rewrite <- list_fmap_compose. apply list_fmap_ext.
  intros i [k p] _. simpl. unfold Torch.load_param. simpl.
  destruct (ODict.get k sd); [|done]. by case_bool_decide.
Qed.

(** The run of [model.load_state_dict(sd, strict)] on an object that is
    there. *)
Lemma load_state_dict_run l sd strict w m :
  w_heap w !! l = Some m →
  Torch.load_state_dict l sd strict w
  = (if bool_decide (Torch.size_mismatches (m_params m) sd ≠ [])
     then Raise (Exn RuntimeError "size mismatch")
     else if strict && negb (bool_decide (Torch.missing_keys (m_params m) sd = [] ∧
                                          Torch.unexpected_keys (m_params m) sd = []))
     then Raise (Exn RuntimeError "missing or unexpected keys")
     else Ret tt,
     World (w_fs w)
           (<[l := NnModule (Torch.load_param sd <$> m_params m) (m_device m)]> (w_heap w))
           (w_trace w ++ [EvLoadStateDict l strict]) (w_clock w)).
Proof.
  intros Hl. unfold Torch.load_state_dict, bind, get_module, set_module, emit.
  rewrite Hl. simpl.
  case_bool_decide; [done|]. by destruct (strict && _).
Qed.

(** The run of the whole block, for a checkpoint that can be read and
    fits in shape. *)
Lemma load_teacher_run tc ckpt dev w t sd :
  w_fs w !! ckpt = Some (File t (Checkpoint sd)) →
  Torch.size_mismatches (build_model_parameters C tc) (normalize_keys sd) = [] →
  load_teacher C tc ckpt dev w
  = (Ret (fresh (dom (w_heap w))),
     World (w_fs w)
           (<[fresh (dom (w_heap w)) :=
                NnModule (Torch.load_param (normalize_keys sd) <$> build_model_parameters C tc)
                         dev]> (w_heap w))
           (w_trace w ++ [EvLoadStateDict (fresh (dom (w_heap w))) false])
           (w_clock w)).
Proof.
  intros Hfile Hfit. unfold load_teacher.
  erewrite bind_Ret; [|reflexivity].
  erewrite bind_Ret; cycle 1.
  { unfold Torch.load, bind, fs_try, Fs.read. simpl. rewrite Hfile. reflexivity. }
  erewrite bind_Ret; cycle 1.
  { erewrite load_state_dict_run; [|apply lookup_insert_eq]. simpl.
    rewrite bool_decide_eq_false_2 by (by intros ?). reflexivity. }
  unfold Torch.to, bind, get_module, set_module, ret. simpl.
  rewrite lookup_insert_eq. simpl. by rewrite !insert_insert_eq.
Qed.

End teacher_load.

(** C8: the teacher is loaded with [strict=False].  Whatever keys the
    normalised mapping lacks or has in excess, the block returns: every
    parameter of the teacher with a saved tensor of its shape takes it,
    every other keeps its initial value, and excess keys are dropped.  A
    strict load of the same mapping would have raised. *)
Theorem C8_teacher_load_is_permissive
    (C : collaborators) (tc : config) (ckpt : string) (dev : device) (w : world)
    (t : Z) (sd : state_dict) :
  w_fs w !! ckpt = Some (File t (Checkpoint sd)) →
  Torch.size_mismatches (build_model_parameters C tc) (normalize_keys sd) = [] →
  let teacher := fresh (dom (w_heap w)) in
  let run := load_teacher C tc ckpt dev w in
  run.1 = Ret teacher ∧
  params_of run.2 teacher
  = Some ((λ kp, (kp.1, default kp.2 (ODict.get kp.1 (normalize_keys sd))))
            <$> build_model_parameters C tc) ∧
  (∀ sd0 (l : nat) (w0 : world) (m : nn_module),
     w_heap w0 !! l = Some m →
     Torch.size_mismatches (m_params m) sd0 = [] →
     Torch.missing_keys (m_params m) sd0 ≠ [] ∨ Torch.unexpected_keys (m_params m) sd0 ≠ [] →
     (Torch.load_state_dict l sd0 false w0).1 = Ret tt ∧
     (Torch.load_state_dict l sd0 true w0).1
     = Raise (Exn RuntimeError "missing or unexpected keys")).
Proof.
  intros Hfile Hfit teacher run. unfold run.
  rewrite (load_teacher_run C tc ckpt dev w t sd Hfile Hfit). simpl.
  split_and!.
  - done.
  - unfold params_of. simpl. rewrite lookup_insert_eq. simpl.
    by rewrite load_params_matching.
  - intros sd0 l w0 m Hl Hfit0 Hkeys.
    rewrite !(load_state_dict_run l sd0 _ w0 m Hl). simpl.
    rewrite bool_decide_eq_false_2 by (by intros ?).
    rewrite bool_decide_eq_false_2 by (intros [? ?]; destruct Hkeys; done).
    done.
Qed.

Lemma C8_teacher_load_is_permissive_witness :
  Torch.missing_keys (build_model_parameters Sample.collab ∅)
                     (normalize_keys Sample.teacher_sd) = ["bias"] ∧
  Torch.unexpected_keys (build_model_parameters Sample.collab ∅)
                        (normalize_keys Sample.teacher_sd) = ["extra"] ∧
  (load_teacher Sample.collab ∅ "exp/swin_teacher/best.pt" device_cpu
     (Sample.world_of Sample.fs_with_teacher)).1 = Ret 0%nat.
Proof.
  split; [reflexivity|]. split; [reflexivity|].
  apply (C8_teacher_load_is_permissive Sample.collab ∅ "exp/swin_teacher/best.pt" device_cpu
           (Sample.world_of Sample.fs_with_teacher) 0 Sample.teacher_sd);
    reflexivity.
Defined.

(** ** The optimizer and the two models (lines 147-195) *)

Lemma preserves_bind_post {A B} (R : relation world) `{!PreOrder R}
    (Q : A → Prop) (m : M A) (k : A → M B) :
  (∀ w a w1, m w = (Ret a, w1) → Q a) →
  preserves R m → (∀ a, Q a → preserves R (k a)) → preserves R (bind m k).
Proof.
  intros HQ Hm Hk w. unfold bind. specialize (Hm w). specialize (HQ w).
  destruct (m w) as [[a|e] w1]; simpl in *; [|done].
  etrans; [exact Hm|]. apply Hk. by eapply HQ.
Qed.

(** [model.parameters()] refers to the parameters of that model only. *)
Lemma parameters_post l w ps w1 :
  Torch.parameters l w = (Ret ps, w1) → Forall (λ r, r.1 = l) ps.
Proof.
  unfold Torch.parameters, bind, get_module. destruct (w_heap w !! l); [|done].
  unfold ret. intros [= <- _]. apply Forall_fmap, Forall_true. done.
Qed.

(** The optimizer is built over the parameters it is given. *)
Lemma SGD_post ps lr w opt w1 : SGD ps lr w = (Ret opt, w1) → opt_params opt = ps.
Proof.
  unfold SGD. intros H.
  assert (Hne : (if bool_decide (ps = []) then
                   raise ValueError "optimizer got an empty parameter list"
                 else ret (Optimizer ps lr ∅ 0)) w = (Ret opt, w1) → opt_params opt = ps).
  { case_bool_decide; [done|]. unfold ret. by intros [= <- _]. }
  destruct lr as [|b|z|q|s]; try done; try (by apply Hne);
    destruct (Z.ltb _ _); try done; by apply Hne.
Qed.

Section loop_frames.
Context (C : collaborators) (student : nat).
Context (R : relation world) `{!PreOrder R}.
Context (Hstep : ∀ opt grads, Forall (λ r, r.1 = student) (opt_params opt) →
                              preserves R (TorchTrainer.optimizer_step C opt grads)).
Context (Hemit : ∀ ev, (∀ ps, ev ≠ EvOptimizerStep ps) → preserves R (emit ev)).
Context (Hfs : ∀ f, preserves R (fs_update f)).
Context (Hset : ∀ m, preserves R (set_module student m)).

Local Hint Resolve Hfs Hset : pres.
Local Hint Extern 1 (preserves _ (emit _)) => (apply Hemit; discriminate) : pres.

Lemma train_batch_post tr opt b w opt' w1 :
  TorchTrainer.train_batch C tr opt b w = (Ret opt', w1) →
  opt_params opt' = opt_params opt.
Proof.
  unfold TorchTrainer.train_batch, TorchTrainer.optimizer_step.
  destruct (gradients _ _ _ _ _ _ _); by intros [= <- _].
Qed.

Lemma loop_train_batch tr opt b :
  over student opt → preserves R (TorchTrainer.train_batch C tr opt b).
Proof.
  intros Hopt w. unfold TorchTrainer.train_batch.
  destruct (gradients _ _ _ _ _ _ _); [by apply Hstep|]. simpl. reflexivity.
Qed.

Lemma train_batches_post tr opt bs w opt' w1 :
  TorchTrainer.train_batches C tr opt bs w = (Ret opt', w1) →
  opt_params opt' = opt_params opt.
Proof.
  revert opt w. induction bs as [|b bs IH]; intros opt w; simpl.
  - by intros [= <- _].
  - intros H. apply bind_Ret_inv in H as (opt1 & w2 & H1 & H).
    apply IH in H. apply train_batch_post in H1. congruence.
Qed.

Lemma loop_train_batches tr opt bs :
  over student opt → preserves R (TorchTrainer.train_batches C tr opt bs).
Proof.
  revert opt. induction bs as [|b bs IH]; intros opt Hopt; simpl; [pres|].
  apply (preserves_bind_post R (over student)).
  - intros w opt' w1 H. apply train_batch_post in H. unfold over. by rewrite H.
  - by apply loop_train_batch.
  - apply IH.
Qed.

Lemma loop_test tr dl : preserves R (TorchTrainer.test C tr student dl).
Proof. unfold TorchTrainer.test. pres. Qed.

Lemma loop_save sd path : preserves R (Torch.save sd path).
Proof. unfold Torch.save. pres. Qed.

Local Hint Resolve loop_test loop_save : pres.

Lemma loop_epochs tr n opt best train_dl val_dl :
  TorchTrainer.tr_model tr = student → over student opt →
  preserves R (TorchTrainer.epochs C tr n opt best train_dl val_dl).
Proof.
  intros Htr. revert opt best.
  induction n as [|n IH]; intros opt best Hopt; simpl; [pres|].
  apply (preserves_bind_post R (over student)).
  - intros w opt' w1 H. apply train_batches_post in H. unfold over. by rewrite H.
  - by apply loop_train_batches.
  - intros opt' Hopt'. rewrite Htr. pres; by apply IH.
Qed.

Lemma loop_load_state_dict sd strict :
  preserves R (Torch.load_state_dict student sd strict).
Proof. unfold Torch.load_state_dict. pres. Qed.

Local Hint Resolve loop_load_state_dict : pres.

Lemma loop_test_best tr path dl :
  preserves R (test_best C tr student path dl).
Proof. unfold test_best. pres. Qed.

Local Hint Resolve loop_test_best : pres.

(** The run with both models in place. *)
Lemma loop_distill teacher dc log_dir fp16 dev :
  preserves R (distill C student teacher dc log_dir fp16 dev).
Proof.
  unfold distill. destruct (create_dataloader C dc) as [[train_dl val_dl] test_dl].
  apply (preserves_bind_post R (Forall (λ r, r.1 = student)));
    [apply parameters_post|pres|]. intros ps Hps.
  apply preserves_bind; [apply _|pres|]. intros lr.
  apply (preserves_bind_post R (over student)).
  - intros w opt w1 H. apply SGD_post in H. unfold over. by rewrite H.
  - pres.
  - intros opt Hopt. pres. unfold TorchTrainer.fit. by apply loop_epochs.
Qed.

End loop_frames.

(** ** The teacher is out of the optimizer's reach *)

Section frozen_teacher.
Context (C : collaborators).

Lemma step_param_other lr n grads acc ref (t : nat) :
  ref.1 ≠ t → (TorchTrainer.step_param C lr n grads acc ref).1 !! t = acc.1 !! t.
Proof.
  intros Hne. unfold TorchTrainer.step_param.
  destruct (grads !! ref); [|done]. destruct (acc.1 !! ref.1); [|done].
  destruct (ODict.get _ _); [|done]. simpl. by rewrite lookup_insert_ne.
Qed.

Lemma foldl_step_param_other lr n grads refs acc (t : nat) :
  Forall (λ r, r.1 ≠ t) refs →
  (foldl (TorchTrainer.step_param C lr n grads) acc refs).1 !! t = acc.1 !! t.
Proof.
  intros H. revert acc. induction H as [|ref refs Href _ IH]; intros acc; simpl; [done|].
  rewrite IH. by apply step_param_other.
Qed.

(** A step of an optimizer built over one model leaves any other model
    as it was. *)
Lemma keeps_params_optimizer_step student t opt grads :
  student ≠ t →
  Forall (λ r, r.1 = student) (opt_params opt) →
  preserves (keeps_params t) (TorchTrainer.optimizer_step C opt grads).
Proof.
  intros Hne Hopt w sd. unfold params_of, TorchTrainer.optimizer_step. simpl.
  rewrite foldl_step_param_other; [done|].
  eapply Forall_impl; [exact Hopt|]. simpl. congruence.
Qed.

Lemma keeps_params_distill student teacher dc log_dir fp16 dev :
  student ≠ teacher →
  preserves (keeps_params teacher) (distill C student teacher dc log_dir fp16 dev).
Proof.
  intros Hne. apply loop_distill.
  - apply _.
  - intros opt grads. by apply keeps_params_optimizer_step.
  - intros ev _. apply keeps_params_emit.
  - apply keeps_params_fs_update.
  - intros m. by apply keeps_params_set_other.
Qed.

Lemma steps_on_distill student teacher dc log_dir fp16 dev :
  preserves (appended (steps_on student)) (distill C student teacher dc log_dir fp16 dev).
Proof.
  apply loop_distill.
  - apply _.
  - intros opt grads Hopt w. exists [EvOptimizerStep (opt_params opt)].
    split; [done|]. constructor; [|done]. by intros ps [= <-].
  - intros ev Hev. apply appended_emit. intros ps ->. by destruct (Hev ps).
  - apply appended_fs_update.
  - intros m. apply appended_set_module.
Qed.

(** The student of [train_kd] is an object of the heap. *)
Lemma load_student_post mc dc log_dir dev w s w1 :
  load_student C mc dc log_dir dev w = (Ret s, w1) → is_Some (w_heap w1 !! s).
Proof.
  unfold load_student. intros H.
  apply bind_Ret_inv in H as ([] & wa & _ & H).
  apply bind_Ret_inv in H as ([] & wb & _ & H).
  apply bind_Ret_inv in H as (l & wc & _ & H).
  apply bind_Ret_inv in H as ([] & wd & Hto & H).
  injection H as <- <-.
  unfold Torch.to, bind, get_module in Hto.
  destruct (w_heap wc !! l); [|done]. injection Hto as <-. simpl.
  rewrite lookup_insert_eq. by eexists.
Qed.

(** The teacher of [train_kd] is a new object. *)
Lemma load_teacher_post tc ckpt dev w1 t w2 :
  load_teacher C tc ckpt dev w1 = (Ret t, w2) →
  t = fresh (dom (w_heap w1)) ∧ is_Some (params_of w2 t).
Proof.
  unfold load_teacher. intros H.
  apply bind_Ret_inv in H as (l & wa & Hl & H). injection Hl as <- _.
  apply bind_Ret_inv in H as (sd & wb & _ & H).
  apply bind_Ret_inv in H as ([] & wc & _ & H).
  apply bind_Ret_inv in H as ([] & wd & Hto & H).
  injection H as <- <-. split; [done|].
  unfold Torch.to, bind, get_module in Hto.
  destruct (w_heap wc !! _); [|done]. injection Hto as <-.
  unfold params_of. simpl. rewrite lookup_insert_eq. by eexists.
Qed.

End frozen_teacher.

(** C3, on the trainer loop of the spec: in [train_kd] the student and
    the teacher are distinct objects, the optimizer is built over the
    student's parameters alone, every optimizer step of the run goes over
    those alone, and the teacher's parameters at the end of the run are
    the ones it had when it was loaded. *)
Theorem C3_teacher_parameters_frozen
    (C : collaborators) (mc tc : config) (ckpt : string) (dc : config)
    (log_dir : string) (fp16 : yaml) (dev : device)
    (w : world) (s : nat) (w1 : world) (t : nat) (w2 : world) :
  load_student C mc dc log_dir dev (emit EvTrainKd w).2 = (Ret s, w1) →
  load_teacher C tc ckpt dev w1 = (Ret t, w2) →
  let run := train_kd C mc tc ckpt dc log_dir fp16 dev w in
  s ≠ t ∧
  run = distill C s t dc log_dir fp16 dev w2 ∧
  (∃ sd, params_of w2 t = Some sd ∧ params_of run.2 t = Some sd) ∧
  Forall (steps_on s) (events_since (w_trace w2) run.2) ∧
  (∀ ps lr opt wa wb wc,
     Torch.parameters s wa = (Ret ps, wb) → SGD ps lr wb = (Ret opt, wc) →
     Forall (λ r, r.1 = s) (opt_params opt)).
Proof.
  intros Hs Ht run.
  assert (Hrun : run = distill C s t dc log_dir fp16 dev w2).
  { unfold run, train_kd.
    erewrite bind_Ret; [|reflexivity].
    erewrite bind_Ret; [|exact Hs].
    by erewrite bind_Ret; [|exact Ht]. }
  destruct (load_teacher_post C _ _ _ _ _ _ Ht) as (Hfresh & sd & Hsd).
  assert (Hne : s ≠ t).
  { intros <-. apply load_student_post in Hs as [m Hm].
    pose proof (is_fresh (dom (w_heap w1))) as Hf. rewrite <- Hfresh in Hf.
    apply Hf. apply elem_of_dom. by eexists. }
  split_and!; [done|done| | |].
  - exists sd. split; [done|]. rewrite Hrun.
    by apply (keeps_params_distill C s t dc log_dir fp16 dev Hne w2).
  - rewrite Hrun.
    destruct (steps_on_distill C s t dc log_dir fp16 dev w2) as (evs & E & F).
    by rewrite (events_since_app _ _ _ E).
  - intros ps lr opt wa wb wc Hps Hopt.
    apply SGD_post in Hopt. rewrite Hopt. by eapply parameters_post.
Qed.

Lemma C3_teacher_parameters_frozen_witness :
  params_of (train_kd Sample.collab Sample.model_yaml ∅ "exp/swin_teacher/best.pt"
               Sample.data_yaml "exp/latest" (YBool true) device_cpu
               (Sample.world_of Sample.fs_ready)).2 1
  = Some [("weight", Sample.unit_tensor 5); ("bias", Sample.unit_tensor 0)].
Proof.
  pose (w0 := Sample.world_of Sample.fs_ready).
  pose (w1 := (load_student Sample.collab Sample.model_yaml Sample.data_yaml "exp/latest"
                 device_cpu (emit EvTrainKd w0).2).2).
  pose (w2 := (load_teacher Sample.collab ∅ "exp/swin_teacher/best.pt" device_cpu w1).2).
  destruct (C3_teacher_parameters_frozen Sample.collab Sample.model_yaml ∅
              "exp/swin_teacher/best.pt" Sample.data_yaml "exp/latest" (YBool true)
              device_cpu w0 0 w1 1 w2)
    as (_ & _ & (sd & Hbefore & Hafter) & _).
  - vm_compute. reflexivity.
  - vm_compute. reflexivity.
  - unfold w0 in Hafter. rewrite Hafter, <- Hbefore. vm_compute. reflexivity.
Defined.

(** ** Moving a tree (lines 256-259) *)

Section paths.
Import PyStr.

Lemma string_app_cons (x : ascii) (a b : string) :
  String x a +:+ b = String x (a +:+ b).
Proof. reflexivity. Qed.

Lemma string_app_assoc (a b c : string) : (a +:+ b) +:+ c = a +:+ (b +:+ c).
Proof. induction a as [|x a IH]; [done|]. rewrite !string_app_cons. by f_equal. Qed.

Lemma string_app_nil_r (a : string) : a +:+ "" = a.
Proof. induction a as [|x a IH]; [done|]. rewrite string_app_cons. by f_equal. Qed.

Lemma str_drop_app_length (a b : string) : drop (String.length a) (a +:+ b) = b.
Proof.
  induction a as [|x a IH]; [by destruct b|].
  rewrite string_app_cons. exact IH.
Qed.

(** A path is under [root] when it is [root] itself or [root] followed
    by a slash and more. *)
Lemma under_spec (root k : string) :
  Fs.under root k = true ↔
  ∃ r, k = root +:+ r ∧ (r = "" ∨ startswith "/" r = true).
Proof.
  unfold Fs.under. rewrite orb_true_iff, bool_decide_eq_true. split.
  - intros [->|H].
    + exists "". by rewrite string_app_nil_r; auto.
    + apply startswith_inv in H as [r ->].
      exists ("/" +:+ r). by rewrite string_app_assoc; auto.
  - intros (r & -> & [->|H]).
    + left. apply string_app_nil_r.
    + right. apply startswith_inv in H as [r' ->].
      rewrite <- string_app_assoc. apply startswith_app.
Qed.

Lemma rekey_under (src dst r : string) :
  r = "" ∨ startswith "/" r = true →
  Fs.rekey src dst (src +:+ r) = dst +:+ r.
Proof.
  intros Hr. unfold Fs.rekey.
  assert (Fs.under src (src +:+ r) = true) as -> by (apply under_spec; eauto).
  by rewrite str_drop_app_length.
Qed.

Lemma rekey_elsewhere (src dst k : string) :
  Fs.under src k = false → Fs.rekey src dst k = k.
Proof. unfold Fs.rekey. by intros ->. Qed.

End paths.

Section move.
Context (src dst : string) (fs : filesystem).
Context (Hfree : ∀ k, Fs.under dst k = true → fs !! k = None).

(** The entries of the moved file system. *)
Lemma elem_of_move_list p v :
  (p, v) ∈ ((λ kv : string * node, (Fs.rekey src dst kv.1, kv.2)) <$> map_to_list fs) ↔
  ∃ k, fs !! k = Some v ∧ Fs.rekey src dst k = p.
Proof.
  rewrite list_elem_of_fmap. split.
  - intros ([k v'] & [= -> ->] & H). apply elem_of_map_to_list in H. by exists k.
  - intros (k & H & <-). exists (k, v). split; [done|]. by apply elem_of_map_to_list.
Qed.

(** Where an entry of the old file system ends up decides where it came
    from. *)
Lemma rekey_source k v p :
  fs !! k = Some v → Fs.rekey src dst k = p →
  if Fs.under dst p then Fs.under src k = true ∧ k = src +:+ PyStr.drop (String.length dst) p
  else Fs.under src k = false ∧ k = p.
Proof.
  intros Hk Hp. destruct (Fs.under src k) eqn:Hsrc.
  - apply under_spec in Hsrc as (r & -> & Hr).
    rewrite rekey_under in Hp by done. subst p.
    assert (Fs.under dst (dst +:+ r) = true) as -> by (apply under_spec; eauto).
    by rewrite str_drop_app_length.
  - rewrite rekey_elsewhere in Hp by done. subst p.
    destruct (Fs.under dst k) eqn:Hdst; [|done].
    rewrite (Hfree k Hdst) in Hk. done.
Qed.

(** The file system after the move, read at any path. *)
Lemma move_lookup p :
  Fs.move src dst fs !! p
  = if Fs.under dst p then fs !! (src +:+ PyStr.drop (String.length dst) p)
    else if Fs.under src p then None
    else fs !! p.
Proof.
  unfold Fs.move. apply option_eq. intros v. split.
  - intros H. apply elem_of_list_to_map_2, elem_of_move_list in H as (k & Hk & Hp).
    pose proof (rekey_source k v p Hk Hp) as Hsrc.
    destruct (Fs.under dst p).
    + destruct Hsrc as [_ <-]. done.
    + destruct Hsrc as [Hsrc <-]. by rewrite Hsrc.
  - intros H. apply elem_of_list_to_map_1'.
    + intros v' Hv'. apply elem_of_move_list in Hv' as (k & Hk & Hp).
      pose proof (rekey_source k v' p Hk Hp) as Hsrc.
      destruct (Fs.under dst p).
      * destruct Hsrc as [_ ->]. congruence.
      * destruct Hsrc as [Hsrc ->]. rewrite Hsrc in H. congruence.
    + apply elem_of_move_list.
      destruct (Fs.under dst p) eqn:Hdst.
      * apply under_spec in Hdst as (r & -> & Hr).
        rewrite str_drop_app_length in H. exists (src +:+ r).
        split; [done|]. by apply rekey_under.
      * destruct (Fs.under src p) eqn:Hsrc; [done|].
        exists p. split; [done|]. by apply rekey_elsewhere.
Qed.

End move.

(** ** The name of the rotated directory *)

Section sibling.
Import PyStr.

Lemma has_slash_app_slash (d t : string) : has_slash (d +:+ "/" +:+ t) = true.
Proof.
  induction d as [|c d IH]; [done|].
  rewrite (string_app_cons c d ("/" +:+ t)). cbn [has_slash].
  by destruct (Ascii.eqb c slash).
Qed.

Lemma upto_last_slash_app (d t : string) :
  has_slash t = false → upto_last_slash (d +:+ "/" +:+ t) = d +:+ "/".
Proof.
  intros Ht. induction d as [|c d IH].
  - change ("" +:+ "/" +:+ t) with (String slash t). cbn [upto_last_slash].
    by rewrite Ht.
  - rewrite (string_app_cons c d ("/" +:+ t)), (string_app_cons c d "/").
    cbn [upto_last_slash]. by rewrite has_slash_app_slash, IH.
Qed.

Lemma all_slashes_app_slash (d : string) : all_slashes (d +:+ "/") = all_slashes d.
Proof.
  induction d as [|c d IH]; [done|].
  rewrite string_app_cons. cbn [all_slashes]. by rewrite IH.
Qed.

Lemma rstrip_slash_app_slash (d : string) : rstrip_slash (d +:+ "/") = rstrip_slash d.
Proof.
  induction d as [|c d IH]; [done|].
  rewrite string_app_cons. cbn [rstrip_slash]. by rewrite IH.
Qed.

Lemma rstrip_slash_idem (s : string) : rstrip_slash (rstrip_slash s) = rstrip_slash s.
Proof.
  induction s as [|c s IH]; [done|]. cbn [rstrip_slash].
  destruct (rstrip_slash s) as [|c' r] eqn:E.
  - destruct (Ascii.eqb c slash) eqn:Ec; [done|]. cbn [rstrip_slash]. by rewrite Ec.
  - cbn [rstrip_slash]. cbn [rstrip_slash] in IH. by rewrite IH.
Qed.

Lemma string_app_not_nil (d t : string) : d +:+ "/" +:+ t ≠ "".
Proof. by destruct d. Qed.

(** With a directory part in front and no slash in the new name, the new
    path has the directory part of the old one. *)
Lemma dirname_sibling (p t : string) :
  has_slash t = false →
  OsPath.dirname p ≠ "" → all_slashes (OsPath.dirname p) = false →
  OsPath.dirname (OsPath.dirname p +:+ "/" +:+ t) = OsPath.dirname p.
Proof.
  intros Ht Hne Hall.
  assert (Hd : rstrip_slash (OsPath.dirname p) = OsPath.dirname p).
  { unfold OsPath.dirname in *.
    destruct (bool_decide (upto_last_slash p = "") || all_slashes (upto_last_slash p)) eqn:E.
    - apply orb_true_iff in E as [E|E]; [by apply bool_decide_eq_true in E|congruence].
    - apply rstrip_slash_idem. }
  set (d := OsPath.dirname p) in *.
  unfold OsPath.dirname at 1. rewrite upto_last_slash_app by done.
  rewrite all_slashes_app_slash, Hall, orb_false_r.
  rewrite bool_decide_eq_false_2; [|by destruct d].
  by rewrite rstrip_slash_app_slash.
Qed.

End sibling.

(** ** Paths of the shape directory/name *)

Section output_paths.
Import PyStr.

Lemma str_length_app (a b : string) :
  String.length (a +:+ b) = (String.length a + String.length b)%nat.
Proof. induction a as [|c a IH]; [done|]. rewrite string_app_cons. simpl. by rewrite IH. Qed.

Lemma rstrip_slash_id (d : string) : endswith_slash d = false → rstrip_slash d = d.
Proof.
  induction d as [|c d IH]; [done|].
  destruct d as [|c' d].
  - simpl. by intros ->.
  - intros H.
    assert (E : rstrip_slash (String c' d) = String c' d) by (apply IH; exact H).
    change (rstrip_slash (String c (String c' d)))
      with (match rstrip_slash (String c' d) with
            | EmptyString => if Ascii.eqb c slash then EmptyString else String c EmptyString
            | r => String c r
            end).
    by rewrite E.
Qed.

Lemma all_slashes_endswith (d : string) :
  d ≠ "" → all_slashes d = true → endswith_slash d = true.
Proof.
  induction d as [|c d IH]; [done|]. intros _ H. simpl in H.
  destruct (Ascii.eqb c slash) eqn:E; [|done].
  destruct d as [|c' d]; [exact E|].
  change (endswith_slash (String c' d) = true). by apply IH.
Qed.

Lemma proper_not_all_slashes (d : string) :
  d ≠ "" → endswith_slash d = false → all_slashes d = false.
Proof.
  intros Hne Hend. destruct (all_slashes d) eqn:E; [|done].
  apply all_slashes_endswith in E; [congruence|done].
Qed.

Lemma has_slash_startswith (f : string) : has_slash f = false → startswith "/" f = false.
Proof.
  destruct f as [|c f]; [done|].
  change (has_slash (String c f)) with (if Ascii.eqb c slash then true else has_slash f).
  change (startswith "/" (String c f)) with (if Ascii.eqb slash c then true else false).
  rewrite (Ascii.eqb_sym slash c). by destruct (Ascii.eqb c slash).
Qed.

Lemma upto_last_slash_none (s : string) : has_slash s = false → upto_last_slash s = "".
Proof.
  destruct s as [|c s]; [done|]. simpl.
  destruct (Ascii.eqb c slash); [done|]. by intros ->.
Qed.

Lemma dirname_bare (s : string) : has_slash s = false → OsPath.dirname s = "".
Proof. intros H. unfold OsPath.dirname. by rewrite upto_last_slash_none. Qed.

Lemma join_in_dir (d f : string) :
  d ≠ "" → endswith_slash d = false → has_slash f = false →
  OsPath.join d f = d +:+ "/" +:+ f.
Proof.
  intros Hne Hend Hf. unfold OsPath.join.
  rewrite has_slash_startswith by done.
  by rewrite bool_decide_eq_false_2, Hend by done.
Qed.

Lemma dirname_in_dir (d f : string) :
  d ≠ "" → endswith_slash d = false → has_slash f = false →
  OsPath.dirname (d +:+ "/" +:+ f) = d.
Proof.
  intros Hne Hend Hf. unfold OsPath.dirname.
  rewrite upto_last_slash_app by done. cbv zeta.
  rewrite bool_decide_eq_false_2 by (by destruct d).
  rewrite all_slashes_app_slash, proper_not_all_slashes by done. simpl.
  by rewrite rstrip_slash_app_slash, rstrip_slash_id.
Qed.

Lemma parent_in_dir (d f : string) :
  d ≠ "" → endswith_slash d = false → has_slash f = false →
  Fs.parent (OsPath.join d f) = Some d.
Proof.
  intros Hne Hend Hf. unfold Fs.parent.
  rewrite join_in_dir, dirname_in_dir by done. cbv zeta.
  by rewrite bool_decide_eq_false_2, proper_not_all_slashes by done.
Qed.

Lemma output_file_name (f : string) :
  f ∈ ["data.yml"; "model.yml"; "best.pt"] → has_slash f = false.
Proof.
  intros Hf. repeat (apply elem_of_cons in Hf as [->|Hf]; [reflexivity|]).
  by apply elem_of_nil in Hf.
Qed.

(** The output directory is ready when it is a directory with a proper
    name and none of the three names in it is a directory. *)
Lemma output_ready_intro (fs : filesystem) (d : string) (t : Z) :
  d ≠ "" → endswith_slash d = false → fs !! d = Some (Dir t) →
  (∀ f, f ∈ ["data.yml"; "model.yml"; "best.pt"] → Fs.isdir fs (OsPath.join d f) = false) →
  output_ready fs d.
Proof.
  intros Hne Hend Hdir Hfiles. split; [by exists t|].
  intros f Hf. pose proof (output_file_name f Hf) as Hname.
  split_and!; [|by apply parent_in_dir|by apply Hfiles].
  rewrite join_in_dir by done. apply string_app_not_nil.
Qed.

(** No path in a directory is a prefix of the directory's name. *)
Lemma join_not_prefix (d f r : string) :
  d ≠ "" → endswith_slash d = false → has_slash f = false →
  d ≠ OsPath.join d f +:+ r.
Proof.
  intros Hne Hend Hf E. apply (f_equal String.length) in E.
  rewrite join_in_dir in E by done. rewrite !str_length_app in E. simpl in E. lia.
Qed.

End output_paths.

Section shaped_paths.
Import PyStr.

Lemma string_app_inv_head (a x y : string) : a +:+ x = a +:+ y → x = y.
Proof.
  induction a as [|c a IH]; [done|].
  rewrite !string_app_cons. intros [= H]. by apply IH.
Qed.

Lemma bare_endswith (b : string) : has_slash b = false → endswith_slash b = false.
Proof.
  induction b as [|c b IH]; [done|].
  change (has_slash (String c b)) with (if Ascii.eqb c slash then true else has_slash b).
  destruct (Ascii.eqb c slash) eqn:E; [done|]. intros H.
  destruct b as [|c' b]; [exact E|]. by apply IH.
Qed.

Lemma endswith_slash_app (x b : string) :
  b ≠ "" → endswith_slash (x +:+ b) = endswith_slash b.
Proof.
  intros Hb. induction x as [|c x IH]; [done|].
  rewrite string_app_cons.
  destruct (x +:+ b) as [|c' s] eqn:E; [by destruct x, b|]. exact IH.
Qed.

Lemma shaped_no_trailing_slash (d b : string) :
  b ≠ "" → has_slash b = false → endswith_slash (d +:+ "/" +:+ b) = false.
Proof.
  intros Hb Hs. rewrite <- string_app_assoc, endswith_slash_app by done.
  by apply bare_endswith.
Qed.

Lemma bare_first_char (c : ascii) (l : string) :
  has_slash (String c l) = false → Ascii.eqb c slash = false.
Proof.
  change (has_slash (String c l)) with (if Ascii.eqb c slash then true else has_slash l).
  by destruct (Ascii.eqb c slash).
Qed.

Lemma bare_tail (c : ascii) (l : string) :
  has_slash (String c l) = false → has_slash l = false.
Proof.
  change (has_slash (String c l)) with (if Ascii.eqb c slash then true else has_slash l).
  by destruct (Ascii.eqb c slash).
Qed.

(** What follows a name in a path, nothing or a slash, does not begin
    with a character of a name. *)
Lemma rest_not_name (c : ascii) (x u : string) :
  Ascii.eqb c slash = false → u = "" ∨ startswith "/" u = true → u ≠ String c x.
Proof.
  intros Hc [->|Hu] E; [done|]. subst u.
  change (startswith "/" (String c x)) with (if Ascii.eqb slash c then true else false) in Hu.
  rewrite Ascii.eqb_sym, Hc in Hu. done.
Qed.

(** Two names followed by nothing or by a slash agree as far as the
    names go. *)
Lemma name_prefix_unique (b t r s : string) :
  has_slash b = false → has_slash t = false →
  r = "" ∨ startswith "/" r = true → s = "" ∨ startswith "/" s = true →
  b +:+ r = t +:+ s → b = t.
Proof.
  revert t. induction b as [|c b IH]; intros [|c' t] Hb Ht Hr Hs E.
  - done.
  - change ("" +:+ r) with r in E. rewrite string_app_cons in E.
    by apply (rest_not_name c' (t +:+ s) r (bare_first_char _ _ Ht)) in E.
  - change ("" +:+ s) with s in E. rewrite string_app_cons in E. symmetry in E.
    by apply (rest_not_name c (b +:+ r) s (bare_first_char _ _ Hb)) in E.
  - rewrite !string_app_cons in E. injection E as -> E. f_equal.
    apply (IH t (bare_tail _ _ Hb) (bare_tail _ _ Ht) Hr Hs E).
Qed.

(** The entries below two different names of one directory are
    apart. *)
Lemma under_other_name (d b t p : string) :
  has_slash b = false → has_slash t = false → b ≠ t →
  Fs.under (d +:+ "/" +:+ b) p = true → Fs.under (d +:+ "/" +:+ t) p = false.
Proof.
  intros Hb Ht Hne Hp. destruct (Fs.under (d +:+ "/" +:+ t) p) eqn:Hq; [|done].
  apply under_spec in Hp as (r & -> & Hr). apply under_spec in Hq as (s & E & Hs).
  rewrite !string_app_assoc in E. apply string_app_inv_head in E.
  change ("/" +:+ b +:+ r) with (String slash (b +:+ r)) in E.
  change ("/" +:+ t +:+ s) with (String slash (t +:+ s)) in E.
  injection E as E. by apply name_prefix_unique in E.
Qed.

(** A directory does not lie below an entry of its own. *)
Lemma not_under_child (d b : string) : Fs.under (d +:+ "/" +:+ b) d = false.
Proof.
  destruct (Fs.under (d +:+ "/" +:+ b) d) eqn:E; [|done].
  apply under_spec in E as (r & E & _). apply (f_equal String.length) in E.
  rewrite !str_length_app in E. simpl in E. lia.
Qed.

Lemma under_refl (p : string) : Fs.under p p = true.
Proof. unfold Fs.under. by rewrite bool_decide_eq_true_2. Qed.

Lemma under_child (p r : string) : startswith "/" r = true → Fs.under p (p +:+ r) = true.
Proof. intros Hr. apply under_spec. exists r. by split; [|right]. Qed.

Lemma child_not_self (p r : string) : startswith "/" r = true → p +:+ r ≠ p.
Proof.
  intros Hr E. apply (f_equal String.length) in E. rewrite str_length_app in E.
  destruct r; [done|]. simpl in E. lia.
Qed.

(** The two parts of a path of the shape directory/name. *)
Lemma split_shaped (d f : string) :
  d ≠ "" → endswith_slash d = false → has_slash f = false →
  Fs.split (d +:+ "/" +:+ f) = (d, f).
Proof.
  intros Hne Hend Hf. unfold Fs.split. f_equal.
  - by apply dirname_in_dir.
  - rewrite upto_last_slash_app by done.
    rewrite <- (string_app_assoc d "/" f). apply str_drop_app_length.
Qed.

Lemma parent_shaped (d f : string) :
  d ≠ "" → endswith_slash d = false → has_slash f = false →
  Fs.parent (d +:+ "/" +:+ f) = Some d.
Proof.
  intros Hne Hend Hf. rewrite <- (join_in_dir d f) by done. by apply parent_in_dir.
Qed.

End shaped_paths.

(** ** What lines 256-261 do *)

Section rotation.
Context (C : collaborators).

(** The run of lines 256-259 on a directory with its checkpoint, when
    the new name is free. *)
Lemma rotate_existing_run log_dir w n m :
  w_fs w !! log_dir = Some n →
  Fs.getmtime (w_fs w) (log_dir +:+ "/best.pt") = Ret m →
  rotated_name C log_dir m ≠ log_dir →
  PyStr.startswith (PyStr.rstrip_slash log_dir +:+ "/") (rotated_name C log_dir m) = false →
  Fs.check_parent (w_fs w) (rotated_name C log_dir m) = Ret tt →
  w_fs w !! rotated_name C log_dir m = None →
  rotate_existing C log_dir w
  = (Ret tt, World (Fs.move log_dir (rotated_name C log_dir m) (w_fs w))
                   (w_heap w) (w_trace w) (w_clock w)).
Proof.
  intros Hdir Hm Hne Hin Hparent Hfree. unfold rotate_existing.
  erewrite bind_Ret; [|reflexivity]. simpl.
  unfold Fs.exists_. rewrite bool_decide_eq_true_2 by (by eexists).
  erewrite bind_Ret; cycle 1.
  { unfold fs_try. by rewrite Hm. }
  unfold fs_update, Fs.rename. rewrite Hdir.
  rewrite bool_decide_eq_false_2 by done.
  by rewrite Hin, Hparent, Hfree.
Qed.

(** Without the checkpoint, lines 256-261 stop at [getmtime]. *)
Lemma rotate_without_checkpoint log_dir w t :
  log_dir ≠ "" → PyStr.endswith_slash log_dir = false →
  w_fs w !! log_dir = Some (Dir t) →
  w_fs w !! (log_dir +:+ "/best.pt") = None →
  rotate_log_dir C log_dir w
  = (Raise (Exn FileNotFoundError (log_dir +:+ "/best.pt")), w).
Proof.
  intros Hne Hend Hdir Hnone. unfold rotate_log_dir, rotate_existing.
  erewrite bind_Raise; [done|].
  erewrite bind_Ret; [|reflexivity]. simpl.
  unfold Fs.exists_. rewrite bool_decide_eq_true_2 by (by eexists).
  erewrite bind_Raise; [done|].
  unfold fs_try, Fs.getmtime, Fs.check_parent. rewrite Hnone.
  change (log_dir +:+ "/best.pt") with (log_dir +:+ "/" +:+ "best.pt").
  by rewrite parent_shaped, Hdir.
Qed.

(** [os.makedirs] of a path that is not there, in a directory that
    is. *)
Lemma makedirs_in_directory now fs d b t :
  plain_dir d → plain_name b →
  fs !! d = Some (Dir t) → fs !! (d +:+ "/" +:+ b) = None →
  Fs.makedirs now fs (d +:+ "/" +:+ b) = Ret (<[d +:+ "/" +:+ b := Dir now]> fs).
Proof.
  intros [Hd Hend] (Hb & Hs & _) Hdir Hnone.
  assert (Hleaf : match Fs.mkdir now fs (d +:+ "/" +:+ b) with
                  | Ret fs2 => Ret fs2
                  | Raise e => if Fs.isdir fs (d +:+ "/" +:+ b) then Ret fs else Raise e
                  end = Ret (<[d +:+ "/" +:+ b := Dir now]> fs)).
  { unfold Fs.mkdir, Fs.check_parent. rewrite Hnone.
    rewrite bool_decide_eq_false_2 by apply string_app_not_nil.
    by rewrite parent_shaped, Hdir. }
  unfold Fs.makedirs. destruct (String.length (d +:+ "/" +:+ b)) as [|fuel]; simpl.
  - exact Hleaf.
  - unfold Fs.split_last. rewrite split_shaped by done. cbn [fst snd].
    rewrite (bool_decide_eq_false_2 (b = "")) by done. cbn [fst snd].
    unfold Fs.exists_. rewrite (bool_decide_eq_true_2 (is_Some (fs !! d))) by (by eexists).
    rewrite andb_false_r. exact Hleaf.
Qed.

(** The whole of lines 256-261 on an output directory [d/b] that holds
    a checkpoint, when the name of the timestamp is free in [d]. *)
Lemma rotate_log_dir_run d b w n m :
  plain_dir d → plain_name b → plain_name (strftime C m) →
  well_formed (w_fs w) →
  w_fs w !! (d +:+ "/" +:+ b) = Some n →
  Fs.getmtime (w_fs w) ((d +:+ "/" +:+ b) +:+ "/best.pt") = Ret m →
  (∀ k, Fs.under (d +:+ "/" +:+ strftime C m) k = true → w_fs w !! k = None) →
  rotated_name C (d +:+ "/" +:+ b) m = d +:+ "/" +:+ strftime C m ∧
  b ≠ strftime C m ∧
  rotate_log_dir C (d +:+ "/" +:+ b) w
  = (Ret tt,
     World (<[d +:+ "/" +:+ b := Dir (w_clock w)]>
              (Fs.move (d +:+ "/" +:+ b) (d +:+ "/" +:+ strftime C m) (w_fs w)))
           (w_heap w) (w_trace w) (w_clock w)).
Proof.
  intros Hd Hb Hts Hwf Hdir Hm Hfree.
  pose proof Hd as [Hd1 Hd2]. pose proof Hb as (Hb1 & Hb2 & _).
  pose proof Hts as (Ht1 & Ht2 & _).
  assert (Hname : rotated_name C (d +:+ "/" +:+ b) m = d +:+ "/" +:+ strftime C m).
  { unfold rotated_name. by rewrite dirname_in_dir. }
  assert (Htarget : w_fs w !! (d +:+ "/" +:+ strftime C m) = None)
    by apply Hfree, under_refl.
  assert (Hne : b ≠ strftime C m) by (intros E; rewrite <- E in Htarget; congruence).
  assert (Hparent : ∃ t, w_fs w !! d = Some (Dir t)).
  { pose proof (Hwf _ _ d Hdir (parent_shaped d b Hd1 Hd2 Hb2)) as H.
    unfold Fs.isdir in H. destruct (w_fs w !! d) as [[|t]|]; try done. by exists t. }
  destruct Hparent as [t Hparent].
  split_and!; [done|done|].
  unfold rotate_log_dir. erewrite bind_Ret; cycle 1.
  { apply (rotate_existing_run _ _ n m); [done|done|..]; rewrite Hname.
    - intros E. apply string_app_inv_head in E. injection E as E. by symmetry in E.
    - rewrite rstrip_slash_id by by apply shaped_no_trailing_slash.
      destruct (PyStr.startswith _ _) eqn:E; [|done].
      apply startswith_inv in E as [r E].
      rewrite !string_app_assoc in E. apply string_app_inv_head in E.
      change ("/" +:+ strftime C m) with (String PyStr.slash (strftime C m)) in E.
      change ("/" +:+ b +:+ "/" +:+ r) with (String PyStr.slash (b +:+ "/" +:+ r)) in E.
      injection E as E. rewrite E in Ht2. by rewrite has_slash_app_slash in Ht2.
    - unfold Fs.check_parent. by rewrite parent_shaped, Hparent.
    - done. }
  rewrite Hname. unfold fs_update. cbn [w_fs w_clock w_heap w_trace].
  rewrite (makedirs_in_directory _ _ d b t); [done|done|done| |].
  - rewrite move_lookup by done.
    rewrite not_under_child, not_under_child. exact Hparent.
  - rewrite move_lookup by done.
    rewrite (under_other_name d b (strftime C m) (d +:+ "/" +:+ b) Hb2 Ht2 Hne (under_refl _)).
    by rewrite under_refl.
Qed.

End rotation.

(** C7, as the code has it: an output directory whose path has the shape
    directory/name, which exists and holds a [best.pt], is renamed with
    all it holds to the sibling directory/timestamp, the timestamp being
    that of the checkpoint's modification time, when nothing exists yet
    under that name; line 261 then makes the output directory anew, and
    it is empty.  Nothing else changes.  This is stated of any file
    system (every entry lies in a directory) and of timestamps that are
    names, as the format of line 258 gives. *)
Theorem C7_existing_output_directory_rotated
    (C : collaborators) (d b : string) (w : world) (n : node) (m : Z) :
  let log_dir := d +:+ "/" +:+ b in
  let target := d +:+ "/" +:+ strftime C m in
  plain_dir d → plain_name b → plain_name (strftime C m) →
  well_formed (w_fs w) →
  w_fs w !! log_dir = Some n →
  Fs.getmtime (w_fs w) (log_dir +:+ "/best.pt") = Ret m →
  (∀ k, Fs.under target k = true → w_fs w !! k = None) →
  ∃ w',
    rotate_log_dir C log_dir w = (Ret tt, w') ∧
    rotated_name C log_dir m = target ∧
    target ≠ log_dir ∧
    Fs.split target = (OsPath.dirname log_dir, strftime C m) ∧
    (∀ r, r = "" ∨ PyStr.startswith "/" r = true →
          w_fs w' !! (target +:+ r) = w_fs w !! (log_dir +:+ r)) ∧
    w_fs w' !! log_dir = Some (Dir (w_clock w)) ∧
    (∀ r, PyStr.startswith "/" r = true → w_fs w' !! (log_dir +:+ r) = None) ∧
    (∀ p, Fs.under log_dir p = false → Fs.under target p = false →
          w_fs w' !! p = w_fs w !! p).
Proof.
  intros log_dir target Hd Hb Hts Hwf Hdir Hm Hfree.
  destruct (rotate_log_dir_run C d b w n m) as (Hname & Hne & Hrun); [done..|].
  pose proof Hd as [Hd1 Hd2]. pose proof Hb as (Hb1 & Hb2 & _).
  pose proof Hts as (Ht1 & Ht2 & _).
  assert (Hapart : ∀ p, Fs.under log_dir p = true → Fs.under target p = false)
    by (intros p; by apply (under_other_name d b (strftime C m))).
  assert (Hapart' : ∀ p, Fs.under target p = true → Fs.under log_dir p = false).
  { intros p Hp. apply (under_other_name d (strftime C m) b); [done|done| |done].
    by intros E. }
  eexists. split; [exact Hrun|]. cbn [w_fs]. fold log_dir target. split_and!.
  - done.
  - intros E. apply string_app_inv_head in E. injection E as E. by symmetry in E.
  - unfold target, log_dir. by rewrite split_shaped, dirname_in_dir.
  - intros r Hr.
    assert (Hin : Fs.under target (target +:+ r) = true) by (apply under_spec; eauto).
    rewrite lookup_insert_ne.
    + rewrite move_lookup by done. rewrite Hin. by rewrite str_drop_app_length.
    + intros E. rewrite <- E in Hin. apply Hapart' in Hin.
      by rewrite under_refl in Hin.
  - apply lookup_insert_eq.
  - intros r Hr. rewrite lookup_insert_ne by (by intros E; apply (child_not_self log_dir r)).
    rewrite move_lookup by done.
    by rewrite (Hapart _ (under_child log_dir r Hr)), under_child.
  - intros p Hp Hq. rewrite lookup_insert_ne by (intros <-; by rewrite under_refl in Hp).
    rewrite move_lookup by done. by rewrite Hq, Hp.
Qed.

Lemma C7_existing_output_directory_rotated_witness :
  ∃ w',
    rotate_log_dir Sample.collab "exp/latest" (Sample.world_of Sample.fs_after_run)
    = (Ret tt, w') ∧
    w_fs w' !! "exp/2021-08-26_17-46-40/best.pt" = Sample.fs_after_run !! "exp/latest/best.pt" ∧
    w_fs w' !! "exp/latest" = Some (Dir 1700000000) ∧
    w_fs w' !! "exp/latest/best.pt" = None.
Proof.
  destruct (C7_existing_output_directory_rotated Sample.collab "exp" "latest"
              (Sample.world_of Sample.fs_after_run) (Dir 1630000000) 1630000000)
    as (w' & Hrun & _ & _ & _ & Hmoved & Hfresh & Hempty & _).
  - split; [discriminate|reflexivity].
  - split_and!; [discriminate|reflexivity|discriminate|discriminate].
  - split_and!; [discriminate|reflexivity|discriminate|discriminate].
  - intros p n d Hp Hd. apply elem_of_map_to_list in Hp.
    assert (Hall : Forall (λ kv : string * node,
                             match Fs.parent kv.1 with
                             | Some d => Fs.isdir Sample.fs_after_run d
                             | None => true
                             end = true)
                          (map_to_list Sample.fs_after_run))
      by (apply (bool_decide_unpack _); vm_compute; exact I).
    rewrite Forall_forall in Hall. specialize (Hall (p, n) Hp).
    cbn beta iota delta [fst] in Hall. rewrite Hd in Hall. exact Hall.
  - reflexivity.
  - reflexivity.
  - intros k Hk. apply eq_None_not_Some. intros [v Hv].
    apply elem_of_map_to_list in Hv.
    assert (Hall : Forall (λ kv : string * node,
                             Fs.under ("exp" +:+ "/" +:+ strftime Sample.collab 1630000000)
                                      kv.1 = false)
                          (map_to_list (w_fs (Sample.world_of Sample.fs_after_run))))
      by (apply (bool_decide_unpack _); vm_compute; exact I).
    rewrite Forall_forall in Hall. specialize (Hall (k, v) Hv).
    cbn beta iota delta [fst] in Hall. congruence.
  - exists w'. split_and!.
    + exact Hrun.
    + exact (Hmoved "/best.pt" (or_intror eq_refl)).
    + exact Hfresh.
    + exact (Hempty "/best.pt" eq_refl).
Defined.

(** C7 as stated fails in four ways.  An output directory left without
    [best.pt] (by a run that stopped early) is not renamed: the next run
    stops at [getmtime] and the directory stays where it was.  An output
    directory given as a bare name is not moved to a sibling: the new
    name is ["/" + timestamp], in the root of the file system.  An output
    directory given with a trailing slash is not renamed: the new name
    lies inside it and [os.rename] refuses.  And when the name of the
    timestamp is taken by a directory that holds something, [os.rename]
    refuses as well. *)
Lemma C7_existing_directory_not_rotated_counterexample :
  (Fs.isdir Sample.fs_after_abort "exp/latest" = true ∧
   (main Sample.collab Sample.no_flags ∅ false
      (Sample.world_of Sample.fs_after_abort)).1
   = Raise (Exn FileNotFoundError "exp/latest/best.pt") ∧
   w_fs (main Sample.collab Sample.no_flags ∅ false
           (Sample.world_of Sample.fs_after_abort)).2 = Sample.fs_after_abort) ∧
  (let fs := <["out" := Dir 1630000000]>
               (<["out/best.pt" := File 1630000000 (Checkpoint [])]> Sample.base_fs) in
   let run := rotate_log_dir Sample.collab "out" (Sample.world_of fs) in
   rotated_name Sample.collab "out" 1630000000 = "/2021-08-26_17-46-40" ∧
   OsPath.dirname "out" = "" ∧
   OsPath.dirname (rotated_name Sample.collab "out" 1630000000) = "/" ∧
   run.1 = Ret tt ∧
   w_fs run.2 !! "/2021-08-26_17-46-40/best.pt" = fs !! "out/best.pt") ∧
  (let fs := <["exp/latest/" := Dir 1630000000]>
               (<["exp/latest//best.pt" := File 1630000000 (Checkpoint [])]>
                  Sample.fs_after_run) in
   Fs.exists_ fs "exp/latest/" = true ∧
   rotate_log_dir Sample.collab "exp/latest/" (Sample.world_of fs)
   = (Raise (Exn OSError "exp/latest/2021-08-26_17-46-40"), Sample.world_of fs)) ∧
  (let fs := <["exp/2021-08-26_17-46-40" := Dir 1630000000]>
               (<["exp/2021-08-26_17-46-40/best.pt" := File 1630000000 (Checkpoint [])]>
                  Sample.fs_after_run) in
   rotate_log_dir Sample.collab "exp/latest" (Sample.world_of fs)
   = (Raise (Exn OSError "exp/2021-08-26_17-46-40"), Sample.world_of fs)).
Proof. vm_compute. repeat split. Qed.
(** ** The final evaluation (lines 90-95 and 191-195) *)

Section final_evaluation.
Context (C : collaborators).

(** With no key missing, every parameter takes the saved tensor of its
    name. *)
Lemma load_params_from_checkpoint (own saved : state_dict) :
  Torch.size_mismatches own saved = [] →
  Torch.missing_keys own saved = [] →
  Forall (λ kp, ODict.get kp.1 saved = Some kp.2) (Torch.load_param saved <$> own).
Proof.
  intros Hfit Hmiss. rewrite load_params_matching by done.
  apply Forall_fmap, Forall_forall. intros [k p] Hkp. simpl.
  destruct (ODict.get k saved) as [v|] eqn:E; [done|]. exfalso.
  assert (k ∈ Torch.missing_keys own saved); [|rewrite Hmiss in *; set_solver].
  unfold Torch.missing_keys. apply list_elem_of_filter. split.
  - unfold ODict.mem. apply bool_decide_eq_false. by apply odict_get_None_keys.
  - unfold ODict.keys. apply list_elem_of_fmap. by exists (k, p).
Qed.

Lemma unexpected_keys_nil (own saved : state_dict) k :
  Torch.unexpected_keys own saved = [] →
  k ∈ ODict.keys saved → k ∈ ODict.keys (Torch.load_param saved <$> own).
Proof.
  intros Hun Hk. rewrite load_params_keys.
  destruct (decide (k ∈ ODict.keys own)) as [|Hno]; [done|]. exfalso.
  assert (k ∈ Torch.unexpected_keys own saved); [|rewrite Hun in *; set_solver].
  unfold Torch.unexpected_keys. apply list_elem_of_filter. split; [|done].
  unfold ODict.mem. by apply bool_decide_eq_false.
Qed.

(** The run of the three lines, when the checkpoint is there and is the
    model's. *)
Lemma test_best_run tr model path dl w t saved mo :
  w_fs w !! path = Some (File t (Checkpoint saved)) →
  w_heap w !! model = Some mo →
  Torch.size_mismatches (m_params mo) saved = [] →
  Torch.missing_keys (m_params mo) saved = [] →
  Torch.unexpected_keys (m_params mo) saved = [] →
  test_best C tr model path dl w
  = (Ret (evaluate C (TorchTrainer.tr_criterion tr)
            (Torch.load_param saved <$> m_params mo) dl),
     World (w_fs w)
           (<[model := NnModule (Torch.load_param saved <$> m_params mo) (m_device mo)]>
              (w_heap w))
           (w_trace w ++ [EvLoadStateDict model true; EvTest model]) (w_clock w)).
Proof.
  intros Hfile Hmodel Hfit Hmiss Hun. unfold test_best.
  erewrite bind_Ret; cycle 1.
  { unfold Torch.load, bind, fs_try, Fs.read. rewrite Hfile. reflexivity. }
  erewrite bind_Ret; cycle 1.
  { erewrite load_state_dict_run; [|exact Hmodel].
    rewrite bool_decide_eq_false_2 by (by intros ?).
    rewrite bool_decide_eq_true_2 by done. reflexivity. }
  unfold TorchTrainer.test, bind, emit, get_module. simpl.
  rewrite lookup_insert_eq. simpl.
  destruct (evaluate C _ _ dl) as [[loss f1] acc]. unfold ret.
  by rewrite <- app_assoc.
Qed.

(** Conversely, when the three lines return, that is what happened. *)
Lemma test_best_Ret_inv tr model path dl w r w' :
  test_best C tr model path dl w = (Ret r, w') →
  ∃ t saved mo,
    w_fs w !! path = Some (File t (Checkpoint saved)) ∧
    w_heap w !! model = Some mo ∧
    Torch.size_mismatches (m_params mo) saved = [] ∧
    Torch.missing_keys (m_params mo) saved = [] ∧
    Torch.unexpected_keys (m_params mo) saved = [].
Proof.
  unfold test_best. intros H.
  apply bind_Ret_inv in H as (saved & w1 & Hload & H).
  apply bind_Ret_inv in H as ([] & w2 & Hlsd & _).
  unfold Torch.load, bind, fs_try, Fs.read in Hload.
  destruct (w_fs w !! path) as [[t [cfg|sd|b]|t]|] eqn:Hfile; try done.
  injection Hload as <- <-.
  destruct (w_heap w !! model) as [mo|] eqn:Hmodel.
  - rewrite (load_state_dict_run _ _ _ _ _ Hmodel) in Hlsd.
    case_bool_decide as Hfit; [done|]. simpl in Hlsd.
    case_bool_decide as Hkeys; [|done]. destruct Hkeys as [Hmiss Hun].
    exists t, sd, mo. split_and!; done.
  - unfold Torch.load_state_dict, bind, get_module in Hlsd. by rewrite Hmodel in Hlsd.
Qed.

(** [train], when it returns, has gone through the three lines. *)
Lemma train_Ret_inv mc dc log_dir fp16 dev w r w' :
  train C mc dc log_dir fp16 dev w = (Ret r, w') →
  ∃ model crit w2,
    test_best C (plain_trainer model crit fp16 dev (OsPath.join log_dir "best.pt")) model
      (OsPath.join log_dir "best.pt")
      (pick_eval (create_dataloader C dc).1.2 (create_dataloader C dc).2) w2
    = (Ret r, w').
Proof.
  unfold train. intros H.
  destruct (create_dataloader C dc) as [[train_dl val_dl] test_dl].
  apply bind_Ret_inv in H as ([] & ? & _ & H).
  apply bind_Ret_inv in H as ([] & ? & _ & H).
  apply bind_Ret_inv in H as ([] & ? & _ & H).
  apply bind_Ret_inv in H as (model & ? & _ & H).
  apply bind_Ret_inv in H as ([] & ? & _ & H).
  apply bind_Ret_inv in H as (params & ? & _ & H).
  apply bind_Ret_inv in H as (lr & ? & _ & H).
  apply bind_Ret_inv in H as (opt & ? & _ & H).
  apply bind_Ret_inv in H as (max_lr & ? & _ & H).
  apply bind_Ret_inv in H as (epochs & ? & _ & H).
  apply bind_Ret_inv in H as (sched & ? & _ & H).
  apply bind_Ret_inv in H as (crit & ? & _ & H).
  apply bind_Ret_inv in H as (n_epoch & ? & _ & H).
  apply bind_Ret_inv in H as (best & w2 & _ & H).
  by exists model, crit, w2.
Qed.

(** So has [train_kd]. *)
Lemma train_kd_Ret_inv mc tc ckpt dc log_dir fp16 dev w r w' :
  train_kd C mc tc ckpt dc log_dir fp16 dev w = (Ret r, w') →
  ∃ student teacher crit w2,
    test_best C (kd_trainer student teacher crit fp16 dev (OsPath.join log_dir "best.pt"))
      student (OsPath.join log_dir "best.pt")
      (pick_eval (create_dataloader C dc).1.2 (create_dataloader C dc).2) w2
    = (Ret r, w').
Proof.
  unfold train_kd. intros H.
  apply bind_Ret_inv in H as ([] & ? & _ & H).
  apply bind_Ret_inv in H as (student & ? & _ & H).
  apply bind_Ret_inv in H as (teacher & ? & _ & H).
  unfold distill in H.
  destruct (create_dataloader C dc) as [[train_dl val_dl] test_dl].
  apply bind_Ret_inv in H as (params & ? & _ & H).
  apply bind_Ret_inv in H as (lr & ? & _ & H).
  apply bind_Ret_inv in H as (opt & ? & _ & H).
  apply bind_Ret_inv in H as (max_lr & ? & _ & H).
  apply bind_Ret_inv in H as (epochs & ? & _ & H).
  apply bind_Ret_inv in H as (sched & ? & _ & H).
  apply bind_Ret_inv in H as (crit & ? & _ & H).
  apply bind_Ret_inv in H as (n_epoch & ? & _ & H).
  apply bind_Ret_inv in H as (best & w2 & _ & H).
  by exists student, teacher, crit, w2.
Qed.

End final_evaluation.

(** ** Layouts: what a strict reload needs *)

Section layouts.

Lemma filter_none {A} (P : A → Prop) `{!∀ x, Decision (P x)} (l : list A) :
  (∀ x, x ∈ l → ¬ P x) → filter P l = [].
Proof.
  induction l as [|x l IH]; intros Hno; [done|].
  rewrite filter_cons. destruct (decide (P x)) as [HP|_].
  - destruct (Hno x); [set_solver|done].
  - apply IH. intros y Hy. apply Hno. set_solver.
Qed.

Lemma layout_keys (sd : state_dict) : (layout sd).*1 = ODict.keys sd.
Proof. unfold layout, ODict.keys. by rewrite <- list_fmap_compose. Qed.

(** Assigning a tensor of the same shape to a parameter that is there
    keeps the layout. *)
Lemma layout_set (k : string) (v p : tensor) (d : state_dict) :
  ODict.get k d = Some p → t_shape v = t_shape p →
  layout (ODict.set k v d) = layout d.
Proof.
  intros Hget Hshape. induction d as [|[k0 v0] d IH]; [done|].
  cbn [ODict.get ODict.set] in *. case_bool_decide as E.
  - injection Hget as ->. subst k0. unfold layout. rewrite !fmap_cons. simpl.
    by rewrite Hshape.
  - unfold layout in *. rewrite !fmap_cons. f_equal. by apply IH.
Qed.

Lemma odict_get_of_NoDup (d : state_dict) (k : string) (v : tensor) :
  NoDup (ODict.keys d) → (k, v) ∈ d → ODict.get k d = Some v.
Proof.
  unfold ODict.keys. induction d as [|[k0 v0] d IH]; intros Hnd Hin; [set_solver|].
  simpl in *. apply NoDup_cons in Hnd as [Hk0 Hnd].
  apply elem_of_cons in Hin as [[= -> ->]|Hin].
  - by rewrite bool_decide_eq_true_2.
  - rewrite bool_decide_eq_false_2; [by apply IH|].
    intros ->. apply Hk0. apply list_elem_of_fmap. by exists (k, v).
Qed.

(** Same layout: what is saved under a parameter's name has its shape. *)
Lemma layout_entry (own saved : state_dict) (kp : string * tensor) :
  layout own = layout saved → kp ∈ own →
  ∃ v, (kp.1, v) ∈ saved ∧ t_shape v = t_shape kp.2.
Proof.
  intros Hl Hin. apply list_elem_of_lookup in Hin as [i Hi].
  assert (layout own !! i = Some (kp.1, t_shape kp.2)) as Hli
    by (unfold layout; by rewrite list_lookup_fmap, Hi).
  rewrite Hl in Hli. unfold layout in Hli. rewrite list_lookup_fmap in Hli.
  destruct (saved !! i) as [[k v]|] eqn:Hs; [|done].
  injection Hli as -> Hv. exists v. split; [|done].
  apply list_elem_of_lookup. by exists i.
Qed.

(** A checkpoint of the model's own layout loads strictly. *)
Lemma layout_loads_strictly (own saved : state_dict) :
  layout own = layout saved → NoDup (ODict.keys own) →
  Torch.size_mismatches own saved = [] ∧
  Torch.missing_keys own saved = [] ∧
  Torch.unexpected_keys own saved = [].
Proof.
  intros Hl Hnd.
  assert (Hkeys : ODict.keys own = ODict.keys saved)
    by by rewrite <- !layout_keys, Hl.
  split_and!.
  - unfold Torch.size_mismatches. rewrite filter_none; [done|].
    intros kp Hkp. destruct (layout_entry own saved kp Hl Hkp) as (v & Hv & Hshape).
    unfold Torch.size_mismatch.
    assert (ODict.get kp.1 saved = Some v) as ->
      by (apply odict_get_of_NoDup; [by rewrite <- Hkeys|done]).
    by rewrite bool_decide_eq_true_2.
  - unfold Torch.missing_keys. apply filter_none. intros k Hk.
    unfold ODict.mem. rewrite bool_decide_eq_true_2; [done|]. by rewrite <- Hkeys.
  - unfold Torch.unexpected_keys. apply filter_none. intros k Hk.
    unfold ODict.mem. rewrite bool_decide_eq_true_2; [done|]. by rewrite Hkeys.
Qed.

End layouts.

(** ** The training code returns *)

Section pure_steps.

Lemma parameters_run l w mo :
  w_heap w !! l = Some mo →
  Torch.parameters l w = (Ret ((λ k, (l, k)) <$> ODict.keys (m_params mo)), w).
Proof. intros H. unfold Torch.parameters, bind, get_module. by rewrite H. Qed.

Lemma SGD_run ps lr w :
  valid_lr lr → ps ≠ [] → SGD ps lr w = (Ret (Optimizer ps lr ∅ 0), w).
Proof.
  intros Hlr Hps. unfold SGD. rewrite bool_decide_eq_false_2 by done.
  destruct lr as [|b|z|q|s]; simpl in Hlr; try done.
  - destruct (Z.ltb_spec z 0); [lia|done].
  - destruct (Z.ltb_spec (Qnum q) 0); [lia|done].
Qed.

Lemma OneCycleLR_run max_lr steps epochs n w :
  as_int epochs = Some n → (0 < n)%Z → steps ≠ 0%nat →
  OneCycleLR max_lr steps epochs w = (Ret (n * Z.of_nat steps)%Z, w).
Proof.
  intros Hn Hpos Hsteps. unfold OneCycleLR. rewrite Hn.
  destruct (Z.leb_spec n 0); [lia|]. by rewrite bool_decide_eq_false_2.
Qed.

Lemma make_criterion_run C distilling dc dev ds w :
  dc !! "DATASET" = Some ds →
  (ds = YStr "TACO" → is_Some (dc !! "DATA_PATH")) →
  ∃ crit, make_criterion C distilling dc dev w = (Ret crit, w).
Proof.
  intros Hds Hpath. unfold make_criterion.
  rewrite (bind_Ret _ _ _ _ _ (getitem_Some _ _ _ w Hds)).
  case_bool_decide as E.
  - destruct (Hpath E) as [p Hp].
    rewrite (bind_Ret _ _ _ _ _ (getitem_Some _ _ _ w Hp)). by eexists.
  - by eexists.
Qed.

Lemma epoch_count_run dc v n w :
  dc !! "EPOCHS" = Some v → as_int v = Some n → epoch_count dc w = (Ret n, w).
Proof.
  intros Hv Hn. unfold epoch_count.
  rewrite (bind_Ret _ _ _ _ _ (getitem_Some _ _ _ w Hv)). by rewrite Hn.
Qed.

Lemma write_run now fs p c :
  writable fs p → Fs.write now fs p c = Ret (<[p := File now c]> fs).
Proof.
  intros (Hne & Hdir & Hparent). unfold Fs.write, Fs.isdir in *.
  rewrite bool_decide_eq_false_2 by done. rewrite Hparent.
  by destruct (fs !! p) as [[]|].
Qed.

(** Writing a file does not take away the permission to write it
    again. *)
Lemma writable_insert_self fs p t c :
  writable fs p → writable (<[p := File t c]> fs) p.
Proof.
  intros (Hne & Hdir & Hparent). split_and!; [done| |].
  - unfold Fs.isdir. by rewrite lookup_insert_eq.
  - unfold Fs.check_parent, Fs.isdir in *. destruct (Fs.parent p) as [d|]; [|done].
    destruct (decide (d = p)) as [->|Hd].
    + destruct (fs !! p) as [[]|]; done.
    + by rewrite lookup_insert_ne.
Qed.

Lemma save_run sd path w :
  writable (w_fs w) path →
  Torch.save sd path w
  = (Ret tt, World (<[path := File (w_clock w) (Checkpoint sd)]> (w_fs w)) (w_heap w)
                   (w_trace w ++ [EvSave path]) (w_clock w)).
Proof.
  intros Hw. unfold Torch.save, bind, fs_update. by rewrite (write_run _ _ _ _ Hw).
Qed.

End pure_steps.

Section training_runs.
Context (C : collaborators) (Hshape : keeps_shape C).
Context (L : list (string * list nat)) (model : nat) (path : string).

Lemma step_param_layout lr n grads acc ref :
  (∃ mo, acc.1 !! model = Some mo ∧ layout (m_params mo) = L) →
  ∃ mo, (TorchTrainer.step_param C lr n grads acc ref).1 !! model = Some mo ∧
        layout (m_params mo) = L.
Proof.
  intros (mo & Hmo & Hl). unfold TorchTrainer.step_param.
  destruct (grads !! ref) as [g|]; [|by eauto].
  destruct (acc.1 !! ref.1) as [m|] eqn:Hm; [|by eauto].
  destruct (ODict.get ref.2 (m_params m)) as [p|] eqn:Hp; [|by eauto].
  simpl. destruct (decide (ref.1 = model)) as [E|E].
  - rewrite E in *. rewrite lookup_insert_eq. eexists. split; [done|]. simpl.
    assert (m = mo) as -> by congruence.
    rewrite (layout_set _ _ p); [done|done|apply Hshape].
  - rewrite lookup_insert_ne by done. eauto.
Qed.

Lemma foldl_step_param_layout lr n grads refs acc :
  (∃ mo, acc.1 !! model = Some mo ∧ layout (m_params mo) = L) →
  ∃ mo, (foldl (TorchTrainer.step_param C lr n grads) acc refs).1 !! model = Some mo ∧
        layout (m_params mo) = L.
Proof.
  revert acc. induction refs as [|ref refs IH]; intros acc H; [done|].
  simpl. apply IH. by apply step_param_layout.
Qed.

Lemma train_batch_run tr opt b w :
  ∃ opt' w', TorchTrainer.train_batch C tr opt b w = (Ret opt', w') ∧ batches_keep L model w w'.
Proof.
  unfold TorchTrainer.train_batch, TorchTrainer.optimizer_step.
  destruct (gradients _ _ _ _ _ _ _) as [grads|].
  - eexists _, _. split; [done|]. split_and!; [done|done|].
    intros H. by apply foldl_step_param_layout.
  - eexists _, _. split; [done|]. by split_and!.
Qed.

Lemma train_batches_run tr opt bs w :
  ∃ opt' w', TorchTrainer.train_batches C tr opt bs w = (Ret opt', w') ∧ batches_keep L model w w'.
Proof.
  revert opt w. induction bs as [|b bs IH]; intros opt w; simpl.
  - eexists _, _. split; [done|]. by split_and!.
  - destruct (train_batch_run tr opt b w) as (opt1 & w1 & E1 & F1 & K1 & H1).
    destruct (IH opt1 w1) as (opt2 & w2 & E2 & F2 & K2 & H2).
    exists opt2, w2. rewrite (bind_Ret _ _ _ _ _ E1). split; [done|].
    split_and!; [congruence|congruence|auto].
Qed.

Lemma test_run tr dl w mo :
  w_heap w !! model = Some mo →
  TorchTrainer.test C tr model dl w
  = (Ret (evaluate C (TorchTrainer.tr_criterion tr) (m_params mo) dl),
     World (w_fs w) (w_heap w) (w_trace w ++ [EvTest model]) (w_clock w)).
Proof.
  intros H. unfold TorchTrainer.test, bind, emit, get_module. simpl. by rewrite H.
Qed.

(** The epochs return; once an epoch has run, the checkpoint is there
    with the model's layout. *)
Lemma epochs_run tr n opt best train_dl val_dl w :
  TorchTrainer.tr_model tr = model → TorchTrainer.tr_model_path tr = path →
  has_layout L w model → writable (w_fs w) path → (is_Some best → checkpoint_fits L path w) →
  ∃ best' w',
    TorchTrainer.epochs C tr n opt best train_dl val_dl w = (Ret best', w') ∧
    has_layout L w' model ∧
    (is_Some best ∨ (0 < n)%nat → checkpoint_fits L path w').
Proof.
  intros Hm Hp. revert opt best w.
  induction n as [|n IH]; intros opt best w Hl Hw Hs.
  - exists best, w. split; [done|]. split; [done|]. intros [?|?]; [auto|lia].
  - cbn [TorchTrainer.epochs].
    destruct (train_batches_run tr opt train_dl w) as (opt1 & w1 & E1 & F1 & K1 & H1).
    rewrite (bind_Ret _ _ _ _ _ E1).
    destruct (H1 Hl) as (mo & Hmo & Hlay). rewrite Hm.
    rewrite (bind_Ret _ _ _ _ _ (test_run tr val_dl w1 mo Hmo)).
    set (w2 := World (w_fs w1) (w_heap w1) (w_trace w1 ++ [EvTest model]) (w_clock w1)).
    assert (Hl2 : has_layout L w2 model) by by exists mo.
    assert (Hw2 : writable (w_fs w2) path) by (simpl; by rewrite F1).
    destruct (TorchTrainer.improves _ best) eqn:Himp.
    + assert (Hget : get_module model w2 = (Ret mo, w2))
        by (unfold get_module; simpl; by rewrite Hmo).
      rewrite (bind_Ret _ _ _ _ _ Hget). rewrite Hp.
      rewrite (bind_Ret _ _ _ _ _ (save_run (m_params mo) path w2 Hw2)).
      match goal with
      | |- ∃ _ _, TorchTrainer.epochs _ _ _ ?o ?b _ _ ?w0 = _ ∧ _ =>
          destruct (IH o b w0) as (best' & w' & E & Hl' & Hs')
      end.
      * by exists mo.
      * simpl. by apply writable_insert_self.
      * intros _. exists (w_clock w1), (m_params mo). simpl.
        by rewrite lookup_insert_eq.
      * exists best', w'. split; [exact E|]. split; [done|].
        intros _. apply Hs'. left. by eexists.
    + assert (Hbest : is_Some best) by (destruct best; [by eexists|done]).
      destruct (IH opt1 best w2) as (best' & w' & E & Hl' & Hs'); [done|done| |].
      * intros _. destruct (Hs Hbest) as (t & sd & Hf & Hsd).
        exists t, sd. simpl. by rewrite F1.
      * exists best', w'. split; [exact E|]. split; [done|]. intros _. by apply Hs'; left.
Qed.

End training_runs.

Section returns.
Context (C : collaborators) (Hshape : keeps_shape C).

Lemma output_ready_writable fs log_dir f :
  output_ready fs log_dir → f ∈ ["data.yml"; "model.yml"; "best.pt"] →
  writable fs (OsPath.join log_dir f).
Proof.
  intros [[t Hdir] Hfiles] Hf. destruct (Hfiles f Hf) as (Hne & Hparent & Hnodir).
  split_and!; [done|done|]. unfold Fs.check_parent. by rewrite Hparent, Hdir.
Qed.

Lemma output_ready_insert fs log_dir f t c :
  output_ready fs log_dir → f ∈ ["data.yml"; "model.yml"; "best.pt"] →
  output_ready (<[OsPath.join log_dir f := File t c]> fs) log_dir.
Proof.
  intros [[t0 Hdir] Hfiles] Hf. destruct (Hfiles f Hf) as (Hne & Hparent & Hnodir).
  assert (Hdiff : OsPath.join log_dir f ≠ log_dir).
  { intros E. unfold Fs.isdir in Hnodir. by rewrite E, Hdir in Hnodir. }
  split.
  - exists t0. by rewrite lookup_insert_ne.
  - intros f' Hf'. destruct (Hfiles f' Hf') as (Hne' & Hparent' & Hnodir').
    split_and!; [done|done|]. unfold Fs.isdir in *.
    destruct (decide (OsPath.join log_dir f = OsPath.join log_dir f')) as [<-|E].
    + by rewrite lookup_insert_eq.
    + by rewrite lookup_insert_ne.
Qed.

(** Lines 48-95 and 147-195 return, for a model that is there, a
    configuration with the entries they read, a training set that is not
    empty and a checkpoint path that can be written. *)
Lemma training_tail_run distilling model teacher dc log_dir fp16 dev w mo :
  w_heap w !! model = Some mo →
  m_params mo ≠ [] → NoDup (ODict.keys (m_params mo)) →
  writable (w_fs w) (OsPath.join log_dir "best.pt") →
  trainable_config dc → (create_dataloader C dc).1.1 ≠ [] →
  ∃ r w', training_tail C distilling model teacher dc log_dir fp16 dev w = (Ret r, w').
Proof.
  intros Hmo Hne Hnd Hw ((lr & Hlr & Hvalid) & (v & n & Hv & Hn & Hpos) & (ds & Hds & Hpath)) Hdl.
  unfold training_tail.
  destruct (create_dataloader C dc) as [[train_dl val_dl] test_dl]. simpl in Hdl.
  rewrite (bind_Ret _ _ _ _ _ (parameters_run model w mo Hmo)).
  rewrite (bind_Ret _ _ _ _ _ (getitem_Some _ _ _ w Hlr)).
  erewrite bind_Ret; cycle 1.
  { apply SGD_run; [done|]. destruct (m_params mo); done. }
  rewrite (bind_Ret _ _ _ _ _ (getitem_Some _ _ _ w Hlr)).
  rewrite (bind_Ret _ _ _ _ _ (getitem_Some _ _ _ w Hv)).
  erewrite bind_Ret; cycle 1.
  { eapply OneCycleLR_run; [done|done|]. by destruct train_dl. }
  destruct (make_criterion_run C distilling dc dev ds w Hds Hpath) as [crit Hcrit].
  rewrite (bind_Ret _ _ _ _ _ Hcrit).
  rewrite (bind_Ret _ _ _ _ _ (epoch_count_run dc v n w Hv Hn)).
  unfold TorchTrainer.fit.
  match goal with
  | |- ∃ _ _, bind (TorchTrainer.epochs _ ?tr ?k ?o ?b ?tdl ?vdl) _ _ = _ =>
      destruct (epochs_run C Hshape (layout (m_params mo)) model
                  (OsPath.join log_dir "best.pt") tr k o b tdl vdl w)
        as (best' & w4 & Hfit & (mo4 & Hmo4 & Hl4) & Hsaved)
  end; [done|done|by exists mo|done|by intros [? ?]|].
  rewrite (bind_Ret _ _ _ _ _ Hfit).
  destruct Hsaved as (t & sd & Hfile & Hsd); [right; lia|].
  destruct (layout_loads_strictly (m_params mo4) sd) as (Hfit4 & Hmiss & Hun).
  { congruence. }
  { by rewrite <- layout_keys, Hl4, layout_keys. }
  erewrite test_best_run; [by eexists _, _|done..].
Qed.

Lemma train_unfold mc dc log_dir fp16 dev :
  train C mc dc log_dir fp16 dev
  = (emit EvTrain ;;
     fs_update (λ now fs, Fs.write now fs (OsPath.join log_dir "data.yml") (Yaml dc)) ;;
     fs_update (λ now fs, Fs.write now fs (OsPath.join log_dir "model.yml") (Yaml mc)) ;;
     let* model := alloc (NnModule (Model_parameters C mc) device_cpu) in
     Torch.to model dev ;;
     training_tail C false model None dc log_dir fp16 dev).
Proof. reflexivity. Qed.

Lemma distill_unfold s t dc log_dir fp16 dev :
  distill C s t dc log_dir fp16 dev
  = training_tail C true s (Some t) dc log_dir fp16 dev.
Proof. reflexivity. Qed.

(** The world after the two configuration dumps, the new model and its
    move to the device. *)
Lemma load_student_run mc dc log_dir dev w :
  output_ready (w_fs w) log_dir →
  ∃ w1,
    load_student C mc dc log_dir dev w = (Ret (fresh (dom (w_heap w))), w1) ∧
    w_heap w1 = <[fresh (dom (w_heap w)) := NnModule (Model_parameters C mc) dev]> (w_heap w) ∧
    w_fs w1 = <[OsPath.join log_dir "model.yml" := File (w_clock w) (Yaml mc)]>
                (<[OsPath.join log_dir "data.yml" := File (w_clock w) (Yaml dc)]> (w_fs w)) ∧
    output_ready (w_fs w1) log_dir.
Proof.
  intros Hready. unfold load_student.
  assert (H1 : writable (w_fs w) (OsPath.join log_dir "data.yml"))
    by (apply output_ready_writable; [done|set_solver]).
  pose proof (output_ready_insert _ _ "data.yml" (w_clock w) (Yaml dc) Hready) as Hready1.
  assert (H2 : writable (<[OsPath.join log_dir "data.yml" := File (w_clock w) (Yaml dc)]> (w_fs w))
                        (OsPath.join log_dir "model.yml"))
    by (apply output_ready_writable; [apply Hready1|]; set_solver).
  erewrite bind_Ret; cycle 1.
  { unfold fs_update. by rewrite (write_run _ _ _ _ H1). }
  erewrite bind_Ret; cycle 1.
  { unfold fs_update. simpl. by rewrite (write_run _ _ _ _ H2). }
  erewrite bind_Ret; [|reflexivity].
  unfold Torch.to, bind, get_module, set_module, ret. simpl.
  rewrite lookup_insert_eq. simpl. eexists. split; [done|]. simpl.
  split_and!; [by rewrite insert_insert_eq|done|].
  apply output_ready_insert; [apply Hready1|]; set_solver.
Qed.

Lemma train_returns mc dc log_dir fp16 dev w :
  output_ready (w_fs w) log_dir → trainable_config dc →
  (create_dataloader C dc).1.1 ≠ [] →
  Model_parameters C mc ≠ [] → NoDup (ODict.keys (Model_parameters C mc)) →
  ∃ r w', train C mc dc log_dir fp16 dev w = (Ret r, w').
Proof.
  intros Hready Hdc Hdl Hne Hnd. rewrite train_unfold.
  erewrite bind_Ret; [|reflexivity].
  destruct (load_student_run mc dc log_dir dev
              (World (w_fs w) (w_heap w) (w_trace w ++ [EvTrain]) (w_clock w)) Hready)
    as (w1 & Hrun & Hheap & _ & Hready1).
  unfold load_student in Hrun.
  apply bind_Ret_inv in Hrun as ([] & wa & Ha & Hrun). rewrite (bind_Ret _ _ _ _ _ Ha).
  apply bind_Ret_inv in Hrun as ([] & wb & Hb & Hrun). rewrite (bind_Ret _ _ _ _ _ Hb).
  apply bind_Ret_inv in Hrun as (l & wc & Hc & Hrun). rewrite (bind_Ret _ _ _ _ _ Hc).
  apply bind_Ret_inv in Hrun as ([] & wd & Hd & Hrun). rewrite (bind_Ret _ _ _ _ _ Hd).
  injection Hrun as -> ->.
  eapply training_tail_run; [by rewrite Hheap, lookup_insert_eq|done|done| |done|done].
  apply output_ready_writable; [done|set_solver].
Qed.

Lemma train_kd_returns mc tc ckpt dc log_dir fp16 dev w t sd :
  output_ready (w_fs w) log_dir → trainable_config dc →
  (create_dataloader C dc).1.1 ≠ [] →
  Model_parameters C mc ≠ [] → NoDup (ODict.keys (Model_parameters C mc)) →
  w_fs w !! ckpt = Some (File t (Checkpoint sd)) →
  ckpt ≠ OsPath.join log_dir "data.yml" → ckpt ≠ OsPath.join log_dir "model.yml" →
  Torch.size_mismatches (build_model_parameters C tc) (normalize_keys sd) = [] →
  ∃ r w', train_kd C mc tc ckpt dc log_dir fp16 dev w = (Ret r, w').
Proof.
  intros Hready Hdc Hdl Hne Hnd Hckpt Hc1 Hc2 Hfit. unfold train_kd.
  erewrite bind_Ret; [|reflexivity].
  destruct (load_student_run mc dc log_dir dev
              (World (w_fs w) (w_heap w) (w_trace w ++ [EvTrainKd]) (w_clock w)) Hready)
    as (w1 & Hrun & Hheap & Hfs & Hready1).
  rewrite (bind_Ret _ _ _ _ _ Hrun). simpl in *.
  erewrite bind_Ret; cycle 1.
  { eapply load_teacher_run; [|exact Hfit]. rewrite Hfs.
    rewrite !lookup_insert_ne by done. exact Hckpt. }
  rewrite distill_unfold.
  eapply (training_tail_run _ _ _ _ _ _ _ _ (NnModule (Model_parameters C mc) dev));
    [|done|done| |done|done]; simpl.
  - rewrite lookup_insert_ne.
    + by rewrite Hheap, lookup_insert_eq.
    + intros E. pose proof (is_fresh (dom (w_heap w1))) as Hf. rewrite E in Hf.
      apply Hf. rewrite Hheap. set_solver.
  - apply output_ready_writable; [done|set_solver].
Qed.

End returns.

(** What the three closing lines leave behind when they return. *)
Lemma test_best_outcome (C : collaborators) tr model path dl w r w' :
  test_best C tr model path dl w = (Ret r, w') →
  ∃ t saved params,
    w_fs w' !! path = Some (File t (Checkpoint saved)) ∧
    w_trace w' = (w_trace w ++ [EvLoadStateDict model true; EvTest model])%list ∧
    params_of w' model = Some params ∧
    Forall (λ kp, ODict.get kp.1 saved = Some kp.2) params ∧
    (∀ k, k ∈ ODict.keys saved → k ∈ ODict.keys params) ∧
    r = evaluate C (TorchTrainer.tr_criterion tr) params dl.
Proof.
  intros H.
  destruct (test_best_Ret_inv C _ _ _ _ _ _ _ H)
    as (t & saved & mo & Hfile & Hmo & Hfit & Hmiss & Hun).
  rewrite (test_best_run C tr model path dl w t saved mo) in H by done.
  injection H as <- <-.
  exists t, saved, (Torch.load_param saved <$> m_params mo). simpl.
  split_and!; [done|done| | | |done].
  - unfold params_of. simpl. by rewrite lookup_insert_eq.
  - by apply load_params_from_checkpoint.
  - intros k. by apply unexpected_keys_nil.
Qed.

(** C6: whenever [train] or [train_kd] returns, its last steps were to
    load the checkpoint at [<log_dir>/best.pt] into the model, strictly,
    and to evaluate the model once on the held-out split; the parameters
    evaluated are those of the checkpoint and the value returned is the
    (loss, F1, accuracy) triple of that evaluation, as it came.  On the
    trainer loop of the spec both functions do return, given an output
    directory that is ready, a data configuration with the entries they
    read, a training set with a batch in it and a model with named
    parameters (for [train_kd], also a teacher checkpoint that fits). *)
Theorem C6_reload_best_then_one_evaluation
    (C : collaborators) (mc tc : config) (ckpt : string) (dc : config)
    (log_dir : string) (fp16 : yaml) (dev : device) (w : world) :
  let path := OsPath.join log_dir "best.pt" in
  let dl := pick_eval (create_dataloader C dc).1.2 (create_dataloader C dc).2 in
  (∀ r w',
     train C mc dc log_dir fp16 dev w = (Ret r, w') ∨
     train_kd C mc tc ckpt dc log_dir fp16 dev w = (Ret r, w') →
     ∃ model crit t saved params before,
       w_fs w' !! path = Some (File t (Checkpoint saved)) ∧
       w_trace w' = (before ++ [EvLoadStateDict model true; EvTest model])%list ∧
       params_of w' model = Some params ∧
       Forall (λ kp, ODict.get kp.1 saved = Some kp.2) params ∧
       (∀ k, k ∈ ODict.keys saved → k ∈ ODict.keys params) ∧
       r = evaluate C crit params dl) ∧
  (keeps_shape C → output_ready (w_fs w) log_dir → trainable_config dc →
   (create_dataloader C dc).1.1 ≠ [] →
   Model_parameters C mc ≠ [] → NoDup (ODict.keys (Model_parameters C mc)) →
   (∃ r w', train C mc dc log_dir fp16 dev w = (Ret r, w')) ∧
   (∀ t sd,
      w_fs w !! ckpt = Some (File t (Checkpoint sd)) →
      ckpt ≠ OsPath.join log_dir "data.yml" → ckpt ≠ OsPath.join log_dir "model.yml" →
      Torch.size_mismatches (build_model_parameters C tc) (normalize_keys sd) = [] →
      ∃ r w', train_kd C mc tc ckpt dc log_dir fp16 dev w = (Ret r, w'))).
Proof.
  intros path dl. split.
  - intros r w' [H|H].
    + apply train_Ret_inv in H as (model & crit & w2 & H).
      apply test_best_outcome in H as (t & saved & params & H1 & H2 & H3 & H4 & H5 & H6).
      by exists model, crit, t, saved, params, (w_trace w2).
    + apply train_kd_Ret_inv in H as (student & teacher & crit & w2 & H).
      apply test_best_outcome in H as (t & saved & params & H1 & H2 & H3 & H4 & H5 & H6).
      by exists student, crit, t, saved, params, (w_trace w2).
  - intros Hshape Hready Hdc Hdl Hne Hnd. split.
    + by apply train_returns.
    + intros t sd Hckpt Hc1 Hc2 Hfit. by eapply train_kd_returns.
Qed.

Lemma C6_reload_best_then_one_evaluation_witness :
  ∃ w',
    train Sample.collab Sample.model_yaml Sample.data_yaml "exp/latest" (YBool true)
      device_cpu (Sample.world_of Sample.fs_ready)
    = (Ret (1 # 2, 3 # 4, 7 # 8)%Q, w').
Proof.
  destruct (C6_reload_best_then_one_evaluation Sample.collab Sample.model_yaml ∅
              "exp/swin_teacher/best.pt" Sample.data_yaml "exp/latest" (YBool true)
              device_cpu (Sample.world_of Sample.fs_ready)) as [Hpartial Htotal].
  destruct Htotal as [(r & w' & Hrun) _].
  - intros lr n buf p g. reflexivity.
  - split.
    + exists 0%Z. reflexivity.
    + intros f Hf. repeat (apply elem_of_cons in Hf as [->|Hf]);
        [split_and!; [discriminate|reflexivity|reflexivity]..|].
      by apply elem_of_nil in Hf.
  - split_and!.
    + exists (YFloat (1 # 10)). split; [reflexivity|]. simpl. lia.
    + exists (YInt 2), 2%Z. split_and!; [reflexivity|reflexivity|lia].
    + exists (YStr "CIFAR"). split; [reflexivity|]. discriminate.
  - discriminate.
  - discriminate.
  - apply NoDup_singleton.
  - exists w'. rewrite Hrun. f_equal. f_equal.
    destruct (Hpartial r w' (or_introl Hrun))
      as (model & crit & t & saved & params & before & _ & _ & _ & _ & _ & ->).
    reflexivity.
Defined.

(** * Further properties of the script *)

(** ** The first half of [__main__], step by step *)

Section startup.
Context (C : collaborators).

Lemma read_yaml_run p w cfg :
  Fs.read (w_fs w) p = Ret (Yaml cfg) → read_yaml p w = (Ret cfg, w).
Proof. intros H. unfold read_yaml, bind, fs_try. by rewrite H. Qed.

(** Lines 256-261 record nothing. *)
Lemma rotate_log_dir_silent log_dir w :
  w_trace (rotate_log_dir C log_dir w).2 = w_trace w.
Proof.
  assert (H : preserves (appended (λ _, False)) (rotate_log_dir C log_dir))
    by (unfold rotate_log_dir, rotate_existing; pres).
  destruct (H w) as (evs & E & F). destruct evs as [|ev evs].
  - by rewrite E, app_nil_r.
  - by apply Forall_cons in F as [[] _].
Qed.

(** The run of the first half up to the rotation, on configuration
    files that can be read. *)
Lemma main_setup_unfold args environ cuda w mc tc dc :
  Fs.read (w_fs w) (args_model args) = Ret (Yaml mc) →
  Fs.read (w_fs w) (args_teacher_model args) = Ret (Yaml tc) →
  Fs.read (w_fs w) (args_data args) = Ret (Yaml dc) →
  main_setup C args environ cuda w
  = (let* configured := getitem dc "DATA_PATH" in
     let data_path :=
       match environ !! "SM_CHANNEL_TRAIN" with
       | Some v => YStr v
       | None => configured
       end in
     rotate_log_dir C (log_dir_of environ) ;;
     emit (EvWandbInit (args_run_name args)) ;;
     emit (EvWandbConfig mc) ;;
     emit (EvWandbConfig (<["DATA_PATH" := data_path]> dc)) ;;
     ret (Setup mc tc (args_teacher_checkpoints args) (<["DATA_PATH" := data_path]> dc)
            (device_of cuda) (log_dir_of environ)))
      (World (w_fs w) (w_heap w) (w_trace w ++ [EvSetSeed (args_seed args)]) (w_clock w)).
Proof.
  intros Hmc Htc Hdc. unfold main_setup, get_config.
  rewrite (bind_Ret _ _ _ _ _ (read_yaml_run _ w mc Hmc)).
  rewrite (bind_Ret _ _ _ _ _ (read_yaml_run _ w tc Htc)).
  rewrite (bind_Ret _ _ _ _ _ (read_yaml_run _ w dc Hdc)).
  by erewrite bind_Ret; [|reflexivity].
Qed.

End startup.

(** X1: when the first half of [__main__] completes, it has recorded, in
    this order and nothing else, the seeding with [args.seed], the start
    of the wandb run named [args.run_name], the upload of the model
    configuration read from [args.model] and the upload of the data
    configuration, which is the one handed on to training (with the
    [DATA_PATH] override applied). *)
Theorem X1_setup_seeds_then_starts_wandb
    (C : collaborators) (args : namespace) (environ : gmap string string) (cuda : bool)
    (w : world) (s : setup) (w1 : world) :
  main_setup C args environ cuda w = (Ret s, w1) →
  w_trace w1
  = (w_trace w ++ [EvSetSeed (args_seed args); EvWandbInit (args_run_name args);
                   EvWandbConfig (su_model_config s);
                   EvWandbConfig (su_data_config s)])%list ∧
  Fs.read (w_fs w) (args_model args) = Ret (Yaml (su_model_config s)) ∧
  Fs.read (w_fs w) (args_teacher_model args) = Ret (Yaml (su_tc_model_config s)).
Proof.
  intros H. unfold main_setup, get_config in H.
  apply bind_Ret_inv in H as (mc & wa & Hmc & H).
  apply read_yaml_Ret_inv in Hmc as [Hmc ->].
  apply bind_Ret_inv in H as (tc & wa & Htc & H).
  apply read_yaml_Ret_inv in Htc as [Htc ->].
  apply bind_Ret_inv in H as (dc & wa & Hdc & H).
  apply read_yaml_Ret_inv in Hdc as [Hdc ->].
  apply bind_Ret_inv in H as ([] & wa & [= <-] & H).
  apply bind_Ret_inv in H as (dp & wa & Hdp & H).
  apply getitem_Ret_inv in Hdp as [Hdp ->].
  apply bind_Ret_inv in H as ([] & wb & Hrot & H).
  pose proof (rotate_log_dir_silent C (log_dir_of environ)
                (World (w_fs w) (w_heap w) (w_trace w ++ [EvSetSeed (args_seed args)])
                       (w_clock w))) as Hsilent.
  rewrite Hrot in Hsilent. simpl in Hsilent.
  apply bind_Ret_inv in H as ([] & wa & [= <-] & H).
  apply bind_Ret_inv in H as ([] & wa & [= <-] & H).
  apply bind_Ret_inv in H as ([] & wa & [= <-] & H).
  injection H as <- <-. simpl. rewrite Hsilent, <- !app_assoc. done.
Qed.

Lemma X1_setup_seeds_then_starts_wandb_witness :
  ∃ s w1,
    main_setup Sample.collab (parse_args Sample.no_flags) ∅ false
      (Sample.world_of Sample.base_fs) = (Ret s, w1) ∧
    w_trace w1 = [EvSetSeed 42; EvWandbInit "exp"; EvWandbConfig Sample.model_yaml;
                  EvWandbConfig (su_data_config s)].
Proof.
  destruct (main_setup Sample.collab (parse_args Sample.no_flags) ∅ false
              (Sample.world_of Sample.base_fs)) as [[s|e] w1] eqn:E.
  - exists s, w1. split; [reflexivity|].
    destruct (X1_setup_seeds_then_starts_wandb _ _ _ _ _ _ _ E) as (Htrace & Hmc & _).
    rewrite Htrace.
    assert (Hm : Fs.read (w_fs (Sample.world_of Sample.base_fs))
                   (args_model (parse_args Sample.no_flags))
                 = Ret (Yaml Sample.model_yaml)) by reflexivity.
    rewrite Hm in Hmc. injection Hmc as <-. reflexivity.
  - exfalso. apply (f_equal fst) in E. vm_compute in E. discriminate E.
Defined.

(** X2: a data configuration without a [DATA_PATH] entry stops the run
    with [KeyError], whether or not [SM_CHANNEL_TRAIN] is set: the
    default handed to [os.environ.get] is looked up first.  The run ends
    right after seeding: the file system is as it was, no wandb run was
    started, nothing was built. *)
Theorem X2_missing_data_path_raises_despite_override
    (C : collaborators) (cl : cmdline) (environ : gmap string string) (cuda : bool)
    (w : world) (mc tc dc : config) :
  Fs.read (w_fs w) (args_model (parse_args cl)) = Ret (Yaml mc) →
  Fs.read (w_fs w) (args_teacher_model (parse_args cl)) = Ret (Yaml tc) →
  Fs.read (w_fs w) (args_data (parse_args cl)) = Ret (Yaml dc) →
  dc !! "DATA_PATH" = None →
  main C cl environ cuda w
  = (Raise (Exn KeyError "DATA_PATH"),
     World (w_fs w) (w_heap w) (w_trace w ++ [EvSetSeed (args_seed (parse_args cl))])
           (w_clock w)).
Proof.
  intros Hmc Htc Hdc Hnone. rewrite main_unfold.
  rewrite (main_setup_unfold C _ environ cuda w mc tc dc Hmc Htc Hdc).
  by rewrite (bind_Raise _ _ _ _ _ (getitem_None _ _ _ Hnone)).
Qed.

Lemma X2_missing_data_path_raises_despite_override_witness :
  (main Sample.collab Sample.no_flags (<["SM_CHANNEL_TRAIN" := "/data"]> ∅) false
     (Sample.world_of (<["configs/data/taco.yaml" := File 0 (Yaml ∅)]> Sample.base_fs))).1
  = Raise (Exn KeyError "DATA_PATH").
Proof.
  rewrite (X2_missing_data_path_raises_despite_override Sample.collab Sample.no_flags
             (<["SM_CHANNEL_TRAIN" := "/data"]> ∅) false
             (Sample.world_of (<["configs/data/taco.yaml" := File 0 (Yaml ∅)]> Sample.base_fs))
             Sample.model_yaml ∅ ∅); reflexivity.
Defined.

(** X3: an output directory that exists without a [best.pt] stops the
    run with [FileNotFoundError] at [os.path.getmtime], for any
    configuration and environment.  The run ends right after seeding:
    the directory is neither renamed nor touched, no wandb run was
    started, nothing was built. *)
Theorem X3_output_directory_without_checkpoint_stops_run
    (C : collaborators) (cl : cmdline) (environ : gmap string string) (cuda : bool)
    (w : world) (mc tc dc : config) (configured : yaml) (t : Z) :
  Fs.read (w_fs w) (args_model (parse_args cl)) = Ret (Yaml mc) →
  Fs.read (w_fs w) (args_teacher_model (parse_args cl)) = Ret (Yaml tc) →
  Fs.read (w_fs w) (args_data (parse_args cl)) = Ret (Yaml dc) →
  dc !! "DATA_PATH" = Some configured →
  log_dir_of environ ≠ "" → PyStr.endswith_slash (log_dir_of environ) = false →
  w_fs w !! log_dir_of environ = Some (Dir t) →
  w_fs w !! (log_dir_of environ +:+ "/best.pt") = None →
  main C cl environ cuda w
  = (Raise (Exn FileNotFoundError (log_dir_of environ +:+ "/best.pt")),
     World (w_fs w) (w_heap w) (w_trace w ++ [EvSetSeed (args_seed (parse_args cl))])
           (w_clock w)).
Proof.
  intros Hmc Htc Hdc Hdp Hne Hend Hdir Hnone. rewrite main_unfold.
  rewrite (main_setup_unfold C _ environ cuda w mc tc dc Hmc Htc Hdc).
  rewrite (bind_Ret _ _ _ _ _ (getitem_Some _ _ _ _ Hdp)).
  by erewrite bind_Raise; [|by apply (rotate_without_checkpoint C _ _ t)].
Qed.

Lemma X3_output_directory_without_checkpoint_stops_run_witness :
  (main Sample.collab Sample.no_flags (<["SM_MODEL_DIR" := "exp/latest"]> ∅) true
     (Sample.world_of Sample.fs_after_abort)).1
  = Raise (Exn FileNotFoundError "exp/latest/best.pt").
Proof.
  rewrite (X3_output_directory_without_checkpoint_stops_run Sample.collab Sample.no_flags
             (<["SM_MODEL_DIR" := "exp/latest"]> ∅) true
             (Sample.world_of Sample.fs_after_abort)
             Sample.model_yaml ∅ Sample.data_yaml (YStr "/data") 1630000000);
    try reflexivity.
  intros E. vm_compute in E. discriminate E.
Defined.

(** X4: a data configuration without an [FP16] entry stops the run with
    [KeyError] at the call of the training function, before the function
    is entered; in distillation mode the teacher checkpoint is checked
    first, so that error shows only when the checkpoint is a file. *)
Theorem X4_missing_fp16_raises_before_training
    (C : collaborators) (args : namespace) (s : setup) (w : world) :
  su_data_config s !! "FP16" = None →
  (args_distill_mode args = false →
   main_dispatch C args s w = (Raise (Exn KeyError "FP16"), w)) ∧
  (args_distill_mode args = true → Fs.isfile (w_fs w) (su_tc_ckpt s) = true →
   main_dispatch C args s w = (Raise (Exn KeyError "FP16"), w)) ∧
  (args_distill_mode args = true → Fs.isfile (w_fs w) (su_tc_ckpt s) = false →
   main_dispatch C args s w
   = (Raise (Exn AssertionError ("No ckpt file found at " +:+ su_tc_ckpt s)), w)).
Proof.
  intros Hfp. split_and!.
  - intros Hflag. rewrite dispatch_plain_unfold by done.
    by rewrite (bind_Raise _ _ _ _ _ (getitem_None _ _ w Hfp)).
  - intros Hflag Hfile. rewrite dispatch_distill_unfold by done.
    by rewrite (bind_Raise _ _ _ _ _ (getitem_None _ _ w Hfp)).
  - intros Hflag Hfile. by apply dispatch_assertion.
Qed.

Lemma X4_missing_fp16_raises_before_training_witness :
  main_dispatch Sample.collab (parse_args Sample.no_flags)
    (Setup Sample.model_yaml ∅ "exp/swin_teacher/best.pt" ∅ device_cpu "exp/latest")
    (Sample.world_of Sample.fs_ready)
  = (Raise (Exn KeyError "FP16"), Sample.world_of Sample.fs_ready).
Proof.
  destruct (X4_missing_fp16_raises_before_training Sample.collab
              (parse_args Sample.no_flags)
              (Setup Sample.model_yaml ∅ "exp/swin_teacher/best.pt" ∅ device_cpu "exp/latest")
              (Sample.world_of Sample.fs_ready)) as (H & _).
  - reflexivity.
  - apply H. reflexivity.
Defined.

(** ** The output files and the output directory *)

(** X5: for an output directory with a proper name (not empty, no
    trailing slash) and a file name without slash, [os.path.join] puts
    the file directly in the directory: the joined path is
    [log_dir + "/" + f], [os.path.split] gives back the two parts, and
    the directory that has to exist for the file to be written is
    [log_dir].  In particular the checkpoint [train] writes is the file
    whose time the rotation reads. *)
Theorem X5_output_files_lie_in_log_dir (log_dir f : string) :
  log_dir ≠ "" → PyStr.endswith_slash log_dir = false → PyStr.has_slash f = false →
  OsPath.join log_dir f = log_dir +:+ "/" +:+ f ∧
  Fs.split (OsPath.join log_dir f) = (log_dir, f) ∧
  Fs.parent (OsPath.join log_dir f) = Some log_dir.
Proof.
  intros Hne Hend Hf. split_and!.
  - by apply join_in_dir.
  - unfold Fs.split. rewrite join_in_dir by done. f_equal.
    + by apply dirname_in_dir.
    + rewrite upto_last_slash_app by done.
      rewrite <- (string_app_assoc log_dir "/" f).
      apply str_drop_app_length.
  - by apply parent_in_dir.
Qed.

Lemma X5_output_files_lie_in_log_dir_witness :
  OsPath.join "/opt/ml/model" "best.pt" = "/opt/ml/model" +:+ "/best.pt" ∧
  Fs.parent (OsPath.join "/opt/ml/model" "best.pt") = Some "/opt/ml/model".
Proof.
  destruct (X5_output_files_lie_in_log_dir "/opt/ml/model" "best.pt") as (H1 & _ & H3);
    [discriminate|reflexivity|reflexivity|].
  split; [exact H1|exact H3].
Defined.

(** ** [train] and [train_kd] at their first steps *)

Section first_steps.
Context (C : collaborators).

Lemma write_without_directory (fs : filesystem) (p d : string) :
  Fs.parent p = Some d → (∀ t, fs !! d ≠ Some (Dir t)) →
  ∃ e, (∀ now c, Fs.write now fs p c = Raise e) ∧
       exn_kind_of e ∈ [IsADirectoryError; FileNotFoundError; NotADirectoryError].
Proof.
  intros Hparent Hno. unfold Fs.write, Fs.check_parent. rewrite Hparent.
  destruct (fs !! p) as [[m c0|m]|].
  - case_bool_decide; [eexists; split; [done|set_solver]|].
    destruct (fs !! d) as [[m' c'|m']|] eqn:Hd;
      [eexists; split; [done|set_solver]|by destruct (Hno m')|
       eexists; split; [done|set_solver]].
  - eexists; split; [done|set_solver].
  - case_bool_decide; [eexists; split; [done|set_solver]|].
    destruct (fs !! d) as [[m' c'|m']|] eqn:Hd;
      [eexists; split; [done|set_solver]|by destruct (Hno m')|
       eexists; split; [done|set_solver]].
Qed.

(** The world after the two configuration dumps, the new model and its
    move to the device. *)
Lemma load_student_exact mc dc log_dir dev w :
  output_ready (w_fs w) log_dir →
  load_student C mc dc log_dir dev w
  = (Ret (fresh (dom (w_heap w))),
     World (<[OsPath.join log_dir "model.yml" := File (w_clock w) (Yaml mc)]>
              (<[OsPath.join log_dir "data.yml" := File (w_clock w) (Yaml dc)]> (w_fs w)))
           (<[fresh (dom (w_heap w)) := NnModule (Model_parameters C mc) dev]> (w_heap w))
           (w_trace w) (w_clock w)).
Proof.
  intros Hready. unfold load_student.
  assert (H1 : writable (w_fs w) (OsPath.join log_dir "data.yml"))
    by (apply output_ready_writable; [done|set_solver]).
  pose proof (output_ready_insert _ _ "data.yml" (w_clock w) (Yaml dc) Hready) as Hready1.
  assert (H2 : writable (<[OsPath.join log_dir "data.yml" := File (w_clock w) (Yaml dc)]> (w_fs w))
                        (OsPath.join log_dir "model.yml"))
    by (apply output_ready_writable; [apply Hready1|]; set_solver).
  erewrite bind_Ret; cycle 1.
  { unfold fs_update. by rewrite (write_run _ _ _ _ H1). }
  erewrite bind_Ret; cycle 1.
  { unfold fs_update. simpl. by rewrite (write_run _ _ _ _ H2). }
  erewrite bind_Ret; [|reflexivity].
  unfold Torch.to, bind, get_module, set_module, ret. simpl.
  rewrite lookup_insert_eq. simpl. by rewrite insert_insert_eq.
Qed.

(** [train] up to line 46 does what the first block of [train_kd]
    does. *)
Lemma train_prefix mc dc log_dir fp16 dev w :
  output_ready (w_fs w) log_dir →
  train C mc dc log_dir fp16 dev w
  = training_tail C false (fresh (dom (w_heap w))) None dc log_dir fp16 dev
      (World (<[OsPath.join log_dir "model.yml" := File (w_clock w) (Yaml mc)]>
                (<[OsPath.join log_dir "data.yml" := File (w_clock w) (Yaml dc)]> (w_fs w)))
             (<[fresh (dom (w_heap w)) := NnModule (Model_parameters C mc) dev]> (w_heap w))
             (w_trace w ++ [EvTrain]) (w_clock w)).
Proof.
  intros Hready. rewrite train_unfold.
  erewrite bind_Ret; [|reflexivity].
  pose proof (load_student_exact mc dc log_dir dev
                (World (w_fs w) (w_heap w) (w_trace w ++ [EvTrain]) (w_clock w)) Hready)
    as Hrun.
  unfold load_student in Hrun.
  apply bind_Ret_inv in Hrun as ([] & wa & Ha & Hrun). rewrite (bind_Ret _ _ _ _ _ Ha).
  apply bind_Ret_inv in Hrun as ([] & wb & Hb & Hrun). rewrite (bind_Ret _ _ _ _ _ Hb).
  apply bind_Ret_inv in Hrun as (l & wc & Hc & Hrun). rewrite (bind_Ret _ _ _ _ _ Hc).
  apply bind_Ret_inv in Hrun as ([] & wd & Hd & Hrun). rewrite (bind_Ret _ _ _ _ _ Hd).
  by injection Hrun as -> ->.
Qed.

End first_steps.

(** X6: neither [train] nor [train_kd] makes its output directory.
    Called with a [log_dir] that is not a directory, each stops at the
    first [open] with an [OSError] of one of three kinds, having written
    no file and built no model. *)
Theorem X6_training_does_not_make_its_directory
    (C : collaborators) (mc tc : config) (ckpt : string) (dc : config)
    (log_dir : string) (fp16 : yaml) (dev : device) (w : world) :
  log_dir ≠ "" → PyStr.endswith_slash log_dir = false →
  (∀ t, w_fs w !! log_dir ≠ Some (Dir t)) →
  ∃ e, exn_kind_of e ∈ [IsADirectoryError; FileNotFoundError; NotADirectoryError] ∧
       train C mc dc log_dir fp16 dev w
       = (Raise e, World (w_fs w) (w_heap w) (w_trace w ++ [EvTrain]) (w_clock w)) ∧
       train_kd C mc tc ckpt dc log_dir fp16 dev w
       = (Raise e, World (w_fs w) (w_heap w) (w_trace w ++ [EvTrainKd]) (w_clock w)).
Proof.
  intros Hne Hend Hno.
  destruct (write_without_directory (w_fs w) (OsPath.join log_dir "data.yml") log_dir)
    as (e & He & Hkind); [by apply parent_in_dir|done|].
  exists e. split_and!; [done| |].
  - rewrite train_unfold. erewrite bind_Ret; [|reflexivity].
    erewrite bind_Raise; [reflexivity|].
    unfold fs_update. simpl. by rewrite He.
  - unfold train_kd. erewrite bind_Ret; [|reflexivity].
    erewrite bind_Raise; [reflexivity|]. unfold load_student.
    erewrite bind_Raise; [reflexivity|].
    unfold fs_update. simpl. by rewrite He.
Qed.

Lemma X6_training_does_not_make_its_directory_witness :
  train Sample.collab Sample.model_yaml Sample.data_yaml "exp/latest" (YBool true)
    device_cpu (Sample.world_of Sample.base_fs)
  = (Raise (Exn FileNotFoundError "exp/latest/data.yml"),
     World Sample.base_fs ∅ [EvTrain] 1700000000).
Proof.
  destruct (X6_training_does_not_make_its_directory Sample.collab Sample.model_yaml ∅
              "exp/swin_teacher/best.pt" Sample.data_yaml "exp/latest" (YBool true)
              device_cpu (Sample.world_of Sample.base_fs))
    as (e & _ & Hrun & _); [discriminate|reflexivity|intros t; discriminate|].
  rewrite Hrun. f_equal.
  apply (f_equal fst) in Hrun. vm_compute in Hrun. by injection Hrun as <-.
Defined.

(** X7: [train_kd] reads the teacher checkpoint only after the student
    is set up.  When there is no file at the checkpoint path, the error
    of [torch.load] comes with [data.yml] and [model.yml] (the student's
    configuration) already written, and with both model objects built:
    the student on the device, the teacher still on the CPU. *)
Theorem X7_teacher_checkpoint_read_after_student_setup
    (C : collaborators) (mc tc : config) (ckpt : string) (dc : config)
    (log_dir : string) (fp16 : yaml) (dev : device) (w : world) :
  output_ready (w_fs w) log_dir →
  (∀ t c, w_fs w !! ckpt ≠ Some (File t c)) →
  ckpt ≠ OsPath.join log_dir "data.yml" → ckpt ≠ OsPath.join log_dir "model.yml" →
  let student := fresh (dom (w_heap w)) in
  let heap1 := <[student := NnModule (Model_parameters C mc) dev]> (w_heap w) in
  ∃ e,
    train_kd C mc tc ckpt dc log_dir fp16 dev w
    = (Raise e,
       World (<[OsPath.join log_dir "model.yml" := File (w_clock w) (Yaml mc)]>
                (<[OsPath.join log_dir "data.yml" := File (w_clock w) (Yaml dc)]> (w_fs w)))
             (<[fresh (dom heap1) := NnModule (build_model_parameters C tc) device_cpu]> heap1)
             (w_trace w ++ [EvTrainKd]) (w_clock w)).
Proof.
  intros Hready Hnofile Hc1 Hc2 student heap1.
  assert (Hread : ∃ e, Fs.read (<[OsPath.join log_dir "model.yml" := File (w_clock w) (Yaml mc)]>
                                  (<[OsPath.join log_dir "data.yml" :=
                                       File (w_clock w) (Yaml dc)]> (w_fs w))) ckpt
                       = Raise e).
  { unfold Fs.read. rewrite !lookup_insert_ne by done.
    destruct (w_fs w !! ckpt) as [[t c|t]|] eqn:E; [by destruct (Hnofile t c)|by eexists..]. }
  destruct Hread as [e Hread]. exists e. unfold train_kd.
  erewrite bind_Ret; [|reflexivity].
  rewrite (bind_Ret _ _ _ _ _
             (load_student_exact C mc dc log_dir dev
                (World (w_fs w) (w_heap w) (w_trace w ++ [EvTrainKd]) (w_clock w)) Hready)).
  erewrite bind_Raise; [reflexivity|]. unfold load_teacher.
  erewrite bind_Ret; [|reflexivity].
  erewrite bind_Raise; [reflexivity|]. unfold Torch.load.
  erewrite bind_Raise; [reflexivity|]. unfold fs_try.
  cbn [w_fs w_heap w_trace w_clock]. by rewrite Hread.
Qed.

Lemma X7_teacher_checkpoint_read_after_student_setup_witness :
  (train_kd Sample.collab Sample.model_yaml ∅ "exp/swin_teacher/best.pt" Sample.data_yaml
     "exp/latest" (YBool true) device_cpu
     (Sample.world_of (<["exp/latest" := Dir 0]> Sample.base_fs))).1
  = Raise (Exn FileNotFoundError "exp/swin_teacher/best.pt").
Proof.
  destruct (X7_teacher_checkpoint_read_after_student_setup Sample.collab Sample.model_yaml ∅
              "exp/swin_teacher/best.pt" Sample.data_yaml "exp/latest" (YBool true) device_cpu
              (Sample.world_of (<["exp/latest" := Dir 0]> Sample.base_fs))) as [e Hrun].
  - apply (output_ready_intro _ _ 0); [discriminate|reflexivity|reflexivity|].
    intros f Hf. repeat (apply elem_of_cons in Hf as [->|Hf]; [reflexivity|]).
    apply elem_of_nil in Hf. destruct Hf.
  - intros t c. discriminate.
  - discriminate.
  - discriminate.
  - apply (f_equal fst) in Hrun. rewrite Hrun. vm_compute in Hrun. by rewrite Hrun.
Defined.

(** X8: a data configuration without [INIT_LR] stops [train] with
    [KeyError] at the construction of the optimizer, after both
    configuration files are written and the model is built and moved to
    the device; no checkpoint has been written. *)
Theorem X8_missing_learning_rate_raises_after_dumps
    (C : collaborators) (mc dc : config) (log_dir : string) (fp16 : yaml) (dev : device)
    (w : world) :
  output_ready (w_fs w) log_dir →
  dc !! "INIT_LR" = None →
  train C mc dc log_dir fp16 dev w
  = (Raise (Exn KeyError "INIT_LR"),
     World (<[OsPath.join log_dir "model.yml" := File (w_clock w) (Yaml mc)]>
              (<[OsPath.join log_dir "data.yml" := File (w_clock w) (Yaml dc)]> (w_fs w)))
           (<[fresh (dom (w_heap w)) := NnModule (Model_parameters C mc) dev]> (w_heap w))
           (w_trace w ++ [EvTrain]) (w_clock w)).
Proof.
  intros Hready Hnone. rewrite train_prefix by done. unfold training_tail.
  destruct (create_dataloader C dc) as [[train_dl val_dl] test_dl].
  erewrite bind_Ret; cycle 1.
  { apply parameters_run. simpl. apply lookup_insert_eq. }
  by erewrite bind_Raise; [|by apply getitem_None].
Qed.

Lemma X8_missing_learning_rate_raises_after_dumps_witness :
  (train Sample.collab Sample.model_yaml ∅ "exp/latest" (YBool true) device_cpu
     (Sample.world_of Sample.fs_ready)).1
  = Raise (Exn KeyError "INIT_LR").
Proof.
  rewrite (X8_missing_learning_rate_raises_after_dumps Sample.collab Sample.model_yaml ∅
             "exp/latest" (YBool true) device_cpu (Sample.world_of Sample.fs_ready)).
  - reflexivity.
  - apply (output_ready_intro _ _ 0); [discriminate|reflexivity|reflexivity|].
    intros f Hf. repeat (apply elem_of_cons in Hf as [->|Hf]; [reflexivity|]).
    by apply elem_of_nil in Hf.
  - reflexivity.
Defined.

(** ** An output directory given as a bare name (line 258) *)

Section bare_name.
Import PyStr.
Context (C : collaborators).

Lemma rotated_name_bare (log_dir : string) (m : Z) :
  has_slash log_dir = false → rotated_name C log_dir m = "/" +:+ strftime C m.
Proof. intros H. unfold rotated_name. by rewrite dirname_bare. Qed.

Lemma dirname_at_root (t : string) : has_slash t = false → OsPath.dirname ("/" +:+ t) = "/".
Proof.
  intros H. unfold OsPath.dirname.
  change ("/" +:+ t) with ("" +:+ "/" +:+ t). by rewrite upto_last_slash_app.
Qed.

Lemma bare_not_under_root (s t : string) :
  s ≠ "" → has_slash s = false → Fs.under ("/" +:+ t) s = false.
Proof.
  intros Hne Hs. destruct s as [|c l]; [done|]. apply bare_first_char in Hs.
  unfold Fs.under. apply orb_false_iff. split.
  - apply bool_decide_eq_false_2. intros [= -> _]. done.
  - change (("/" +:+ t) +:+ "/") with (String slash (t +:+ "/")).
    cbn [startswith]. rewrite Ascii.eqb_sym. by rewrite Hs.
Qed.

End bare_name.

(** X9: with an output directory given as a bare name (no slash, as in
    [SM_MODEL_DIR=out]), [os.path.dirname] is empty and the previous
    output is not moved beside the directory but to the root of the file
    system: the new name is ["/" + timestamp], its parent is ["/"], and
    when that name is free the rotation moves the checkpoint to
    ["/" + timestamp + "/best.pt"]. *)
Theorem X9_bare_output_directory_rotates_to_root
    (C : collaborators) (log_dir : string) (w : world) (n : node) (m : Z) :
  log_dir ≠ "" → PyStr.has_slash log_dir = false →
  PyStr.has_slash (strftime C m) = false →
  w_fs w !! log_dir = Some n →
  Fs.getmtime (w_fs w) (log_dir +:+ "/best.pt") = Ret m →
  (∀ k, Fs.under ("/" +:+ strftime C m) k = true → w_fs w !! k = None) →
  rotated_name C log_dir m = "/" +:+ strftime C m ∧
  OsPath.dirname (rotated_name C log_dir m) = "/" ∧
  OsPath.dirname log_dir = "" ∧
  ∃ w', rotate_existing C log_dir w = (Ret tt, w') ∧
        w_fs w' !! log_dir = None ∧
        w_fs w' !! (("/" +:+ strftime C m) +:+ "/best.pt")
        = w_fs w !! (log_dir +:+ "/best.pt").
Proof.
  intros Hne Hbare Hstamp Hdir Hm Hfree.
  pose proof (rotated_name_bare C log_dir m Hbare) as Hname.
  split_and!; [done|by rewrite Hname; apply dirname_at_root|by apply dirname_bare|].
  eexists. split; [|split].
  - apply (rotate_existing_run C log_dir w n m); [done|done|..]; rewrite Hname.
    + intros E. rewrite <- E in Hbare. by cbv in Hbare.
    + rewrite rstrip_slash_id by by apply bare_endswith.
      destruct log_dir as [|c l]; [done|]. apply bare_first_char in Hbare.
      rewrite string_app_cons.
      change ("/" +:+ strftime C m) with (String PyStr.slash (strftime C m)).
      cbn [PyStr.startswith]. by rewrite Hbare.
    + unfold Fs.check_parent, Fs.parent. by rewrite dirname_at_root.
    + apply Hfree. unfold Fs.under. by rewrite bool_decide_eq_true_2.
  - simpl. rewrite Hname, move_lookup by done.
    rewrite bare_not_under_root by done.
    unfold Fs.under. by rewrite bool_decide_eq_true_2.
  - simpl. rewrite Hname, move_lookup by done.
    assert (Fs.under ("/" +:+ strftime C m) (("/" +:+ strftime C m) +:+ "/best.pt") = true)
      as -> by (apply under_spec; eexists; split; [done|by right]).
    by rewrite str_drop_app_length.
Qed.

Lemma X9_bare_output_directory_rotates_to_root_witness :
  rotated_name Sample.collab "out" 1630000000 = "/2021-08-26_17-46-40" ∧
  ∃ w', rotate_existing Sample.collab "out"
          (Sample.world_of (<["out" := Dir 1630000000]>
             (<["out/best.pt" := File 1630000000 (Checkpoint [])]> Sample.base_fs)))
        = (Ret tt, w') ∧
        w_fs w' !! "/2021-08-26_17-46-40/best.pt"
        = Some (File 1630000000 (Checkpoint [])).
Proof.
  destruct (X9_bare_output_directory_rotates_to_root Sample.collab "out"
              (Sample.world_of (<["out" := Dir 1630000000]>
                 (<["out/best.pt" := File 1630000000 (Checkpoint [])]> Sample.base_fs)))
              (Dir 1630000000) 1630000000)
    as (Hname & _ & _ & w' & Hrun & _ & Hmoved).
  - discriminate.
  - reflexivity.
  - reflexivity.
  - reflexivity.
  - reflexivity.
  - intros k Hk. apply eq_None_not_Some. intros [v Hv].
    apply elem_of_map_to_list in Hv.
    assert (Hall : Forall (λ kv : string * node,
                             Fs.under ("/" +:+ strftime Sample.collab 1630000000) kv.1 = false)
                     (map_to_list (w_fs (Sample.world_of
                        (<["out" := Dir 1630000000]>
                           (<["out/best.pt" := File 1630000000 (Checkpoint [])]>
                              Sample.base_fs))))))
      by (apply (bool_decide_unpack _); vm_compute; exact I).
    rewrite Forall_forall in Hall. specialize (Hall (k, v) Hv).
    cbn beta iota delta [fst] in Hall. congruence.
  - split; [exact Hname|]. exists w'. split; [exact Hrun|]. exact Hmoved.
Defined.

(** ** The mapping handed to the teacher (lines 139-142) *)

Section teacher_dict.

Lemma odict_set_NoDup {V} (k : string) (v : V) (d : list (string * V)) :
  NoDup (ODict.keys d) → NoDup (ODict.keys (ODict.set k v d)).
Proof.
  induction d as [|[k0 v0] d IH]; intros H.
  - apply NoDup_singleton.
  - change (ODict.keys ((k0, v0) :: d)) with (k0 :: ODict.keys d) in H.
    apply NoDup_cons in H as [Hnotin Hnd]. simpl. case_bool_decide as E.
    + subst k0. change (NoDup (k :: ODict.keys d)). by apply NoDup_cons.
    + change (NoDup (k0 :: ODict.keys (ODict.set k v d))).
      apply NoDup_cons. split; [|by apply IH].
      intros Hin. apply odict_keys_set in Hin as [->|Hin]; done.
Qed.

Lemma odict_set_length {V} (k : string) (v : V) (d : list (string * V)) :
  (List.length (ODict.set k v d) ≤ S (List.length d))%nat.
Proof.
  induction d as [|[k0 v0] d IH]; simpl; [lia|].
  case_bool_decide; simpl; lia.
Qed.

Lemma odict_set_fresh {V} (k : string) (v : V) (d : list (string * V)) :
  k ∉ ODict.keys d → ODict.set k v d = (d ++ [(k, v)])%list.
Proof.
  induction d as [|[k0 v0] d IH]; intros H; simpl; [done|].
  change (ODict.keys ((k0, v0) :: d)) with (k0 :: ODict.keys d) in H.
  apply not_elem_of_cons in H as [Hne Hnotin].
  rewrite bool_decide_eq_false_2 by done. by rewrite IH.
Qed.

Lemma normalize_foldl_NoDup (sd temp : state_dict) :
  NoDup (ODict.keys temp) → NoDup (ODict.keys (foldl normalize_step temp sd)).
Proof.
  revert temp. induction sd as [|nv sd IH]; intros temp H; simpl; [done|].
  apply IH. by apply odict_set_NoDup.
Qed.

Lemma normalize_foldl_length (sd temp : state_dict) :
  (List.length (foldl normalize_step temp sd) ≤ List.length temp + List.length sd)%nat.
Proof.
  revert temp. induction sd as [|nv sd IH]; intros temp; simpl; [lia|].
  specialize (IH (normalize_step temp nv)).
  pose proof (odict_set_length (normalize_key nv.1) nv.2 temp) as Hlen.
  unfold normalize_step in *. lia.
Qed.

(** Every entry of the result holds a tensor of the checkpoint, saved
    under a raw key that normalises to the entry's name. *)
Lemma normalize_foldl_origin (sd temp : state_dict) (k : string) (v : tensor) :
  ODict.get k (foldl normalize_step temp sd) = Some v →
  ODict.get k temp = Some v ∨ ∃ n, (n, v) ∈ sd ∧ normalize_key n = k.
Proof.
  revert temp. induction sd as [|[n0 v0] sd IH]; intros temp H; simpl in H; [by left|].
  apply IH in H as [H|(n & Hn & Hk)].
  - unfold normalize_step in H. simpl in H.
    destruct (decide (normalize_key n0 = k)) as [<-|Hne].
    + rewrite odict_get_set_eq in H. injection H as <-.
      right. exists n0. split; [set_solver|done].
    + rewrite odict_get_set_ne in H by done. by left.
  - right. exists n. split; [set_solver|done].
Qed.

Lemma normalize_foldl_id (sd temp : state_dict) :
  NoDup (ODict.keys temp ++ ODict.keys sd) →
  (∀ n, n ∈ ODict.keys sd → PyStr.contains "head." n = false) →
  foldl normalize_step temp sd = (temp ++ sd)%list.
Proof.
  revert temp. induction sd as [|[n v] sd IH]; intros temp Hnd Hplain; simpl.
  - by rewrite app_nil_r.
  - change (ODict.keys ((n, v) :: sd)) with (n :: ODict.keys sd) in *.
    assert (Hn : normalize_key n = n).
    { apply replace_absent; [done|]. apply Hplain. set_solver. }
    assert (Hfresh : n ∉ ODict.keys temp).
    { apply NoDup_app in Hnd as (_ & Hdisj & _). intros Hin.
      apply (Hdisj n Hin). set_solver. }
    unfold normalize_step at 2. simpl. rewrite Hn, odict_set_fresh by done.
    rewrite IH.
    + by rewrite <- app_assoc.
    + unfold ODict.keys in *. rewrite fmap_app. simpl.
      rewrite <- app_assoc. exact Hnd.
    + intros n' Hn'. apply Hplain. set_solver.
Qed.

End teacher_dict.

(** X10: whatever the checkpoint holds, the mapping built by the loop of
    lines 139-142 is a proper dictionary: its keys are pairwise distinct
    (raw keys that normalise to the same name share one entry), it has at
    most as many entries as the checkpoint, and every entry holds a
    tensor of the checkpoint, saved under a raw key that normalises to
    the entry's name. *)
Theorem X10_normalised_keys_are_distinct (sd : state_dict) :
  NoDup (ODict.keys (normalize_keys sd)) ∧
  (List.length (normalize_keys sd) ≤ List.length sd)%nat ∧
  (∀ k v, ODict.get k (normalize_keys sd) = Some v →
          ∃ n, (n, v) ∈ sd ∧ normalize_key n = k).
Proof.
  unfold normalize_keys. split_and!.
  - apply normalize_foldl_NoDup. apply NoDup_nil_2.
  - apply (normalize_foldl_length sd []).
  - intros k v H. by apply normalize_foldl_origin in H as [H|H].
Qed.

(** X11: on a checkpoint whose keys are pairwise distinct and hold no
    "head.", the loop of lines 139-142 is the identity: the teacher is
    loaded from the mapping [torch.load] returned, in the same order. *)
Theorem X11_plain_checkpoint_passes_unchanged (sd : state_dict) :
  NoDup (ODict.keys sd) →
  (∀ n, n ∈ ODict.keys sd → PyStr.contains "head." n = false) →
  normalize_keys sd = sd.
Proof. intros Hnd Hplain. by apply (normalize_foldl_id sd []). Qed.

Lemma X11_plain_checkpoint_passes_unchanged_witness :
  normalize_keys [("norm.weight", Sample.unit_tensor 1); ("norm.bias", Sample.unit_tensor 2)]
  = [("norm.weight", Sample.unit_tensor 1); ("norm.bias", Sample.unit_tensor 2)].
Proof.
  apply X11_plain_checkpoint_passes_unchanged.
  - apply (bool_decide_unpack _). vm_compute. exact I.
  - intros n Hn. repeat (apply elem_of_cons in Hn as [->|Hn]; [reflexivity|]).
    by apply elem_of_nil in Hn.
Defined.

(** ** What [os.makedirs] adds (line 261) *)

Section made_directories.
Import PyStr.

Lemma upto_last_slash_prefix (s : string) : ∃ r, s = upto_last_slash s +:+ r.
Proof.
  induction s as [|c s [r IH]]; [by exists ""|].
  cbn [upto_last_slash]. destruct (has_slash s).
  - exists r. rewrite string_app_cons. by f_equal.
  - destruct (Ascii.eqb c slash); [by exists s|by exists (String c s)].
Qed.

Lemma rstrip_slash_prefix (s : string) : ∃ r, s = rstrip_slash s +:+ r.
Proof.
  induction s as [|c s [r IH]]; [by exists ""|].
  cbn [rstrip_slash]. destruct (rstrip_slash s) as [|c' s'] eqn:E.
  - destruct (Ascii.eqb c slash); [by exists (String c s)|].
    exists s. done.
  - exists r. rewrite string_app_cons. by f_equal.
Qed.

Lemma dirname_prefix (p : string) : ∃ r, p = OsPath.dirname p +:+ r.
Proof.
  unfold OsPath.dirname. cbv zeta.
  destruct (upto_last_slash_prefix p) as [r Hr].
  destruct (bool_decide _ || _); [by exists r|].
  destruct (rstrip_slash_prefix (upto_last_slash p)) as [r' Hr'].
  exists (r' +:+ r). by rewrite <- string_app_assoc, <- Hr'.
Qed.

Lemma split_last_prefix (name : string) : ∃ r, name = (Fs.split_last name).1 +:+ r.
Proof.
  unfold Fs.split_last, Fs.split. cbv zeta. cbn [fst snd].
  case_bool_decide; cbn [fst]; [|apply dirname_prefix].
  destruct (dirname_prefix name) as [r1 H1].
  destruct (dirname_prefix (OsPath.dirname name)) as [r2 H2].
  exists (r2 +:+ r1). by rewrite <- string_app_assoc, <- H2.
Qed.

Lemma only_adds_dirs_refl now name fs : only_adds_dirs now name fs fs.
Proof. intros q. by left. Qed.

Lemma only_adds_dirs_longer now head name fs fs' :
  (∃ r, name = head +:+ r) → only_adds_dirs now head fs fs' → only_adds_dirs now name fs fs'.
Proof.
  intros [r0 ->] H q. destruct (H q) as [E|(E1 & E2 & r & ->)]; [by left|right].
  split_and!; [done|done|]. exists (r +:+ r0). apply string_app_assoc.
Qed.

Lemma only_adds_dirs_trans now name fs fs1 fs2 :
  only_adds_dirs now name fs fs1 → only_adds_dirs now name fs1 fs2 →
  only_adds_dirs now name fs fs2.
Proof.
  intros H1 H2 q. destruct (H1 q) as [E1|(E1 & E1' & Hr1)], (H2 q) as [E2|(E2 & E2' & Hr2)].
  - left. congruence.
  - right. split_and!; [congruence|done|done].
  - right. split_and!; [done|congruence|done].
  - congruence.
Qed.

Lemma makedirs_leaf_adds now fs p fs' :
  match Fs.mkdir now fs p with
  | Ret fs2 => Ret fs2
  | Raise e => if Fs.isdir fs p then Ret fs else Raise e
  end = Ret fs' →
  only_adds_dirs now p fs fs'.
Proof.
  unfold Fs.mkdir. destruct (fs !! p) eqn:Hp.
  - destruct (Fs.isdir fs p); [|done]. intros [= <-]. apply only_adds_dirs_refl.
  - assert (Hnodir : Fs.isdir fs p = false) by (unfold Fs.isdir; by rewrite Hp).
    rewrite Hnodir. case_bool_decide; [done|].
    destruct (Fs.check_parent fs p); [|done]. intros [= <-] q.
    destruct (decide (q = p)) as [->|Hne].
    + right. rewrite lookup_insert_eq. split_and!; [done|done|].
      exists "". by rewrite string_app_nil_r.
    + left. by rewrite lookup_insert_ne.
Qed.

Lemma makedirs_rec_adds fuel now fs name fs' :
  Fs.makedirs_rec fuel now fs name = Ret fs' → only_adds_dirs now name fs fs'.
Proof.
  revert fs name fs'. induction fuel as [|fuel IH]; intros fs name fs'; simpl.
  - apply makedirs_leaf_adds.
  - destruct (_ && _); [|apply makedirs_leaf_adds].
    destruct (Fs.makedirs_rec fuel now fs (Fs.split_last name).1) as [fs1|[[] msg]] eqn:E;
      try done.
    + apply IH in E.
      apply (only_adds_dirs_longer _ _ name _ _ (split_last_prefix name)) in E.
      case_bool_decide.
      * by intros [= <-].
      * intros Hleaf. apply makedirs_leaf_adds in Hleaf.
        by apply (only_adds_dirs_trans _ _ _ fs1).
    + case_bool_decide; [|apply makedirs_leaf_adds].
      intros [= <-]. apply only_adds_dirs_refl.
Qed.

End made_directories.

(** ** A run with no previous output *)

Section first_run.
Context (C : collaborators).


Lemma rotate_log_dir_fresh_run log_dir w fs1 :
  Fs.exists_ (w_fs w) log_dir = false →
  Fs.makedirs (w_clock w) (w_fs w) log_dir = Ret fs1 →
  rotate_log_dir C log_dir w = (Ret tt, World fs1 (w_heap w) (w_trace w) (w_clock w)).
Proof.
  intros Hno Hmk. unfold rotate_log_dir, rotate_existing.
  erewrite bind_Ret; cycle 1.
  { erewrite bind_Ret; [|reflexivity]. simpl. rewrite Hno. reflexivity. }
  unfold fs_update. by rewrite Hmk.
Qed.

(** The rotation inside a first half that returns. *)
Lemma main_setup_rotation args environ cuda w s w1 :
  main_setup C args environ cuda w = (Ret s, w1) →
  ∃ wb, rotate_log_dir C (log_dir_of environ)
          (World (w_fs w) (w_heap w) (w_trace w ++ [EvSetSeed (args_seed args)]) (w_clock w))
        = (Ret tt, wb) ∧
        w_fs w1 = w_fs wb.
Proof.
  intros H. unfold main_setup in H.
  apply bind_Ret_inv in H as (mc & wa & Hmc & H).
  apply read_yaml_Ret_inv in Hmc as [_ ->].
  apply bind_Ret_inv in H as (tc & wa & Htc & H).
  apply read_yaml_Ret_inv in Htc as [_ ->].
  apply bind_Ret_inv in H as (dc & wa & Hdc & H).
  apply read_yaml_Ret_inv in Hdc as [Hdc ->].
  apply bind_Ret_inv in H as ([] & wa & [= <-] & H).
  apply bind_Ret_inv in H as (dp & wa & Hdp & H).
  apply getitem_Ret_inv in Hdp as [Hdp ->].
  apply bind_Ret_inv in H as ([] & wb & Hrot & H).
  apply bind_Ret_inv in H as ([] & wa & [= <-] & H).
  apply bind_Ret_inv in H as ([] & wa & [= <-] & H).
  apply bind_Ret_inv in H as ([] & wa & [= <-] & H).
  injection H as <- <-. by exists wb.
Qed.

(** The directory [makedirs] has made is ready for the three files,
    when none of them was there as a directory. *)
Lemma made_directory_ready now fs log_dir fs1 :
  log_dir ≠ "" → PyStr.endswith_slash log_dir = false →
  (Fs.split_last log_dir).2 ≠ "." →
  (∀ f, f ∈ ["data.yml"; "model.yml"; "best.pt"] →
        Fs.isdir fs (OsPath.join log_dir f) = false) →
  Fs.makedirs now fs log_dir = Ret fs1 →
  output_ready fs1 log_dir.
Proof.
  intros Hne Hend Hdot Hfiles Hmk.
  pose proof (makedirs_isdir _ _ _ _ Hdot Hmk) as Hdir.
  unfold Fs.isdir in Hdir. destruct (fs1 !! log_dir) as [[|t]|] eqn:Hl; try done.
  apply (output_ready_intro _ _ t); [done..|].
  intros f Hf. pose proof (output_file_name f Hf) as Hname.
  destruct (makedirs_rec_adds _ _ _ _ _ Hmk (OsPath.join log_dir f)) as [E|(_ & _ & r & E)].
  - unfold Fs.isdir. rewrite E. by apply Hfiles.
  - by apply join_not_prefix in E.
Qed.

End first_run.



(** ** A whole first run *)

Section whole_run.
Context (C : collaborators).

(** The first half on configuration files that can be read, where no
    output directory exists and one can be made. *)
Lemma main_setup_fresh_run args environ cuda w mc tc dc configured fs1 :
  Fs.read (w_fs w) (args_model args) = Ret (Yaml mc) →
  Fs.read (w_fs w) (args_teacher_model args) = Ret (Yaml tc) →
  Fs.read (w_fs w) (args_data args) = Ret (Yaml dc) →
  dc !! "DATA_PATH" = Some configured →
  Fs.exists_ (w_fs w) (log_dir_of environ) = false →
  Fs.makedirs (w_clock w) (w_fs w) (log_dir_of environ) = Ret fs1 →
  let dc' := <["DATA_PATH" := match environ !! "SM_CHANNEL_TRAIN" with
                              | Some v => YStr v
                              | None => configured
                              end]> dc in
  main_setup C args environ cuda w
  = (Ret (Setup mc tc (args_teacher_checkpoints args) dc' (device_of cuda)
            (log_dir_of environ)),
     World fs1 (w_heap w)
           (w_trace w ++ [EvSetSeed (args_seed args); EvWandbInit (args_run_name args);
                          EvWandbConfig mc; EvWandbConfig dc'])
           (w_clock w)).
Proof.
  intros Hmc Htc Hdc Hdp Hno Hmk dc'.
  rewrite (main_setup_unfold C _ environ cuda w mc tc dc Hmc Htc Hdc).
  rewrite (bind_Ret _ _ _ _ _ (getitem_Some _ _ _ _ Hdp)).
  erewrite bind_Ret; cycle 1.
  { by apply rotate_log_dir_fresh_run. }
  unfold bind, emit, ret. simpl. by rewrite <- !app_assoc.
Qed.



End whole_run.



(** ** A teacher checkpoint inside the output directory *)

Section rotated_away.
Context (C : collaborators).

Lemma rename_result fs src dst fs' :
  Fs.rename fs src dst = Ret fs' →
  (src = dst ∧ fs' = fs) ∨ fs' = Fs.move src dst fs ∨ fs' = Fs.move src dst (delete dst fs).
Proof.
  unfold Fs.rename. destruct (fs !! src) as [n|]; [|done].
  case_bool_decide; [intros [= <-]; by left|].
  destruct (PyStr.startswith _ _); [done|].
  destruct (Fs.check_parent fs dst); [|done].
  destruct (fs !! dst) as [[m c|m]|], n as [m' c'|m']; try done;
    try destruct (Fs.has_children fs dst); try done; intros [= <-]; eauto.
Qed.

(** What lay in the moved tree is no longer at its old path. *)
Lemma move_gone src dst fs p :
  Fs.under src p = true → Fs.under dst p = false → Fs.move src dst fs !! p = None.
Proof.
  intros Hsrc Hdst. apply eq_None_not_Some. intros [v Hv].
  unfold Fs.move in Hv. apply elem_of_list_to_map_2, elem_of_move_list in Hv as (k & Hk & Hp).
  unfold Fs.rekey in Hp. destruct (Fs.under src k) eqn:Hk_src.
  - apply under_spec in Hk_src as (r & -> & Hr).
    rewrite str_drop_app_length in Hp. subst p.
    assert (Fs.under dst (dst +:+ r) = true) by (apply under_spec; eauto). congruence.
  - subst k. congruence.
Qed.

(** Lines 256-259 on an output directory that exists. *)
Lemma rotate_existing_inv log_dir w n w' :
  w_fs w !! log_dir = Some n →
  rotate_existing C log_dir w = (Ret tt, w') →
  ∃ m, Fs.getmtime (w_fs w) (log_dir +:+ "/best.pt") = Ret m ∧
       Fs.rename (w_fs w) log_dir (rotated_name C log_dir m) = Ret (w_fs w').
Proof.
  intros Hdir H. unfold rotate_existing in H.
  apply bind_Ret_inv in H as (present & wa & Hq & H).
  unfold fs_query in Hq. injection Hq as <- <-.
  unfold Fs.exists_ in H. rewrite bool_decide_eq_true_2 in H by (by eexists).
  apply bind_Ret_inv in H as (m & wa & Hm & H).
  unfold fs_try in Hm. injection Hm as Hm <-.
  apply fs_update_Ret_inv in H as (fs' & H & ->). by exists m.
Qed.

(** After a rotation that moved the output directory, nothing that lay
    in it is a file at its old path. *)
Lemma rotated_away log_dir w n w' p :
  w_fs w !! log_dir = Some n →
  Fs.under log_dir p = true →
  (∀ m, Fs.getmtime (w_fs w) (log_dir +:+ "/best.pt") = Ret m →
        Fs.under (rotated_name C log_dir m) p = false) →
  rotate_log_dir C log_dir w = (Ret tt, w') →
  Fs.isfile (w_fs w') p = false.
Proof.
  intros Hdir Hin Hout H. unfold rotate_log_dir in H.
  apply bind_Ret_inv in H as ([] & w2 & Hrot & H).
  apply fs_update_Ret_inv in H as (fs' & Hmk & ->). simpl.
  rewrite (makedirs_isfile _ _ _ _ p Hmk).
  apply (rotate_existing_inv _ _ n) in Hrot as (m & Hm & Hren); [|done].
  specialize (Hout m Hm).
  unfold Fs.isfile.
  apply rename_result in Hren as [[E _]|[->| ->]].
  - rewrite <- E in Hout. congruence.
  - by rewrite move_gone.
  - by rewrite move_gone.
Qed.

End rotated_away.

(** X15: the teacher checkpoint cannot be taken from an output directory
    that is about to be rotated.  With the distillation flag set and
    [--teacher_checkpoints] naming a path inside the existing output
    directory (the [best.pt] of the previous run, say), the rotation
    moves the file away before the assertion looks for it: whenever the
    first half of [__main__] returns, the run stops with
    [AssertionError], and no run returns. *)
Theorem X15_teacher_checkpoint_in_output_directory_is_lost
    (C : collaborators) (cl : cmdline) (environ : gmap string string) (cuda : bool)
    (w : world) (n : node) :
  let ckpt := args_teacher_checkpoints (parse_args cl) in
  let log_dir := log_dir_of environ in
  args_distill_mode (parse_args cl) = true →
  w_fs w !! log_dir = Some n →
  Fs.under log_dir ckpt = true →
  (∀ m, Fs.getmtime (w_fs w) (log_dir +:+ "/best.pt") = Ret m →
        Fs.under (rotated_name C log_dir m) ckpt = false) →
  (∀ s w1, main_setup C (parse_args cl) environ cuda w = (Ret s, w1) →
           main C cl environ cuda w
           = (Raise (Exn AssertionError ("No ckpt file found at " +:+ ckpt)), w1)) ∧
  (∀ r w', main C cl environ cuda w ≠ (Ret r, w')).
Proof.
  intros ckpt log_dir Hflag Hdir Hin Hout.
  assert (Hstop : ∀ s w1, main_setup C (parse_args cl) environ cuda w = (Ret s, w1) →
            main C cl environ cuda w
            = (Raise (Exn AssertionError ("No ckpt file found at " +:+ ckpt)), w1)).
  { intros s w1 H. rewrite main_unfold, H.
    destruct (main_setup_Ret_inv C _ _ _ _ _ _ H) as (Hckpt & _).
    apply main_setup_rotation in H as (wb & Hrot & Hfs).
    apply (rotated_away C _ _ n _ ckpt) in Hrot; [|done..].
    rewrite dispatch_assertion; [by rewrite Hckpt|done|].
    by rewrite Hckpt, Hfs. }
  split; [done|]. intros r w' H.
  rewrite main_unfold in H.
  destruct (main_setup C (parse_args cl) environ cuda w) as [[s|e] w1] eqn:E; [|done].
  specialize (Hstop s w1 eq_refl). rewrite main_unfold, E in Hstop. congruence.
Qed.

Lemma X15_teacher_checkpoint_in_output_directory_is_lost_witness :
  (main Sample.collab
     (Cmdline None None (Some "exp/latest/best.pt") (Some "True") None None None) ∅ false
     (Sample.world_of Sample.fs_after_run)).1
  = Raise (Exn AssertionError "No ckpt file found at exp/latest/best.pt").
Proof.
  destruct (main_setup Sample.collab
              (parse_args (Cmdline None None (Some "exp/latest/best.pt") (Some "True")
                             None None None)) ∅ false
              (Sample.world_of Sample.fs_after_run)) as [[s|e] w1] eqn:E.
  - destruct (X15_teacher_checkpoint_in_output_directory_is_lost Sample.collab
                (Cmdline None None (Some "exp/latest/best.pt") (Some "True") None None None)
                ∅ false (Sample.world_of Sample.fs_after_run) (Dir 1630000000))
      as [Hstop _].
    + reflexivity.
    + reflexivity.
    + reflexivity.
    + intros m Hm. vm_compute in Hm. injection Hm as <-. reflexivity.
    + by rewrite (Hstop s w1 E).
  - exfalso. apply (f_equal fst) in E. vm_compute in E. discriminate E.
Defined.

(** ** The output directory after the first half *)

Section ready_after_setup.
Context (C : collaborators).

(** Lines 256-259 on an output directory that exists either leave the
    file system alone (the new name is the old one) or empty the old
    place. *)
Lemma rotate_existing_clears log_dir w n w' :
  w_fs w !! log_dir = Some n →
  rotate_existing C log_dir w = (Ret tt, w') →
  ∃ m, Fs.getmtime (w_fs w) (log_dir +:+ "/best.pt") = Ret m ∧
       (w_fs w' = w_fs w ∨
        ∀ p, Fs.under log_dir p = true → Fs.under (rotated_name C log_dir m) p = false →
             w_fs w' !! p = None).
Proof.
  intros Hdir H.
  apply (rotate_existing_inv C _ _ n) in H as (m & Hm & Hren); [|done].
  exists m. split; [done|].
  apply rename_result in Hren as [[_ ->]|[->| ->]]; [by left|right..];
    intros p Hin Hout; by apply move_gone.
Qed.

Lemma rotate_existing_absent log_dir w :
  Fs.exists_ (w_fs w) log_dir = false → rotate_existing C log_dir w = (Ret tt, w).
Proof.
  intros Hno. unfold rotate_existing.
  erewrite bind_Ret; [|reflexivity]. simpl. by rewrite Hno.
Qed.

(** After lines 256-261 the three files can be written. *)
Lemma rotate_log_dir_ready log_dir w w' :
  log_dir ≠ "" → PyStr.endswith_slash log_dir = false →
  (Fs.split_last log_dir).2 ≠ "." →
  (∀ f, f ∈ ["data.yml"; "model.yml"; "best.pt"] →
        Fs.isdir (w_fs w) (OsPath.join log_dir f) = false) →
  (∀ m f, f ∈ ["data.yml"; "model.yml"; "best.pt"] →
          Fs.getmtime (w_fs w) (log_dir +:+ "/best.pt") = Ret m →
          Fs.under (rotated_name C log_dir m) (OsPath.join log_dir f) = false) →
  rotate_log_dir C log_dir w = (Ret tt, w') →
  output_ready (w_fs w') log_dir.
Proof.
  intros Hne Hend Hdot Hfiles Hout H. unfold rotate_log_dir in H.
  apply bind_Ret_inv in H as ([] & w2 & Hrot & H).
  apply fs_update_Ret_inv in H as (fs' & Hmk & ->). simpl.
  apply (made_directory_ready (w_clock w2) (w_fs w2)); [done..| |done].
  intros f Hf. destruct (w_fs w !! log_dir) as [n|] eqn:Hdir.
  - apply (rotate_existing_clears _ _ n _ Hdir) in Hrot as (m & Hm & [E|Hgone]).
    + rewrite E. by apply Hfiles.
    + unfold Fs.isdir. rewrite Hgone; [done| |by apply (Hout m)].
      rewrite join_in_dir by (done || by apply output_file_name).
      apply under_spec. eexists. split; [done|]. by right.
  - rewrite rotate_existing_absent in Hrot.
    + injection Hrot as <-. by apply Hfiles.
    + unfold Fs.exists_. apply bool_decide_eq_false_2. rewrite Hdir. by intros [? ?].
Qed.

End ready_after_setup.

(** X13: the first half of [__main__] leaves what [train] and
    [train_kd] need for their files.  Whether it found an output
    directory and moved it away or found none, when it returns the
    output directory is a directory and each of [data.yml], [model.yml]
    and [best.pt] can be written in it.  This holds for an output
    directory with a proper name (not empty, no trailing slash, last
    component not "."), in which none of the three names was a
    directory, and a rotated name that is not a prefix of them. *)
Theorem X13_setup_leaves_output_directory_ready
    (C : collaborators) (args : namespace) (environ : gmap string string) (cuda : bool)
    (w : world) (s : setup) (w1 : world) :
  let log_dir := log_dir_of environ in
  log_dir ≠ "" → PyStr.endswith_slash log_dir = false →
  (Fs.split_last log_dir).2 ≠ "." →
  (∀ f, f ∈ ["data.yml"; "model.yml"; "best.pt"] →
        Fs.isdir (w_fs w) (OsPath.join log_dir f) = false) →
  (∀ m f, f ∈ ["data.yml"; "model.yml"; "best.pt"] →
          Fs.getmtime (w_fs w) (log_dir +:+ "/best.pt") = Ret m →
          Fs.under (rotated_name C log_dir m) (OsPath.join log_dir f) = false) →
  main_setup C args environ cuda w = (Ret s, w1) →
  su_log_dir s = log_dir ∧
  output_ready (w_fs w1) (su_log_dir s) ∧
  ∀ f, f ∈ ["data.yml"; "model.yml"; "best.pt"] →
       writable (w_fs w1) (OsPath.join (su_log_dir s) f).
Proof.
  intros log_dir Hne Hend Hdot Hfiles Hout H.
  destruct (main_setup_Ret_inv C _ _ _ _ _ _ H) as (_ & Hlog & _).
  apply main_setup_rotation in H as (wb & Hrot & Hfs).
  apply rotate_log_dir_ready in Hrot; [|done..].
  rewrite Hlog, Hfs. split_and!; [done|done|].
  intros f Hf. by apply output_ready_writable.
Qed.

Lemma X13_setup_leaves_output_directory_ready_witness :
  ∃ s w1,
    main_setup Sample.collab (parse_args Sample.no_flags) ∅ false
      (Sample.world_of Sample.fs_after_run) = (Ret s, w1) ∧
    output_ready (w_fs w1) (su_log_dir s).
Proof.
  destruct (main_setup Sample.collab (parse_args Sample.no_flags) ∅ false
              (Sample.world_of Sample.fs_after_run)) as [[s|e] w1] eqn:E.
  - exists s, w1. split; [reflexivity|].
    destruct (X13_setup_leaves_output_directory_ready Sample.collab
                (parse_args Sample.no_flags) ∅ false (Sample.world_of Sample.fs_after_run)
                s w1) as (_ & H & _); [discriminate|reflexivity|discriminate|..|exact E|exact H].
    + intros f Hf. repeat (apply elem_of_cons in Hf as [->|Hf]; [reflexivity|]).
      apply elem_of_nil in Hf. destruct Hf.
    + intros m f Hf Hm. vm_compute in Hm. injection Hm as <-.
      repeat (apply elem_of_cons in Hf as [->|Hf]; [vm_compute; reflexivity|]).
      apply elem_of_nil in Hf. destruct Hf.
  - exfalso. apply (f_equal fst) in E. vm_compute in E. discriminate E.
Defined.


(** X16: the teacher's configuration is loaded on every run, with or
    without the distillation flag (line 246).  When [get_config] fails
    on [args.teacher_model], the run ends with that error, before the
    data configuration is read and before anything is seeded. *)
Theorem X16_teacher_configuration_needed_without_distillation
    (C : collaborators) (cl : cmdline) (environ : gmap string string) (cuda : bool)
    (w : world) (mc : config) (e : exn) (w' : world) :
  Fs.read (w_fs w) (args_model (parse_args cl)) = Ret (Yaml mc) →
  get_config (args_teacher_model (parse_args cl)) w = (Raise e, w') →
  main C cl environ cuda w = (Raise e, w').
Proof.
  intros Hmc Hget. rewrite main_unfold. unfold main_setup.
  rewrite (bind_Ret _ _ _ _ _ (read_yaml_run _ w mc Hmc)).
  by rewrite (bind_Raise _ _ _ _ _ Hget).
Qed.

Lemma X16_teacher_configuration_needed_without_distillation_witness :
  main Sample.collab Sample.no_flags ∅ false
    (Sample.world_of (delete "swin/configs/swin_base_patch4_window7_224.yaml" Sample.base_fs))
  = (Raise (Exn FileNotFoundError "swin/configs/swin_base_patch4_window7_224.yaml"),
     Sample.world_of (delete "swin/configs/swin_base_patch4_window7_224.yaml" Sample.base_fs)).
Proof.
  apply (X16_teacher_configuration_needed_without_distillation Sample.collab Sample.no_flags
           ∅ false _ Sample.model_yaml); reflexivity.
Defined.


(** X17: a distillation run that fails the assertion blocks the next
    run.  On a first run with the flag set and no teacher checkpoint,
    the output directory has been made when the assertion fails, and
    stays, empty.  Any later run on the same configuration files, with or
    without the flag and whatever else has changed in between, then
    stops in the rotation with [FileNotFoundError]: the directory is
    there and holds no [best.pt]. *)
Theorem X17_failed_assertion_blocks_next_run
    (C : collaborators) (cl : cmdline) (environ : gmap string string) (cuda : bool)
    (w : world) (mc tc dc : config) (configured : yaml) (fs1 : filesystem) :
  let args := parse_args cl in
  let log_dir := log_dir_of environ in
  Fs.read (w_fs w) (args_model args) = Ret (Yaml mc) →
  Fs.read (w_fs w) (args_teacher_model args) = Ret (Yaml tc) →
  Fs.read (w_fs w) (args_data args) = Ret (Yaml dc) →
  dc !! "DATA_PATH" = Some configured →
  args_distill_mode args = true →
  Fs.isfile (w_fs w) (args_teacher_checkpoints args) = false →
  Fs.exists_ (w_fs w) log_dir = false →
  w_fs w !! (log_dir +:+ "/best.pt") = None →
  log_dir ≠ "" → PyStr.endswith_slash log_dir = false →
  (Fs.split_last log_dir).2 ≠ "." →
  Fs.makedirs (w_clock w) (w_fs w) log_dir = Ret fs1 →
  (∃ w1, main C cl environ cuda w
         = (Raise (Exn AssertionError
                     ("No ckpt file found at " +:+ args_teacher_checkpoints args)), w1) ∧
         w_fs w1 = fs1) ∧
  ∀ cl' cuda' w2,
    args_model (parse_args cl') = args_model args →
    args_teacher_model (parse_args cl') = args_teacher_model args →
    args_data (parse_args cl') = args_data args →
    (∀ q, q ∈ [args_model args; args_teacher_model args; args_data args;
               log_dir; log_dir +:+ "/best.pt"] → w_fs w2 !! q = fs1 !! q) →
    main C cl' environ cuda' w2
    = (Raise (Exn FileNotFoundError (log_dir +:+ "/best.pt")),
       World (w_fs w2) (w_heap w2) (w_trace w2 ++ [EvSetSeed (args_seed (parse_args cl'))])
             (w_clock w2)).
Proof.
  intros args log_dir Hmc Htc Hdc Hdp Hflag Hckpt Hno Hbest Hne Hend Hdot Hmk.
  pose proof (makedirs_rec_adds _ _ _ _ _ Hmk) as Hadds.
  split.
  - eexists. split.
    + rewrite main_unfold. fold args.
      rewrite (main_setup_fresh_run C args environ cuda w mc tc dc configured fs1) by done.
      apply dispatch_assertion; [done|]. cbn [w_fs su_tc_ckpt].
      by rewrite (makedirs_isfile _ _ _ _ _ Hmk).
    + done.
  - intros cl' cuda' w2 Emc Etc Edc Hsame.
    assert (Hkept : ∀ p c, Fs.read (w_fs w) p = Ret c → fs1 !! p = w_fs w !! p).
    { intros p c Hp. destruct (Hadds p) as [E|(E & _)]; [done|].
      unfold Fs.read in Hp. by rewrite E in Hp. }
    assert (Hread : ∀ p c, p ∈ [args_model args; args_teacher_model args; args_data args] →
                           Fs.read (w_fs w) p = Ret c → Fs.read (w_fs w2) p = Ret c).
    { intros p c Hp Hc. unfold Fs.read. rewrite Hsame by set_solver.
      rewrite (Hkept p c Hc). exact Hc. }
    rewrite main_unfold.
    rewrite (main_setup_unfold C _ environ cuda' w2 mc tc dc);
      [|rewrite ?Emc, ?Etc, ?Edc; apply Hread; [set_solver|done]..].
    rewrite (bind_Ret _ _ _ _ _ (getitem_Some _ _ _ _ Hdp)).
    pose proof (makedirs_isdir _ _ _ _ Hdot Hmk) as Hdir.
    unfold Fs.isdir in Hdir. fold log_dir in Hdir.
    destruct (fs1 !! log_dir) as [[|t]|] eqn:Hl; try done.
    erewrite bind_Raise; [done|].
    apply (rotate_without_checkpoint C _ _ t); cbn [w_fs]; [done|done|..].
    + rewrite Hsame by set_solver. done.
    + rewrite Hsame by set_solver. fold log_dir.
      destruct (Hadds (log_dir +:+ "/best.pt")) as [E|(_ & _ & r & E)];
        [by rewrite E|].
      apply (f_equal String.length) in E. fold log_dir in E.
      rewrite !str_length_app in E. simpl in E. lia.
Qed.

Lemma X17_failed_assertion_blocks_next_run_witness :
  (main Sample.collab (Sample.distill_flag "True") ∅ false
     (Sample.world_of Sample.base_fs)).1
  = Raise (Exn AssertionError "No ckpt file found at exp/swin_teacher/best.pt") ∧
  (main Sample.collab Sample.no_flags ∅ false
     (Sample.world_of (<["exp/latest" := Dir 1700000000]>
                         (<["exp" := Dir 1700000000]> Sample.base_fs)))).1
  = Raise (Exn FileNotFoundError "exp/latest/best.pt").
Proof.
  destruct (X17_failed_assertion_blocks_next_run Sample.collab (Sample.distill_flag "True")
              ∅ false (Sample.world_of Sample.base_fs) Sample.model_yaml ∅ Sample.data_yaml
              (YStr "/data")
              (<["exp/latest" := Dir 1700000000]> (<["exp" := Dir 1700000000]> Sample.base_fs)))
    as [(w1 & Hfirst & _) Hnext].
  - reflexivity.
  - reflexivity.
  - reflexivity.
  - reflexivity.
  - reflexivity.
  - reflexivity.
  - reflexivity.
  - reflexivity.
  - discriminate.
  - reflexivity.
  - discriminate.
  - vm_compute. reflexivity.
  - split.
    + by rewrite Hfirst.
    + rewrite (Hnext Sample.no_flags false
                 (Sample.world_of (<["exp/latest" := Dir 1700000000]>
                                     (<["exp" := Dir 1700000000]> Sample.base_fs))));
        reflexivity || (intros q _; reflexivity).
Defined.
